(** * BM3D (CPU) VapourSynth wrapper: frame-window and buffer orchestration

    A shallow embedding of [cpu_source/source.cpp]: the filter instance data
    [BM3DData], its construction [BM3DCreate], the video-info callback
    [BM3DInit] and the per-frame callback [BM3DGetFrame].  The filtering
    kernel [bm3d<temporal, chroma, final>] and the host API are external: a
    call to either is recorded as an event, in program order. *)

From Stdlib Require Import ZArith Lia Bool List Ascii String.
From Stdlib Require Import Floats.SpecFloat.
From stdpp Require Import gmap strings list.

Local Open Scope Z_scope.

(** ** Machine integers *)

(** [int] is a 32-bit signed integer.  Arithmetic on it is written with its
    two's-complement wrap-around ([Int.wrap]); the theorems below carry the
    range hypotheses under which no operation wraps. *)
Module Int.

Definition INT_MAX : Z := 2147483647.
Definition INT_MIN : Z := -2147483648.

Definition wrap (z : Z) : Z := (z - INT_MIN) mod 2 ^ 32 + INT_MIN.

Definition add (a b : Z) : Z := wrap (a + b).
Definition sub (a b : Z) : Z := wrap (a - b).
Definition mul (a b : Z) : Z := wrap (a * b).
Definition neg (a : Z) : Z := wrap (- a).

Definition in_range (z : Z) : Prop := INT_MIN <= z <= INT_MAX.

End Int.

(** [size_t] is a 64-bit unsigned integer: byte counts are computed in it. *)
Module Size.

Definition wrap (z : Z) : Z := z mod 2 ^ 64.
Definition mul (a b : Z) : Z := wrap (a * b).
Definition div (a b : Z) : Z := wrap a / wrap b.
Definition sizeof_float : Z := 4.

End Size.

(** [int64ToIntS] of VSHelper.h: saturating conversion of an [int64_t]. *)
Definition int64ToIntS (i : Z) : Z :=
  if Int.INT_MAX <? i then Int.INT_MAX
  else if i <? Int.INT_MIN then Int.INT_MIN
  else i.

(** ** Single-precision floats

    [float] values are IEEE-754 binary32 numbers, every operation rounding to
    nearest-even ([SpecFloat] at precision 24, maximal exponent 128). *)
Module F32.

Definition prec : Z := 24.
Definition emax : Z := 128.

Definition float : Type := spec_float.

Definition mul : float -> float -> float := SFmul prec emax.
Definition div : float -> float -> float := SFdiv prec emax.
Definition ltb : float -> float -> bool := SFltb.
Definition eqb : float -> float -> bool := SFeqb.

(** An integer literal written with the [f] suffix. *)
Definition of_Z (z : Z) : float := binary_normalize prec emax z 0 false.

(** [static_cast<float>] of a [double]. *)
Definition of_double (x : spec_float) : float :=
  match x with
  | S754_finite s m e => binary_round prec emax s m e
  | _ => x
  end.

Definition zero : float := S754_zero false.

(** [2.7f]: the binary32 number nearest to 27/10. *)
Definition lit_2_7 : float := div (of_Z 27) (of_Z 10).

(** [std::numeric_limits<float>::epsilon()], that is 2^-23. *)
Definition epsilon : float := binary_normalize prec emax 1 (-23) false.

End F32.

(** A [double] holding a small integer, as a caller would pass it. *)
Definition double_of_Z (z : Z) : spec_float := binary_normalize 53 1024 z 0 false.

(** ** The host interface (VapourSynth.h), as far as the filter reads it *)

Module VS.

Inductive VSSampleType := stInteger | stFloat.

Definition sample_eqb (a b : VSSampleType) : bool :=
  match a, b with
  | stInteger, stInteger | stFloat, stFloat => true
  | _, _ => false
  end.

Record VSFormat := {
  id : Z;
  sampleType : VSSampleType;
  bitsPerSample : Z;
  bytesPerSample : Z;
  subSamplingW : Z;
  subSamplingH : Z;
  numPlanes : Z
}.

(** [format] is a pointer in the header: [None] is the null pointer of a
    clip whose format varies. *)
Record VSVideoInfo := {
  format : option VSFormat;
  width : Z;
  height : Z;
  numFrames : Z
}.

(** The preset id of planar YUV 4:4:4 with 32-bit float samples. *)
Definition pfYUV444PS : Z := 3000026.

(** A node handle; [getVideoInfo] reads the video info of its clip. *)
Record VSNodeRef := { node_id : nat; getVideoInfo : VSVideoInfo }.

(** A frame handle obtained from the host: frame [frame_n] of a node. *)
Record VSFrameRef := { frame_node : VSNodeRef; frame_n : Z }.

Inductive VSActivationReason := arInitial | arFrameReady | arAllFramesReady | arError.

Inductive VSPropAppendMode := paReplace | paAppend | paTouch.

Inductive VSFilterMode := fmParallel | fmParallelRequests | fmUnordered | fmSerial.

(** Reading through a format pointer.  The null pointer is never read on a
    path that passed [isConstantFormat]; where it would be, the read is
    undefined in the source and gives zeros here. *)
Definition null_format : VSFormat :=
  {| id := 0; sampleType := stInteger; bitsPerSample := 0; bytesPerSample := 0;
     subSamplingW := 0; subSamplingH := 0; numPlanes := 0 |}.

Definition deref (f : option VSFormat) : VSFormat :=
  match f with Some x => x | None => null_format end.

(** [isConstantFormat] of VSHelper.h. *)
Definition isConstantFormat (vi : VSVideoInfo) : bool :=
  (0 <? height vi) && (0 <? width vi)
  && match format vi with Some _ => true | None => false end.

(** Plane geometry of a frame of a constant-format clip. *)
Definition getFrameWidth (f : VSFrameRef) (plane : Z) : Z :=
  let vi := getVideoInfo (frame_node f) in
  Z.shiftr (width vi) (if plane =? 0 then 0 else subSamplingW (deref (format vi))).

Definition getFrameHeight (f : VSFrameRef) (plane : Z) : Z :=
  let vi := getVideoInfo (frame_node f) in
  Z.shiftr (height vi) (if plane =? 0 then 0 else subSamplingH (deref (format vi))).

End VS.
Import VS.

(** Addresses the filter handles: the null pointer, a plane of a source or
    reference frame ([getReadPtr]), a plane of the frame being produced
    ([getWritePtr]) and a block returned by the allocator, named by the
    number of allocations made before it. *)
Inductive ptr :=
| nullptr
| getReadPtr (f : VSFrameRef) (plane : Z)
| getWritePtr (plane : Z)
| heap_block (a : nat).

(** [std::thread::id] *)
Definition thread_id : Type := nat.

(** ** Filter instance data *)

Record BM3DData := {
  node : VSNodeRef;
  ref_node : option VSNodeRef;
  vi : VSVideoInfo;
  sigma : list F32.float;
  block_step : list Z;
  bm_range : list Z;
  radius : Z;
  ps_num : list Z;
  ps_range : list Z;
  chroma : bool;
  process : list bool;
  buffer : gmap thread_id ptr
}.

Definition with_ref_node (r : option VSNodeRef) (d : BM3DData) : BM3DData :=
  Build_BM3DData (node d) r (vi d) (sigma d) (block_step d) (bm_range d)
    (radius d) (ps_num d) (ps_range d) (chroma d) (process d) (buffer d).
Definition with_sigma (x : list F32.float) (d : BM3DData) : BM3DData :=
  Build_BM3DData (node d) (ref_node d) (vi d) x (block_step d) (bm_range d)
    (radius d) (ps_num d) (ps_range d) (chroma d) (process d) (buffer d).
Definition with_block_step (x : list Z) (d : BM3DData) : BM3DData :=
  Build_BM3DData (node d) (ref_node d) (vi d) (sigma d) x (bm_range d)
    (radius d) (ps_num d) (ps_range d) (chroma d) (process d) (buffer d).
Definition with_bm_range (x : list Z) (d : BM3DData) : BM3DData :=
  Build_BM3DData (node d) (ref_node d) (vi d) (sigma d) (block_step d) x
    (radius d) (ps_num d) (ps_range d) (chroma d) (process d) (buffer d).
Definition with_radius (x : Z) (d : BM3DData) : BM3DData :=
  Build_BM3DData (node d) (ref_node d) (vi d) (sigma d) (block_step d) (bm_range d)
    x (ps_num d) (ps_range d) (chroma d) (process d) (buffer d).
Definition with_ps_num (x : list Z) (d : BM3DData) : BM3DData :=
  Build_BM3DData (node d) (ref_node d) (vi d) (sigma d) (block_step d) (bm_range d)
    (radius d) x (ps_range d) (chroma d) (process d) (buffer d).
Definition with_ps_range (x : list Z) (d : BM3DData) : BM3DData :=
  Build_BM3DData (node d) (ref_node d) (vi d) (sigma d) (block_step d) (bm_range d)
    (radius d) (ps_num d) x (chroma d) (process d) (buffer d).
Definition with_chroma (x : bool) (d : BM3DData) : BM3DData :=
  Build_BM3DData (node d) (ref_node d) (vi d) (sigma d) (block_step d) (bm_range d)
    (radius d) (ps_num d) (ps_range d) x (process d) (buffer d).
Definition with_process (x : list bool) (d : BM3DData) : BM3DData :=
  Build_BM3DData (node d) (ref_node d) (vi d) (sigma d) (block_step d) (bm_range d)
    (radius d) (ps_num d) (ps_range d) (chroma d) x (buffer d).
Definition with_buffer (x : gmap thread_id ptr) (d : BM3DData) : BM3DData :=
  Build_BM3DData (node d) (ref_node d) (vi d) (sigma d) (block_step d) (bm_range d)
    (radius d) (ps_num d) (ps_range d) (chroma d) (process d) x.

(** ** Calls that leave the filter *)

(** One instantiation [bm3d<temporal, chroma, final_>] with its arguments, in
    the order of the call.  [refps] is [None] for the [nullptr] argument. *)
Record KernelCall := {
  temporal : bool;
  k_chroma : bool;
  final_ : bool;
  dstps : list ptr;
  k_stride : Z;
  srcps : list ptr;
  refps : option (list ptr);
  k_width : Z;
  k_height : Z;
  k_sigma : list F32.float;
  k_block_step : Z;
  k_bm_range : Z;
  k_radius : Z;
  k_ps_num : Z;
  k_ps_range : Z;
  k_buffer : ptr
}.

Inductive Event :=
| setVideoInfo (v : VSVideoInfo)
| requestFrameFilter (n : Z) (nd : VSNodeRef)
| getFrameFilter (n : Z) (nd : VSNodeRef)
| newVideoFrame2 (f : VSFormat) (w h : Z)
    (planeSrc : list (option VSFrameRef)) (planes : list Z) (propSrc : VSFrameRef)
| newVideoFrame (f : VSFormat) (w h : Z) (propSrc : VSFrameRef)
| vs_aligned_malloc (bytes alignment : Z) (result : ptr)
| memset (p : ptr) (c : Z) (bytes : Z)
| bm3d (k : KernelCall)
| freeFrame (f : VSFrameRef)
| propSetInt (key : string) (v : Z) (append : VSPropAppendMode)
| propSetIntArray (key : string) (vs : list Z)
| setError (msg : string)
| freeNode (nd : option VSNodeRef)
| createFilter (name : string) (mode : VSFilterMode) (d : BM3DData)
| undefined_behaviour.

(** ** Construction: [BM3DCreate] *)

(** The argument map [in], by key.  A key read at an index it does not
    have sets [error]: that is [None] here. *)
Record VSMap := {
  in_clip : VSNodeRef;
  in_ref : list VSNodeRef;
  in_sigma : list spec_float;
  in_block_step : list Z;
  in_bm_range : list Z;
  in_radius : list Z;
  in_ps_num : list Z;
  in_ps_range : list Z;
  in_chroma : list Z
}.

Definition propGet {A : Type} (l : list A) (index : nat) : option A := l !! index.

(** How the statements of [BM3DCreate] stop early: through
    [return set_error(...)], or by a read through a null pointer, after
    which the behaviour is undefined (in a trace: [undefined_behaviour], with
    no call after it). *)
Inductive Exit : Type :=
| by_set_error (error_message : string)
| by_null_read.

(** Statements of [BM3DCreate] run on the instance data [d] and either go on
    or stop early; the data reached so far stays visible to [set_error]. *)
Definition Create (A : Type) : Type := BM3DData -> (Exit + A) * BM3DData.

Definition return_set_error {A : Type} (msg : string) : Create A :=
  fun d => (inl (by_set_error msg), d).
Definition read_through_null {A : Type} : Create A := fun d => (inl by_null_read, d).
Definition cget : Create BM3DData := fun d => (inr d, d).
Definition cmodify (f : BM3DData -> BM3DData) : Create unit := fun d => (inr tt, f d).

#[export] Instance Create_ret : MRet Create := fun A a d => (inr a, d).
#[export] Instance Create_bind : MBind Create := fun A B k m d =>
  match m d with
  | (inl e, d') => (inl e, d')
  | (inr a, d') => k a d'
  end.

(** [for (unsigned i = 0; i < 3; ++i) body] *)
Fixpoint cfor (idx : list nat) (body : nat -> Create unit) : Create unit :=
  match idx with
  | [] => mret tt
  | i :: rest => body i ;; cfor rest body
  end.

(** The normalisation factor of [sigma]:
    [(3.f / 4.f) / 255.f * 64.f * (d->ref_node == nullptr ? 2.7f : 1.0f)]. *)
Definition sigma_scale (r : option VSNodeRef) : F32.float :=
  F32.mul
    (F32.mul (F32.div (F32.div (F32.of_Z 3) (F32.of_Z 4)) (F32.of_Z 255)) (F32.of_Z 64))
    (match r with None => F32.lit_2_7 | Some _ => F32.of_Z 1 end).

(** The double-quote character of the messages. *)
Definition dq : string := String "034"%char EmptyString.
Definition quoted (s : string) : string := dq +:+ s +:+ dq.

Definition msg_format : string := "only constant format 32 bit float input supported".
Definition msg_ref_format : string :=
  quoted "ref" +:+ " must be of the same format as " +:+ quoted "clip".
Definition msg_ref_dimensions : string :=
  quoted "ref" +:+ " must be of the same dimensions as " +:+ quoted "clip".
Definition msg_ref_frames : string :=
  quoted "ref" +:+ " must be of the same number of frames as " +:+ quoted "clip".
Definition msg_sigma : string := quoted "sigma" +:+ " must be non-negative".
Definition msg_block_step : string := quoted "block_step" +:+ " must be in range [1, 8]".
Definition msg_bm_range : string := quoted "bm_range" +:+ " must be positive".
Definition msg_radius : string := quoted "radius" +:+ " must be positive".
Definition msg_ps_num : string := quoted "ps_num" +:+ " must be positive".
Definition msg_ps_range : string := quoted "ps_range" +:+ " must be positive".
Definition msg_chroma : string :=
  "clip format must be YUV444 when " +:+ quoted "chroma" +:+ " is true".

(** The input check at the head of [BM3DCreate]. *)
Definition check_input : Create unit :=
  d ← cget;
  let f := deref (format (vi d)) in
  if negb (isConstantFormat (vi d))
     || sample_eqb (sampleType f) stInteger
     || (sample_eqb (sampleType f) stFloat && negb (bitsPerSample f =? 32))
  then return_set_error msg_format
  else mret tt.

(** [d->ref_node = propGetNode(in, "ref", 0, &error)] and the three
    comparisons against the clip.  The first reads [ref_vi->format->id] with
    no test of [ref_vi->format], which is null for a reference clip of
    variable format. *)
Definition read_ref (in_ : VSMap) : Create unit :=
  match propGet (in_ref in_) 0 with
  | None => cmodify (with_ref_node None)
  | Some r =>
      cmodify (with_ref_node (Some r));;
      d ← cget;
      let ref_vi := getVideoInfo r in
      match format ref_vi with
      | None => read_through_null
      | Some ref_format =>
          if negb (id ref_format =? id (deref (format (vi d))))
          then return_set_error msg_ref_format
          else if negb (width ref_vi =? width (vi d))
                  || negb (height ref_vi =? height (vi d))
          then return_set_error msg_ref_dimensions
          else if negb (numFrames ref_vi =? numFrames (vi d))
          then return_set_error msg_ref_frames
          else mret tt
      end
  end.

(** One turn of the loop over [d->sigma]. *)
Definition read_sigma (in_ : VSMap) (i : nat) : Create unit :=
  d ← cget;
  sigma0 ← match propGet (in_sigma in_) i with
            | None => mret (if (i =? 0)%nat then F32.of_Z 3 else nth (i - 1) (sigma d) F32.zero)
            | Some x =>
                let s := F32.of_double x in
                if F32.ltb s F32.zero then return_set_error msg_sigma else mret s
            end;
  (* assumes grayscale input, hard_thr = 2.7 *)
  let s := F32.mul sigma0 (sigma_scale (ref_node d)) in
  cmodify (fun d => with_process (<[i := negb (F32.ltb s F32.epsilon)]> (process d)) d);;
  cmodify (fun d => with_sigma (<[i := s]> (sigma d)) d).

(** One turn of a loop over an integer parameter: [dflt] when the first
    entry is missing, the previous entry when a later one is, [bad] the
    range test of a supplied value. *)
Definition read_int (supplied : list Z) (dflt : Z) (bad : Z -> bool) (msg : string)
    (field : BM3DData -> list Z) (store : list Z -> BM3DData -> BM3DData)
    (i : nat) : Create unit :=
  d ← cget;
  v ← match propGet supplied i with
       | None => mret (if (i =? 0)%nat then dflt else nth (i - 1) (field d) 0)
       | Some x =>
           let v := int64ToIntS x in
           if bad v then return_set_error msg else mret v
       end;
  cmodify (fun d => store (<[i := v]> (field d)) d).

Definition read_radius (in_ : VSMap) : Create unit :=
  r ← match propGet (in_radius in_) 0 with
       | None => mret 0
       | Some x =>
           let r := int64ToIntS x in
           if r <? 0 then return_set_error msg_radius else mret r
       end;
  cmodify (with_radius r).

Definition read_chroma (in_ : VSMap) : Create unit :=
  d ← cget;
  let chroma := match propGet (in_chroma in_) 0 with
                | None => false
                | Some x => negb (x =? 0)
                end in
  if chroma && negb (id (deref (format (vi d))) =? pfYUV444PS)
  then return_set_error msg_chroma
  else cmodify (with_chroma chroma).

(** [d->buffer.reserve(num_threads)] sizes the table and leaves its
    entries as they are. *)
Definition reserve (num_threads : Z) (m : gmap thread_id ptr) : gmap thread_id ptr := m.

Definition reserve_buffer (numThreads : Z) : Create unit :=
  d ← cget;
  if radius d =? 0
  then cmodify (fun d => with_buffer (reserve numThreads (buffer d)) d)
  else mret tt.

(** The parameter loops, from [sigma] to the table reservation. *)
Definition read_params (in_ : VSMap) (numThreads : Z) : Create unit :=
  cfor (seq 0 3) (read_sigma in_);;
  cfor (seq 0 3)
    (read_int (in_block_step in_) 8 (fun v => (v <=? 0) || (8 <? v)) msg_block_step
       block_step with_block_step);;
  cfor (seq 0 3)
    (read_int (in_bm_range in_) 9 (fun v => v <=? 0) msg_bm_range bm_range with_bm_range);;
  read_radius in_;;
  cfor (seq 0 3)
    (read_int (in_ps_num in_) 2 (fun v => v <=? 0) msg_ps_num ps_num with_ps_num);;
  cfor (seq 0 3)
    (read_int (in_ps_range in_) 4 (fun v => v <=? 0) msg_ps_range ps_range with_ps_range);;
  read_chroma in_;;
  reserve_buffer numThreads.

Definition create_body (in_ : VSMap) (numThreads : Z) : Create unit :=
  check_input;;
  read_ref in_;;
  read_params in_ numThreads.

(** The lambda [set_error]: report, then release both node handles. *)
Definition set_error (d : BM3DData) (error_message : string) : list Event :=
  [ setError ("BM3D: " +:+ error_message); freeNode (Some (node d)); freeNode (ref_node d) ].

(** The instance data right after [std::make_unique<BM3DData>()] (all
    zero) and the two assignments from the clip. *)
Definition fresh_data (in_ : VSMap) : BM3DData :=
  {| node := in_clip in_; ref_node := None; vi := getVideoInfo (in_clip in_);
     sigma := [F32.zero; F32.zero; F32.zero];
     block_step := [0; 0; 0]; bm_range := [0; 0; 0]; radius := 0;
     ps_num := [0; 0; 0]; ps_range := [0; 0; 0];
     chroma := false; process := [false; false; false]; buffer := ∅ |}.

(** The outcome of the validation, with the instance data it leaves. *)
Definition configure (in_ : VSMap) (numThreads : Z) : (Exit + unit) * BM3DData :=
  create_body in_ numThreads (fresh_data in_).

Definition BM3DCreate (in_ : VSMap) (numThreads : Z) : list Event :=
  match configure in_ numThreads with
  | (inl (by_set_error error_message), d) => set_error d error_message
  | (inl by_null_read, d) => [ undefined_behaviour ]
  | (inr _, d) => [ createFilter "BM3D" fmParallel d ]
  end.

(** ** Frame production: the state it runs on *)

(** What a call of the filter can change: the instance data (its table
    [buffer]) and the allocator.  A computation returns its result, the state
    it leaves and the calls it made, in order. *)
Record World := { inst : BM3DData; allocations : nat }.

Definition IO (A : Type) : Type := World -> A * World * list Event.

#[export] Instance IO_ret : MRet IO := fun A a w => (a, w, []).
#[export] Instance IO_bind : MBind IO := fun A B k m w =>
  let '(a, w1, t1) := m w in
  let '(b, w2, t2) := k a w1 in
  (b, w2, t1 ++ t2).

Definition call (e : Event) : IO unit := fun w => (tt, w, [e]).
Definition get_data : IO BM3DData := fun w => (inst w, w, []).
Definition set_buffer (m : gmap thread_id ptr) : IO unit :=
  fun w => (tt, {| inst := with_buffer m (inst w); allocations := allocations w |}, []).

(** [vs_aligned_malloc<float>(bytes, alignment)]: a block no earlier call
    returned. *)
Definition aligned_malloc (bytes alignment : Z) : IO ptr :=
  fun w =>
    let p := heap_block (allocations w) in
    (p, {| inst := inst w; allocations := S (allocations w) |},
     [vs_aligned_malloc bytes alignment p]).

Definition result {A : Type} (r : A * World * list Event) : A := r.1.1.
Definition world {A : Type} (r : A * World * list Event) : World := r.1.2.
Definition trace {A : Type} (r : A * World * list Event) : list Event := r.2.

(** A range-based [for] with a body that returns nothing, and one that
    pushes a value per turn. *)
Fixpoint io_for {A : Type} (l : list A) (body : A -> IO unit) : IO unit :=
  match l with
  | [] => mret tt
  | x :: rest => body x ;; io_for rest body
  end.

Fixpoint io_collect {A B : Type} (l : list A) (body : A -> IO B) : IO (list B) :=
  match l with
  | [] => mret []
  | x :: rest => y ← body x; ys ← io_collect rest body; mret (y :: ys)
  end.

(** The values [lo, lo+1, ..., hi] of [for (int i = lo; i <= hi; ++i)]. *)
Definition for_range (lo hi : Z) : list Z :=
  map (fun k => lo + Z.of_nat k) (seq 0 (Z.to_nat (hi - lo + 1))).

(** [std::clamp(v, lo, hi)] *)
Definition clamp (v lo hi : Z) : Z :=
  if v <? lo then lo else if hi <? v then hi else v.

(** [std::unordered_map] as the filter uses it. *)
Definition count (k : thread_id) (m : gmap thread_id ptr) : Z :=
  match m !! k with Some _ => 1 | None => 0 end.

Definition emplace (k : thread_id) (v : ptr) (m : gmap thread_id ptr) : gmap thread_id ptr :=
  match m !! k with Some _ => m | None => <[k := v]> m end.

(** [m[k]] of a key that is present; an absent key reads as the
    value-initialised [nullptr]. *)
Definition at_key (k : thread_id) (m : gmap thread_id ptr) : ptr :=
  default nullptr (m !! k).

(** The frame handed back to the host, as [newVideoFrame2] and
    [newVideoFrame] make it: per plane, either the plane of another frame it
    refers to or [None] for newly allocated memory. *)
Record VSFrame := {
  fr_format : VSFormat;
  fr_width : Z;
  fr_height : Z;
  fr_planeSrc : list (option (VSFrameRef * Z));
  fr_propSrc : VSFrameRef
}.

Definition io_newVideoFrame2 (f : VSFormat) (w h : Z)
    (planeSrc : list (option VSFrameRef)) (planes : list Z) (propSrc : VSFrameRef)
    : IO VSFrame :=
  call (newVideoFrame2 f w h planeSrc planes propSrc);;
  mret {| fr_format := f; fr_width := w; fr_height := h;
          fr_planeSrc := zip_with (fun s p => (fun x => (x, p)) <$> s) planeSrc planes;
          fr_propSrc := propSrc |}.

Definition io_newVideoFrame (f : VSFormat) (w h : Z) (propSrc : VSFrameRef) : IO VSFrame :=
  call (newVideoFrame f w h propSrc);;
  mret {| fr_format := f; fr_width := w; fr_height := h;
          fr_planeSrc := replicate (Z.to_nat (numPlanes f)) None;
          fr_propSrc := propSrc |}.

(** The source plane a plane of a produced frame refers to, if any. *)
Definition plane_source (fr : VSFrame) (plane : nat) : option (VSFrameRef * Z) :=
  mjoin (fr_planeSrc fr !! plane).

(** ** The fetched window *)

(** The frames the loop over the offsets [-radius .. radius] fetches from
    node [nd], by the expression of the source. *)
Definition window (n : Z) (d : BM3DData) (nd : VSNodeRef) : list VSFrameRef :=
  map (fun i => {| frame_node := nd;
                   frame_n := clamp (Int.add n i) 0 (Int.sub (numFrames (vi d)) 1) |})
    (for_range (Int.neg (radius d)) (radius d)).

Definition ref_window (n : Z) (d : BM3DData) : list VSFrameRef :=
  match ref_node d with
  | Some r => window n d r
  | None => []
  end.

(** [src_frames[center]] *)
Definition center_frame (n : Z) (d : BM3DData) : VSFrameRef :=
  nth (Z.to_nat (radius d)) (window n d (node d)) {| frame_node := node d; frame_n := n |}.

(** ** Sample clips and argument maps *)

Module Sample.

Definition YUV444PS : VSFormat :=
  {| id := pfYUV444PS; sampleType := stFloat; bitsPerSample := 32; bytesPerSample := 4;
     subSamplingW := 0; subSamplingH := 0; numPlanes := 3 |}.

Definition clip : VSNodeRef :=
  {| node_id := 0;
     getVideoInfo := {| format := Some YUV444PS; width := 64; height := 64; numFrames := 10 |} |}.

(** A second node with the format, size and length of [clip]. *)
Definition guide : VSNodeRef :=
  {| node_id := 1; getVideoInfo := getVideoInfo clip |}.

Definition args (ref : list VSNodeRef) (sigma : list spec_float) (radius chroma : list Z)
    : VSMap :=
  {| in_clip := clip; in_ref := ref; in_sigma := sigma; in_block_step := [];
     in_bm_range := []; in_radius := radius; in_ps_num := []; in_ps_range := [];
     in_chroma := chroma |}.

(** The instance data a successful construction leaves, in a world where no
    block has been allocated. *)
Definition start (a : VSMap) : World :=
  {| inst := (configure a 4).2; allocations := 0 |}.

(** One [sigma] of 3.0 and nothing else. *)
Definition one_sigma : VSMap := args [] [double_of_Z 3] [] [].

(** Per-plane filtering of the first plane only ([sigma] 3.0 then 0.0, the
    third entry replicating the second), with radius 1 and with radius 0. *)
Definition temporal_luma_only : VSMap := args [] [double_of_Z 3; double_of_Z 0] [1] [].
Definition spatial_luma_only : VSMap := args [] [double_of_Z 3; double_of_Z 0] [] [].

(** Joint-chroma filtering with every [sigma] 0.0. *)
Definition joint_all_off : VSMap := args [] [double_of_Z 0] [] [1].

(** Radius 2 with the reference clip [guide]. *)
Definition temporal_guided : VSMap := args [guide] [] [2] [].

(** A host that pads rows to 32 bytes. *)
Definition row_stride (f : VSFormat) (w plane : Z) : Z :=
  (Z.shiftr w (if plane =? 0 then 0 else subSamplingW f) * bytesPerSample f + 31) / 32 * 32.

(** Modelled from the spec: [num_planes] of bm3d_impl.hpp, which is not among
    the sources.  It is the size of a plane group: the three planes filtered
    jointly in joint-chroma mode, a single plane otherwise. *)
Definition num_planes (chroma : bool) : Z := if chroma then 3 else 1.

(** The instance data the validation of [a] leaves. *)
Definition data (a : VSMap) : BM3DData := (configure a 4).2.

(** The [double] 16505362 * 2^-46: scaled by the factor without a reference
    clip it gives 2^-23. *)
Definition sigma_at_epsilon : spec_float := S754_finite false 8861248749830144 (-75).

Definition at_epsilon : VSMap := args [] [sigma_at_epsilon] [] [].




(** A node of no fixed format, its video info holding a null format, as the
    reference clip. *)
Definition variable_guide : VSNodeRef :=
  {| node_id := 3;
     getVideoInfo := {| format := None; width := 64; height := 64; numFrames := 10 |} |}.

Definition variable_ref : VSMap := args [variable_guide] [] [] [].

End Sample.

(** ** Frame production: [BM3DInit] and [BM3DGetFrame] *)

Section Filter.

(** The host's row size in bytes of a plane, from the format, the frame
    width and the plane; and [num_planes] of bm3d_impl.hpp, the number of
    planes a kernel call filters together. *)
Variable row_stride : VSFormat -> Z -> Z -> Z.
Variable num_planes : bool -> Z.

Definition getStride (f : VSFrameRef) (plane : Z) : Z :=
  let v := getVideoInfo (frame_node f) in
  row_stride (deref (format v)) (width v) plane.

Definition frame_stride (fr : VSFrame) (plane : Z) : Z :=
  row_stride (fr_format fr) (fr_width fr) plane.

Definition BM3DInit (d : BM3DData) : list Event :=
  if negb (radius d =? 0) then
    let v := vi d in
    [ setVideoInfo
        {| format := format v; width := width v;
           height := Int.mul (height v) (Int.mul 2 (Int.add (Int.mul 2 (radius d)) 1));
           numFrames := numFrames v |} ]
  else [ setVideoInfo (vi d) ].

Definition temporal_width (d : BM3DData) : Z := Int.add (Int.mul 2 (radius d)) 1.

(** [activationReason == arInitial] *)
Definition announce (n : Z) (d : BM3DData) : IO unit :=
  let start_frame := Z.max (Int.sub n (radius d)) 0 in
  let end_frame := Z.min (Int.add n (radius d)) (Int.sub (numFrames (vi d)) 1) in
  io_for (for_range start_frame end_frame) (fun i => call (requestFrameFilter i (node d)));;
  match ref_node d with
  | Some r =>
      io_for (for_range start_frame end_frame) (fun i => call (requestFrameFilter i r))
  | None => mret tt
  end.

(** The loop that fills [src_frames], and [ref_frames] on the reference
    node: the handle of every fetch is pushed, in order.  The
    [temp.reserve(temporal_width)] before the loop sets the capacity only. *)
Definition fetch (n : Z) (d : BM3DData) (nd : VSNodeRef) : IO (list VSFrameRef) :=
  io_collect (for_range (Int.neg (radius d)) (radius d))
    (fun i =>
       let clamped_n := clamp (Int.add n i) 0 (Int.sub (numFrames (vi d)) 1) in
       call (getFrameFilter clamped_n nd);;
       mret {| frame_node := nd; frame_n := clamped_n |}).

Definition fetch_ref (n : Z) (d : BM3DData) : IO (list VSFrameRef) :=
  match ref_node d with
  | Some r => fetch n d r
  | None => mret []
  end.

Definition make_dst (d : BM3DData) (src_frame : VSFrameRef) : IO VSFrame :=
  if radius d =? 0 then
    let fr := [ if nth 0 (process d) false then None else Some src_frame;
                if nth 1 (process d) false then None else Some src_frame;
                if nth 2 (process d) false then None else Some src_frame ] in
    let pl := [0; 1; 2] in
    io_newVideoFrame2 (deref (format (vi d))) (width (vi d)) (height (vi d))
      fr pl src_frame
  else
    io_newVideoFrame (deref (format (vi d))) (width (vi d))
      (Int.mul (Int.mul (height (vi d)) 2) (temporal_width d)) src_frame.

(** [sizeof(float) * stride * height * 2 * num_planes(chroma)] and
    [sizeof(float) * stride * height * 2 * temporal_width], in [size_t]. *)
Definition scratch_bytes (chroma : bool) (stride height : Z) : Z :=
  Size.mul (Size.mul (Size.mul (Size.mul Size.sizeof_float stride) height) 2)
    (num_planes chroma).

Definition stacked_bytes (d : BM3DData) (stride height : Z) : Z :=
  Size.mul (Size.mul (Size.mul (Size.mul Size.sizeof_float stride) height) 2)
    (temporal_width d).

(** The lambda that yields [buffer]. *)
Definition get_buffer (chroma : bool) (d : BM3DData) (this_thread : thread_id)
    (stride height : Z) : IO ptr :=
  if radius d =? 0 then
    cur ← get_data;
    (if count this_thread (buffer cur) =? 0 then
       p ← aligned_malloc (scratch_bytes chroma stride height) 32;
       set_buffer (emplace this_thread p (buffer cur))
     else mret tt);;
    cur ← get_data;
    mret (at_key this_thread (buffer cur))
  else mret nullptr.

(** The [memset] before the kernel call. *)
Definition clear (chroma : bool) (d : BM3DData) (buffer : ptr) (dstps : list ptr)
    (stride height : Z) : IO unit :=
  if radius d =? 0 then
    call (memset buffer 0 (scratch_bytes chroma stride height))
  else
    io_for dstps (fun dstp => call (memset dstp 0 (stacked_bytes d stride height))).

(** The four-way choice of the kernel instantiation. *)
Definition dispatch (chroma : bool) (d : BM3DData) (dstps : list ptr) (stride : Z)
    (srcps refps : list ptr) (width height : Z) (sigma : list F32.float)
    (block_step bm_range ps_num ps_range : Z) (buffer : ptr) : IO unit :=
  let kernel (temporal final_ : bool) (refp : option (list ptr)) (buf : ptr) :=
    call (bm3d {| temporal := temporal; k_chroma := chroma; final_ := final_;
                  dstps := dstps; k_stride := stride; srcps := srcps; refps := refp;
                  k_width := width; k_height := height; k_sigma := sigma;
                  k_block_step := block_step; k_bm_range := bm_range;
                  k_radius := radius d; k_ps_num := ps_num; k_ps_range := ps_range;
                  k_buffer := buf |}) in
  match ref_node d with
  | None =>
      if radius d =? 0 then kernel false false None buffer
      else kernel true false None nullptr
  | Some _ =>
      if radius d =? 0 then kernel false true (Some refps) buffer
      else kernel true true (Some refps) nullptr
  end.

(** [int stride = vsapi->getStride(src_frame, plane) / sizeof(float)] *)
Definition stride_of (src_frame : VSFrameRef) (plane : Z) : Z :=
  Int.wrap (Size.div (getStride src_frame plane) Size.sizeof_float).

(** The branch [if (d->chroma)]: the three planes in one kernel call. *)
Definition filter_joint (d : BM3DData) (this_thread : thread_id)
    (src_frames ref_frames : list VSFrameRef) (src_frame : VSFrameRef) : IO unit :=
  let chroma := true in
  let srcps := flat_map (fun plane => map (fun frame => getReadPtr frame plane) src_frames)
                 [0; 1; 2] in
  let dstps := [getWritePtr 0; getWritePtr 1; getWritePtr 2] in
  let width := getFrameWidth src_frame 0 in
  let height := getFrameHeight src_frame 0 in
  let stride := stride_of src_frame 0 in
  let sigma := sigma d in
  let block_step := nth 0 (block_step d) 0 in
  let bm_range := nth 0 (bm_range d) 0 in
  let ps_num := nth 0 (ps_num d) 0 in
  let ps_range := nth 0 (ps_range d) 0 in
  buffer ← get_buffer chroma d this_thread stride height;
  clear chroma d buffer dstps stride height;;
  let refps := flat_map (fun plane => map (fun frame => getReadPtr frame plane) ref_frames)
                 [0; 1; 2] in
  dispatch chroma d dstps stride srcps refps width height sigma
    block_step bm_range ps_num ps_range buffer.

(** One turn of the loop over the planes in the branch [else]. *)
Definition filter_plane (d : BM3DData) (this_thread : thread_id)
    (src_frames ref_frames : list VSFrameRef) (src_frame : VSFrameRef) (plane : Z)
    : IO unit :=
  let chroma := false in
  if nth (Z.to_nat plane) (process d) false then
    let srcps := map (fun frame => getReadPtr frame plane) src_frames in
    let dstps := [getWritePtr plane] in
    let width := getFrameWidth src_frame plane in
    let height := getFrameHeight src_frame plane in
    let stride := stride_of src_frame plane in
    let sigma := [nth (Z.to_nat plane) (sigma d) F32.zero] in
    let block_step := nth (Z.to_nat plane) (block_step d) 0 in
    let bm_range := nth (Z.to_nat plane) (bm_range d) 0 in
    let ps_num := nth (Z.to_nat plane) (ps_num d) 0 in
    let ps_range := nth (Z.to_nat plane) (ps_range d) 0 in
    buffer ← get_buffer chroma d this_thread stride height;
    clear chroma d buffer dstps stride height;;
    let refps := map (fun frame => getReadPtr frame plane) ref_frames in
    dispatch chroma d dstps stride srcps refps width height sigma
      block_step bm_range ps_num ps_range buffer
  else mret tt.

Definition planes_of (d : BM3DData) : list Z :=
  for_range 0 (numPlanes (deref (format (vi d))) - 1).

Definition filter_planes (d : BM3DData) (this_thread : thread_id)
    (src_frames ref_frames : list VSFrameRef) (src_frame : VSFrameRef) : IO unit :=
  io_for (planes_of d) (filter_plane d this_thread src_frames ref_frames src_frame).

(** The properties set on a temporal output. *)
Definition tag (d : BM3DData) : IO unit :=
  if negb (radius d =? 0) then
    call (propSetInt "BM3D_V_radius" (radius d) paReplace);;
    let process := [ Z.b2z (nth 0 (process d) false);
                     Z.b2z (nth 1 (process d) false);
                     Z.b2z (nth 2 (process d) false) ] in
    call (propSetIntArray "BM3D_V_process" process)
  else mret tt.

(** [activationReason == arAllFramesReady] *)
Definition produce (n : Z) (d : BM3DData) (this_thread : thread_id) : IO VSFrame :=
  let center := radius d in
  src_frames ← fetch n d (node d);
  ref_frames ← fetch_ref n d;
  let src_frame := nth (Z.to_nat center) src_frames {| frame_node := node d; frame_n := n |} in
  dst_frame ← make_dst d src_frame;
  (if chroma d
   then filter_joint d this_thread src_frames ref_frames src_frame
   else filter_planes d this_thread src_frames ref_frames src_frame);;
  io_for src_frames (fun frame => call (freeFrame frame));;
  io_for ref_frames (fun frame => call (freeFrame frame));;
  tag d;;
  mret dst_frame.

Definition BM3DGetFrame (n : Z) (activationReason : VSActivationReason)
    (this_thread : thread_id) : IO (option VSFrame) :=
  d ← get_data;
  match activationReason with
  | arInitial => announce n d;; mret None
  | arAllFramesReady => dst_frame ← produce n d this_thread; mret (Some dst_frame)
  | _ => mret None
  end.

(** The branch on [d->chroma], on the fetched window. *)
Definition filter_body (n : Z) (d : BM3DData) (this_thread : thread_id) : IO unit :=
  if chroma d
  then filter_joint d this_thread (window n d (node d)) (ref_window n d) (center_frame n d)
  else filter_planes d this_thread (window n d (node d)) (ref_window n d) (center_frame n d).

(** ** The host serving invocations *)

(** One activation of [BM3DGetFrame]: the frame index, the reason and the
    worker thread that runs it. *)
Definition Invocation : Type := Z * VSActivationReason * thread_id.

(** The filter instance served over a sequence of activations that run
    one after another; the log keeps, per activation, the worker and the
    calls it made.  The host runs a parallel filter's activations
    concurrently and the table [buffer] has no lock, so this sequence stands
    for the schedules in which no two activations overlap: it is used only
    for what no activation changes. *)
Fixpoint serve (calls : list Invocation) (w : World)
    : World * list (thread_id * list Event) :=
  match calls with
  | [] => (w, [])
  | (n, reason, t) :: rest =>
      let r := BM3DGetFrame n reason t w in
      let '(w', log) := serve rest (world r) in
      (w', (t, trace r) :: log)
  end.

(** ** Reading a trace *)

Definition requests (tr : list Event) : list (Z * VSNodeRef) :=
  flat_map (fun e => match e with requestFrameFilter n nd => [(n, nd)] | _ => [] end) tr.

Definition fetches (tr : list Event) : list (Z * VSNodeRef) :=
  flat_map (fun e => match e with getFrameFilter n nd => [(n, nd)] | _ => [] end) tr.

Definition kernel_calls (tr : list Event) : list KernelCall :=
  flat_map (fun e => match e with bm3d k => [k] | _ => [] end) tr.

(** The calls that write memory: [memset] and the kernel. *)
Definition memory_events (tr : list Event) : list Event :=
  flat_map (fun e => match e with memset _ _ _ | bm3d _ => [e] | _ => [] end) tr.


Definition mallocs (tr : list Event) : list Event :=
  flat_map (fun e => match e with vs_aligned_malloc _ _ _ => [e] | _ => [] end) tr.


Definition property_events (tr : list Event) : list Event :=
  flat_map (fun e => match e with propSetInt _ _ _ | propSetIntArray _ _ => [e] | _ => [] end) tr.


Definition created (tr : list Event) : list BM3DData :=
  flat_map (fun e => match e with createFilter _ _ d => [d] | _ => [] end) tr.

Definition freed_nodes (tr : list Event) : list (option VSNodeRef) :=
  flat_map (fun e => match e with freeNode nd => [nd] | _ => [] end) tr.

(** The buffer a spatial kernel call of worker [t] is handed in world [w]:
    the registered one, or else the block the allocator returns next. *)
Definition scratch_of (w : World) (t : thread_id) : ptr :=
  match buffer (inst w) !! t with
  | Some p => p
  | None => heap_block (allocations w)
  end.


(** ** Invariants of the construction *)

(** [within I S m]: the statements [m] keep the invariant [I] of the
    instance data, and a message they leave with is one of [S]. *)
Definition within (I : BM3DData -> Prop) (S : list string) {A : Type} (m : Create A) : Prop :=
  forall d, I d -> I (m d).2 /\ forall e, (m d).1 = inl (by_set_error e) -> In e S.

(** The messages of the parameter loops. *)
Definition param_messages : list string :=
  [ msg_sigma; msg_block_step; msg_bm_range; msg_radius; msg_ps_num; msg_ps_range;
    msg_chroma ].

Definition all_messages : list string :=
  msg_format :: msg_ref_format :: msg_ref_dimensions :: msg_ref_frames :: param_messages.

(** An invariant that looks only at [sigma], [process], [node] and
    [ref_node]: the statements after the [sigma] loop store elsewhere. *)
Definition settled (I : BM3DData -> Prop) : Prop :=
  forall d d', sigma d' = sigma d -> process d' = process d ->
               node d' = node d -> ref_node d' = ref_node d -> I d -> I d'.


(** The flags agree with the stored values: wherever [sigma] holds [s],
    [process] holds the outcome of [!(s < epsilon)]. *)
Definition flags_match (d : BM3DData) : Prop :=
  length (sigma d) = 3%nat /\ length (process d) = 3%nat /\
  forall (i : nat) (s : F32.float),
    sigma d !! i = Some s -> process d !! i = Some (negb (F32.ltb s F32.epsilon)).

(** The two stores of one turn of the [sigma] loop. *)
Definition store_sigma (i : nat) (s : F32.float) (d : BM3DData) : BM3DData :=
  with_sigma (<[i := s]> (sigma d))
    (with_process (<[i := negb (F32.ltb s F32.epsilon)]> (process d)) d).



(** A failed construction: the message reported and the two handles
    released, and nothing else. *)
Definition failed_with (msg : string) (c : VSNodeRef) (r : option VSNodeRef) : list Event :=
  [ setError ("BM3D: " +:+ msg); freeNode (Some c); freeNode r ].

(** ** Reading a frame production *)

(** A computation none of whose calls shows under the reading [g]. *)
Definition silent {X A : Type} (g : Event -> list X) (m : IO A) : Prop :=
  forall w, flat_map g (trace (m w)) = [].

(** The properties [tag] sets. *)
Definition tag_events (d : BM3DData) : list Event :=
  if negb (radius d =? 0) then
    [ propSetInt "BM3D_V_radius" (radius d) paReplace;
      propSetIntArray "BM3D_V_process"
        [ Z.b2z (nth 0 (process d) false); Z.b2z (nth 1 (process d) false);
          Z.b2z (nth 2 (process d) false) ] ]
  else [].

(** A reading that shows none of the calls that allocate or write
    memory. *)
Definition ignores_memory {X : Type} (g : Event -> list X) : Prop :=
  (forall b a p, g (vs_aligned_malloc b a p) = [])
  /\ (forall p c b, g (memset p c b) = [])
  /\ (forall k, g (bm3d k) = []).

(** ** Reading the kernel calls *)

(** The world once worker [t] has its buffer: as it is when the table has
    an entry for [t], and with the next block entered otherwise. *)
Definition registered (w : World) (t : thread_id) : World :=
  match buffer (inst w) !! t with
  | Some _ => w
  | None =>
      {| inst := with_buffer (<[t := heap_block (allocations w)]> (buffer (inst w))) (inst w);
         allocations := S (allocations w) |}
  end.

(** The kernel call [dispatch] makes, as one record. *)
Definition kernel_of (c : bool) (d : BM3DData) (dst : list ptr) (stride : Z)
    (src refs : list ptr) (width height : Z) (sg : list F32.float)
    (bs bm pn pr : Z) (buf : ptr) : KernelCall :=
  {| temporal := negb (radius d =? 0); k_chroma := c;
     final_ := match ref_node d with Some _ => true | None => false end;
     dstps := dst; k_stride := stride; srcps := src;
     refps := match ref_node d with Some _ => Some refs | None => None end;
     k_width := width; k_height := height; k_sigma := sg;
     k_block_step := bs; k_bm_range := bm; k_radius := radius d;
     k_ps_num := pn; k_ps_range := pr;
     k_buffer := if radius d =? 0 then buf else nullptr |}.

(** The allocation worker [t] makes in world [w], if it has no buffer. *)
Definition registration (c : bool) (w : World) (t : thread_id) (stride height : Z)
    : list Event :=
  match buffer (inst w) !! t with
  | Some _ => []
  | None => [ vs_aligned_malloc (scratch_bytes c stride height) 32
                (heap_block (allocations w)) ]
  end.

(** The kernel call of joint mode and the one of a plane, given the
    scratch buffer. *)
Definition joint_call (d : BM3DData) (src_frames ref_frames : list VSFrameRef)
    (src_frame : VSFrameRef) (buf : ptr) : KernelCall :=
  kernel_of true d [getWritePtr 0; getWritePtr 1; getWritePtr 2]
    (stride_of src_frame 0)
    (flat_map (fun plane => map (fun frame => getReadPtr frame plane) src_frames) [0; 1; 2])
    (flat_map (fun plane => map (fun frame => getReadPtr frame plane) ref_frames) [0; 1; 2])
    (getFrameWidth src_frame 0) (getFrameHeight src_frame 0)
    (sigma d) (nth 0 (block_step d) 0) (nth 0 (bm_range d) 0)
    (nth 0 (ps_num d) 0) (nth 0 (ps_range d) 0) buf.

Definition plane_call (d : BM3DData) (src_frames ref_frames : list VSFrameRef)
    (src_frame : VSFrameRef) (buf : ptr) (plane : Z) : KernelCall :=
  kernel_of false d [getWritePtr plane]
    (stride_of src_frame plane)
    (map (fun frame => getReadPtr frame plane) src_frames)
    (map (fun frame => getReadPtr frame plane) ref_frames)
    (getFrameWidth src_frame plane) (getFrameHeight src_frame plane)
    [nth (Z.to_nat plane) (sigma d) F32.zero]
    (nth (Z.to_nat plane) (block_step d) 0) (nth (Z.to_nat plane) (bm_range d) 0)
    (nth (Z.to_nat plane) (ps_num d) 0) (nth (Z.to_nat plane) (ps_range d) 0) buf.

(** The [memset] calls that go with a kernel call: in spatial mode its
    scratch buffer, for the stride and height of the call; in temporal mode
    each destination plane of the call, over all its stacked rows. *)
Definition zeroing (d : BM3DData) (k : KernelCall) : list Event :=
  if radius d =? 0 then
    [ memset (k_buffer k) 0 (scratch_bytes (k_chroma k) (k_stride k) (k_height k)) ]
  else
    map (fun dstp => memset dstp 0 (stacked_bytes d (k_stride k) (k_height k))) (dstps k).

(** Every kernel call of a trace comes right after its [memset] calls, and
    nothing else writes memory. *)
Definition cleared_calls (d : BM3DData) (tr : list Event) : Prop :=
  memory_events tr = flat_map (fun k => zeroing d k ++ [bm3d k]) (kernel_calls tr).

(** [d->process[plane]] *)
Definition processed (d : BM3DData) (plane : Z) : bool :=
  nth (Z.to_nat plane) (process d) false.

(** A reading that shows only calls that allocate or write memory. *)
Definition only_memory {X : Type} (g : Event -> list X) : Prop :=
  (forall n nd, g (requestFrameFilter n nd) = [])
  /\ (forall n nd, g (getFrameFilter n nd) = [])
  /\ (forall f a b c d e, g (newVideoFrame2 f a b c d e) = [])
  /\ (forall f a b c, g (newVideoFrame f a b c) = [])
  /\ (forall f, g (freeFrame f) = [])
  /\ (forall k v a, g (propSetInt k v a) = [])
  /\ (forall k v, g (propSetIntArray k v) = []).

(** The kernel calls of a frame production of worker [t] from world [w]. *)
Definition expected_calls (n : Z) (w : World) (t : thread_id) : list KernelCall :=
  if chroma (inst w)
  then [ joint_call (inst w) (window n (inst w) (node (inst w)))
           (ref_window n (inst w)) (center_frame n (inst w)) (scratch_of w t) ]
  else map (plane_call (inst w) (window n (inst w) (node (inst w)))
              (ref_window n (inst w)) (center_frame n (inst w)) (scratch_of w t))
         (List.filter (processed (inst w)) (planes_of (inst w))).

(** The world with other [process] flags and everything else as it is. *)
Definition with_flags (flags : list bool) (w : World) : World :=
  {| inst := with_process flags (inst w); allocations := allocations w |}.

(** The scratch table holds blocks of the allocator only. *)
Definition heap_table (w : World) : Prop :=
  forall t p, buffer (inst w) !! t = Some p -> exists a, p = heap_block a.

(** An invariant that every store of the parameter loops after [sigma]
    keeps: the stores of the integer parameters, of a radius in range, of
    [chroma], and the reservation of the table. *)
Definition closed_under_stores (I : BM3DData -> Prop) : Prop :=
  (forall x d, I d -> I (with_block_step x d))
  /\ (forall x d, I d -> I (with_bm_range x d))
  /\ (forall x d, 0 <= x <= Int.INT_MAX -> I d -> I (with_radius x d))
  /\ (forall x d, I d -> I (with_ps_num x d))
  /\ (forall x d, I d -> I (with_ps_range x d))
  /\ (forall x d, I d -> I (with_chroma x d))
  /\ (forall n d, I d -> I (with_buffer (reserve n (buffer d)) d)).

(** What construction guarantees of the data it registers. *)
Definition valid_data (d : BM3DData) : Prop :=
  vi d = getVideoInfo (node d) /\ 0 <= radius d <= Int.INT_MAX /\ buffer d = ∅.

(** ** Further readings of a trace *)

Definition frees (tr : list Event) : list VSFrameRef :=
  flat_map (fun e => match e with freeFrame f => [f] | _ => [] end) tr.

(** The two activation reasons the filter acts on. *)
Definition idle (reason : VSActivationReason) : bool :=
  match reason with
  | arInitial | arAllFramesReady => false
  | _ => true
  end.

(** The frame of the clip that stands for all of them where only the
    node matters (plane geometry). *)
Definition clip_frame (d : BM3DData) : VSFrameRef := {| frame_node := node d; frame_n := 0 |}.

(** The scratch size of a plane of the clip. *)
Definition plane_bytes (d : BM3DData) (plane : Z) : Z :=
  scratch_bytes false (stride_of (clip_frame d) plane) (getFrameHeight (clip_frame d) plane).

(** The byte count of the scratch buffer of the first plane group a
    production filters: the three planes in joint mode, the first plane
    whose flag is on otherwise (none: nothing is allocated). *)
Definition first_group_bytes (d : BM3DData) : option Z :=
  if chroma d
  then Some (scratch_bytes true (stride_of (clip_frame d) 0) (getFrameHeight (clip_frame d) 0))
  else match List.filter (processed d) (planes_of d) with
       | p :: _ => Some (plane_bytes d p)
       | [] => None
       end.

(** The allocation a production of worker [t] makes from world [w]: none
    in temporal mode, none when the worker has its buffer or nothing is
    filtered, and otherwise a block of the size of the first plane group. *)
Definition allocation (w : World) (t : thread_id) : list Event :=
  match first_group_bytes (inst w), buffer (inst w) !! t with
  | Some b, None =>
      if radius (inst w) =? 0
      then [ vs_aligned_malloc b 32 (heap_block (allocations w)) ]
      else []
  | _, _ => []
  end.

(** All the calls of a log, in order. *)
Definition events_of (log : list (thread_id * list Event)) : list Event :=
  flat_map snd log.

(** ** Teardown: [BM3DFree] *)

(** The calls of [BM3DFree]: [vs_aligned_free], the host's [freeNode] and
    the [delete] of the instance data. *)
Inductive FreeCall : Type :=
| vs_aligned_free (p : ptr)
| host (e : Event)
| delete_data (d : BM3DData).

(** The range-based [for] over [d->buffer] visits every entry once, in an
    order the container does not specify: the order of [map_to_list] stands
    for it, and no property below depends on it. *)
Definition BM3DFree (d : BM3DData) : list FreeCall :=
  map (fun p => vs_aligned_free p.2) (map_to_list (buffer d))
  ++ [ host (freeNode (Some (node d))); host (freeNode (ref_node d)); delete_data d ].

Definition host_calls (tr : list FreeCall) : list Event :=
  flat_map (fun c => match c with host e => [e] | _ => [] end) tr.

(** ** Writes into the scratch blocks *)

(** The blocks allocated so far with their byte counts, after the calls of
    a trace. *)
Fixpoint heap_after (heap : list (ptr * Z)) (tr : list Event) : list (ptr * Z) :=
  match tr with
  | [] => heap
  | vs_aligned_malloc b _ p :: rest => heap_after ((p, b) :: heap) rest
  | _ :: rest => heap_after heap rest
  end.

(** Every [memset] of a trace clears, and every kernel call is handed, a
    block allocated earlier, and of no fewer bytes than it clears or than
    the kernel call needs for its stride and height. *)
Fixpoint writes_within (heap : list (ptr * Z)) (tr : list Event) : Prop :=
  match tr with
  | [] => True
  | vs_aligned_malloc b _ p :: rest => writes_within ((p, b) :: heap) rest
  | memset p _ b :: rest =>
      (exists b0, In (p, b0) heap /\ b <= b0) /\ writes_within heap rest
  | bm3d k :: rest =>
      (exists b0, In (k_buffer k, b0) heap
                  /\ scratch_bytes (k_chroma k) (k_stride k) (k_height k) <= b0)
      /\ writes_within heap rest
  | _ :: rest => writes_within heap rest
  end.

(** The scratch size does not grow from a plane to a later one. *)
Definition planes_shrink (d : BM3DData) : Prop :=
  forall p q, 0 <= p <= q -> q < numPlanes (deref (format (vi d))) ->
              plane_bytes d q <= plane_bytes d p.

(** The block the scratch table holds for worker [t], if it holds one, was
    allocated with [b] bytes. *)
Definition slot_allocated (b : Z) (w : World) (t : thread_id) (heap : list (ptr * Z))
    : Prop :=
  forall p, buffer (inst w) !! t = Some p -> In (p, b) heap.

(** ** The outcome of the validation, in closed form *)

(** The three entries an integer parameter ends with: the supplied value,
    or else the default at entry 0 and the entry before elsewhere. *)
Definition filled_ints (supplied : list Z) (dflt : Z) : list Z :=
  let v0 := match propGet supplied 0 with Some x => int64ToIntS x | None => dflt end in
  let v1 := match propGet supplied 1 with Some x => int64ToIntS x | None => v0 end in
  let v2 := match propGet supplied 2 with Some x => int64ToIntS x | None => v1 end in
  [v0; v1; v2].

(** The three entries of [sigma]: each the scaled supplied value, or else
    the scaled 3 at entry 0 and elsewhere the entry before, stored scaled
    and scaled once more. *)
Definition filled_sigma (supplied : list spec_float) (r : option VSNodeRef)
    : list F32.float :=
  let k := sigma_scale r in
  let v0 := F32.mul (match propGet supplied 0 with
                     | Some x => F32.of_double x | None => F32.of_Z 3 end) k in
  let v1 := F32.mul (match propGet supplied 1 with
                     | Some x => F32.of_double x | None => v0 end) k in
  let v2 := F32.mul (match propGet supplied 2 with
                     | Some x => F32.of_double x | None => v1 end) k in
  [v0; v1; v2].

(** One of the first three entries is supplied and fails the test. *)
Definition some_bad {A : Type} (bad : A -> bool) (supplied : list A) : bool :=
  existsb (fun i => match propGet supplied i with Some x => bad x | None => false end)
    (seq 0 3).

(** The test of the input check. *)
Definition bad_input (v : VSVideoInfo) : bool :=
  let f := deref (format v) in
  negb (isConstantFormat v)
  || sample_eqb (sampleType f) stInteger
  || (sample_eqb (sampleType f) stFloat && negb (bitsPerSample f =? 32)).

Definition chroma_arg (in_ : VSMap) : bool :=
  match propGet (in_chroma in_) 0 with
  | None => false
  | Some x => negb (x =? 0)
  end.

Definition radius_arg (in_ : VSMap) : Z :=
  match propGet (in_radius in_) 0 with
  | None => 0
  | Some x => int64ToIntS x
  end.

(** The checks in the order of the source, each with its message and
    whether the arguments fail it.  The checks of the reference clip are
    those of a reference with a format; [null_ref_read] below is the case of
    one without. *)
Definition checks (in_ : VSMap) : list (string * bool) :=
  let c := getVideoInfo (in_clip in_) in
  let differs (test : VSVideoInfo -> bool) :=
    match propGet (in_ref in_) 0 with
    | Some r => test (getVideoInfo r)
    | None => false
    end in
  [ (msg_format, bad_input c);
    (msg_ref_format,
     differs (fun v => negb (id (deref (format v)) =? id (deref (format c)))));
    (msg_ref_dimensions,
     differs (fun v => negb (width v =? width c) || negb (height v =? height c)));
    (msg_ref_frames, differs (fun v => negb (numFrames v =? numFrames c)));
    (msg_sigma, some_bad (fun x => F32.ltb (F32.of_double x) F32.zero) (in_sigma in_));
    (msg_block_step,
     some_bad (fun x => (int64ToIntS x <=? 0) || (8 <? int64ToIntS x)) (in_block_step in_));
    (msg_bm_range, some_bad (fun x => int64ToIntS x <=? 0) (in_bm_range in_));
    (msg_radius, radius_arg in_ <? 0);
    (msg_ps_num, some_bad (fun x => int64ToIntS x <=? 0) (in_ps_num in_));
    (msg_ps_range, some_bad (fun x => int64ToIntS x <=? 0) (in_ps_range in_));
    (msg_chroma,
     chroma_arg in_ && negb (id (deref (format c)) =? pfYUV444PS)) ].

(** The message of the first check that fails. *)
Definition first_failed (in_ : VSMap) : option string :=
  fst <$> List.find snd (checks in_).

(** The instance data of an accepted argument map. *)
Definition configured (in_ : VSMap) : BM3DData :=
  let s := filled_sigma (in_sigma in_) (propGet (in_ref in_) 0) in
  {| node := in_clip in_;
     ref_node := propGet (in_ref in_) 0;
     vi := getVideoInfo (in_clip in_);
     sigma := s;
     block_step := filled_ints (in_block_step in_) 8;
     bm_range := filled_ints (in_bm_range in_) 9;
     radius := radius_arg in_;
     ps_num := filled_ints (in_ps_num in_) 2;
     ps_range := filled_ints (in_ps_range in_) 4;
     chroma := chroma_arg in_;
     process := map (fun x => negb (F32.ltb x F32.epsilon)) s;
     buffer := ∅ |}.

(** The input check has passed and the reference clip supplied has no
    fixed format: its video info holds a null [format], which the first
    check of the reference reads through. *)
Definition null_ref_read (in_ : VSMap) : bool :=
  negb (bad_input (getVideoInfo (in_clip in_)))
  && match propGet (in_ref in_) 0 with
     | Some r => match format (getVideoInfo r) with None => true | Some _ => false end
     | None => false
     end.

(** What [BM3DCreate] does, read off the arguments: the read through the
    null format of a reference, after which nothing is defined; or else the
    report of the first failed check and the release of the handles held by
    then (the reference is read after the input check); or else the
    registration of the data. *)
Definition outcome (in_ : VSMap) : list Event :=
  if null_ref_read in_ then [ undefined_behaviour ]
  else match first_failed in_ with
       | Some e =>
           failed_with e (in_clip in_)
             (if bad_input (getVideoInfo (in_clip in_)) then None
              else propGet (in_ref in_) 0)
       | None => [ createFilter "BM3D" fmParallel (configured in_) ]
       end.

(** An argument map whose first [sigma] is not a number. *)
Definition nan_sigma : VSMap := Sample.args [] [S754_nan] [] [].

(** ** Registration: [VapourSynthPluginInit] *)

(** The two calls of the entry point: [configFunc] and [registerFunc], the
    latter with the name of the function, its argument string and the
    function that constructs the filter. *)
Inductive PluginCall : Type :=
| configFunc (identifier defaultNamespace name : string) (apiVersion readOnly : Z)
| registerFunc (name args : string) (argsFunc : VSMap -> Z -> list Event).

Section Plugin.

(** The constant of VapourSynth.h the plugin was compiled against. *)
Variable VAPOURSYNTH_API_VERSION : Z.

Definition VapourSynthPluginInit : list PluginCall :=
  [ configFunc "com.wolframrhodium.bm3dcpu" "bm3dcpu"
      "BM3D algorithm implemented in AVX and AVX2 intrinsics"
      VAPOURSYNTH_API_VERSION 1;
    registerFunc "BM3D"
      ("clip:clip;"
       +:+ "ref:clip:opt;"
       +:+ "sigma:float[]:opt;"
       +:+ "block_step:int[]:opt;"
       +:+ "bm_range:int[]:opt;"
       +:+ "radius:int:opt;"
       +:+ "ps_num:int:opt;"
       +:+ "ps_range:int:opt;"
       +:+ "chroma:int:opt;")
      BM3DCreate ].

End Plugin.

Definition registrations (calls : list PluginCall)
    : list (string * string * (VSMap -> Z -> list Event)) :=
  flat_map (fun c => match c with
                     | registerFunc name args f => [(name, args, f)]
                     | _ => []
                     end) calls.

(** The host's reading of an argument string: arguments end with a
    semicolon; an argument is a name, a type, with [[]] appended for an
    array, and flags such as [opt], separated by colons. *)
Fixpoint split_at (sep : ascii) (s : string) : list string :=
  match s with
  | EmptyString => [EmptyString]
  | String c rest =>
      if Ascii.eqb c sep then EmptyString :: split_at sep rest
      else match split_at sep rest with
           | piece :: pieces => String c piece :: pieces
           | [] => [String c EmptyString]
           end
  end.

Record ArgSpec := {
  arg_name : string;
  arg_type : string;
  arg_array : bool;
  arg_opt : bool
}.

Definition parse_arg (s : string) : option ArgSpec :=
  match split_at ":" s with
  | name :: ty :: flags =>
      let n := String.length ty in
      let array := String.eqb (substring (n - 2) 2 ty) "[]" in
      Some {| arg_name := name;
              arg_type := if array then substring 0 (n - 2) ty else ty;
              arg_array := array;
              arg_opt := existsb (String.eqb "opt") flags |}
  | _ => None
  end.

Definition parse_args (s : string) : list ArgSpec :=
  omap parse_arg (List.filter (fun piece => negb (String.eqb piece "")) (split_at ";" s)).

(** The keys [BM3DCreate] reads, each with the type of the getter it is
    read with ([propGetNode], [propGetFloat], [propGetInt]). *)
Definition keys_read : list (string * string) :=
  [ ("clip", "clip"); ("ref", "clip"); ("sigma", "float"); ("block_step", "int");
    ("bm_range", "int"); ("radius", "int"); ("ps_num", "int"); ("ps_range", "int");
    ("chroma", "int") ].

(** How many values an argument map holds per key. *)
Definition supplied_counts (in_ : VSMap) : list (string * nat) :=
  [ ("clip", 1%nat); ("ref", length (in_ref in_)); ("sigma", length (in_sigma in_));
    ("block_step", length (in_block_step in_)); ("bm_range", length (in_bm_range in_));
    ("radius", length (in_radius in_)); ("ps_num", length (in_ps_num in_));
    ("ps_range", length (in_ps_range in_)); ("chroma", length (in_chroma in_)) ].

(** The host calls a function only with a map its signature admits: every
    key declared, a single value at most unless the argument is an array,
    and a value for every argument that is not optional. *)
Definition admits (signature : list ArgSpec) (entry : string * nat) : bool :=
  match List.find (fun a => String.eqb (arg_name a) entry.1) signature with
  | Some a => (arg_array a || (entry.2 <=? 1)%nat) && (arg_opt a || (1 <=? entry.2)%nat)
  | None => false
  end.

Definition callable (signature : list ArgSpec) (in_ : VSMap) : bool :=
  forallb (admits signature) (supplied_counts in_).
(** * Properties *)

(** ** Arithmetic that stays in range *)

Lemma Int_wrap_small (z : Z) : Int.in_range z -> Int.wrap z = z.
Proof.
  unfold Int.in_range, Int.wrap, Int.INT_MIN, Int.INT_MAX. intros H.
  rewrite Z.mod_small; lia.
Qed.

Lemma Int_add_small (a b : Z) : Int.in_range (a + b) -> Int.add a b = a + b.
Proof. apply Int_wrap_small. Qed.

Lemma Int_sub_small (a b : Z) : Int.in_range (a - b) -> Int.sub a b = a - b.
Proof. apply Int_wrap_small. Qed.

Lemma Int_mul_small (a b : Z) : Int.in_range (a * b) -> Int.mul a b = a * b.
Proof. apply Int_wrap_small. Qed.

Lemma Int_neg_small (a : Z) : Int.in_range (- a) -> Int.neg a = - a.
Proof. apply Int_wrap_small. Qed.

Lemma int64ToIntS_in_range (i : Z) : Int.in_range (int64ToIntS i).
Proof.
  unfold int64ToIntS, Int.in_range, Int.INT_MAX, Int.INT_MIN.
  repeat case_match; lia.
Qed.

(** ** Construction *)

Section Within.

Variable I : BM3DData -> Prop.
Variable S : list string.

Lemma within_ret {A : Type} (a : A) : within I S (mret a).
Proof. intros d H. split; [exact H | discriminate]. Qed.

Lemma within_error {A : Type} (msg : string) :
  In msg S -> within I S (return_set_error (A := A) msg).
Proof. intros Hin d H. split; [exact H |]. intros e [= <-]. exact Hin. Qed.

Lemma within_null {A : Type} : within I S (read_through_null (A := A)).
Proof. intros d H. split; [exact H | discriminate]. Qed.

Lemma within_get : within I S cget.
Proof. intros d H. split; [exact H | discriminate]. Qed.

Lemma within_modify (f : BM3DData -> BM3DData) :
  (forall d, I d -> I (f d)) -> within I S (cmodify f).
Proof. intros Hf d H. split; [apply Hf, H | discriminate]. Qed.

Lemma within_bind {A B : Type} (m : Create A) (k : A -> Create B) :
  within I S m -> (forall a, within I S (k a)) -> within I S (m ≫= k).
Proof.
  intros Hm Hk d H. destruct (Hm d H) as [Hi He].
  unfold mbind, Create_bind.
  destruct (m d) as [[e | a] d'] eqn:E; simpl in *.
  - split; [exact Hi |]. intros e' [= ->]. apply He. reflexivity.
  - apply Hk, Hi.
Qed.

Lemma within_cfor (idx : list nat) (body : nat -> Create unit) :
  (forall i, within I S (body i)) -> within I S (cfor idx body).
Proof.
  intros Hb. induction idx as [| i rest IH]; simpl.
  - apply within_ret.
  - apply within_bind; [apply Hb | intros _; exact IH].
Qed.

Lemma within_if {A : Type} (b : bool) (m1 m2 : Create A) :
  within I S m1 -> within I S m2 -> within I S (if b then m1 else m2).
Proof. destruct b; auto. Qed.

End Within.

Lemma within_read_int (I : BM3DData -> Prop) (S : list string)
    (supplied : list Z) (dflt : Z) (bad : Z -> bool) (msg : string)
    (field : BM3DData -> list Z) (store : list Z -> BM3DData -> BM3DData) (i : nat) :
  In msg S -> (forall x d, I d -> I (store x d)) ->
  within I S (read_int supplied dflt bad msg field store i).
Proof.
  intros Hin Hst. unfold read_int.
  apply within_bind; [apply within_get | intros d].
  apply within_bind.
  - destruct (propGet supplied i); [| apply within_ret].
    apply within_if; [apply within_error, Hin | apply within_ret].
  - intros v. apply within_modify. intros d0. apply Hst.
Qed.

(** One turn of the [sigma] loop either leaves with the message for a
    negative value or stores a scaled value together with its flag. *)
Lemma read_sigma_run (in_ : VSMap) (i : nat) (d : BM3DData) :
  read_sigma in_ i d = (inl (by_set_error msg_sigma), d) \/
  exists s0, read_sigma in_ i d
             = (inr tt, store_sigma i (F32.mul s0 (sigma_scale (ref_node d))) d)
             /\ s0 = match propGet (in_sigma in_) i with
                     | Some x => F32.of_double x
                     | None => if (i =? 0)%nat then F32.of_Z 3
                               else nth (i - 1) (sigma d) F32.zero
                     end.
Proof.
  unfold read_sigma, mbind, Create_bind, cget, cmodify, mret, Create_ret,
    return_set_error, store_sigma.
  destruct (propGet (in_sigma in_) i) as [x |]; simpl.
  - destruct (F32.ltb (F32.of_double x) F32.zero); [left; reflexivity |].
    right. eexists. split; reflexivity.
  - right. eexists. split; reflexivity.
Qed.

Lemma within_read_sigma (I : BM3DData -> Prop) (in_ : VSMap) (i : nat) :
  (forall s d, I d -> I (store_sigma i s d)) ->
  within I param_messages (read_sigma in_ i).
Proof.
  intros Hst d H.
  destruct (read_sigma_run in_ i d) as [E | (s0 & E & _)]; rewrite E; simpl.
  - split; [exact H |]. intros e [= <-]. simpl. tauto.
  - split; [apply Hst, H | discriminate].
Qed.

Lemma settled_closed (I : BM3DData -> Prop) : settled I -> closed_under_stores I.
Proof.
  intros H.
  repeat split; intros x d; try (intros Hx Hd; revert Hd; clear Hx);
    apply H; reflexivity.
Qed.

Lemma within_read_radius (I : BM3DData -> Prop) (in_ : VSMap) :
  (forall x d, 0 <= x <= Int.INT_MAX -> I d -> I (with_radius x d)) ->
  within I param_messages (read_radius in_).
Proof.
  intros Hr d H. unfold read_radius, mbind, Create_bind, cmodify, mret, Create_ret,
    return_set_error.
  destruct (propGet (in_radius in_) 0) as [x |]; simpl.
  - destruct (Z.ltb_spec (int64ToIntS x) 0) as [Hneg | Hpos]; simpl.
    + split; [exact H |]. intros e [= <-]. simpl. tauto.
    + split; [| discriminate]. apply Hr; [| exact H].
      pose proof (int64ToIntS_in_range x) as [_ Hmax]. lia.
  - split; [| discriminate]. apply Hr; [unfold Int.INT_MAX; lia | exact H].
Qed.

Lemma within_read_params (I : BM3DData -> Prop) (in_ : VSMap) (numThreads : Z) :
  closed_under_stores I -> (forall i s d, I d -> I (store_sigma i s d)) ->
  within I param_messages (read_params in_ numThreads).
Proof.
  intros (Hbs & Hbm & Hr & Hpn & Hpr & Hc & Hb) Hsig.
  unfold read_params.
  apply within_bind; [| intros _].
  { apply within_cfor. intros i. apply within_read_sigma. intros s d. apply Hsig. }
  apply within_bind; [| intros _].
  { apply within_cfor. intros i. apply within_read_int; [simpl; tauto | exact Hbs]. }
  apply within_bind; [| intros _].
  { apply within_cfor. intros i. apply within_read_int; [simpl; tauto | exact Hbm]. }
  apply within_bind; [| intros _].
  { apply within_read_radius, Hr. }
  apply within_bind; [| intros _].
  { apply within_cfor. intros i. apply within_read_int; [simpl; tauto | exact Hpn]. }
  apply within_bind; [| intros _].
  { apply within_cfor. intros i. apply within_read_int; [simpl; tauto | exact Hpr]. }
  apply within_bind; [| intros _].
  { unfold read_chroma. apply within_bind; [apply within_get | intros d].
    apply within_if; [apply within_error; simpl; tauto |].
    apply within_modify. intros d0. apply Hc. }
  unfold reserve_buffer. apply within_bind; [apply within_get | intros d].
  apply within_if; [| apply within_ret].
  apply within_modify. intros d0. apply Hb.
Qed.

Lemma flags_match_settled : settled flags_match.
Proof.
  intros d d' Hs Hp _ _. unfold flags_match. rewrite Hs, Hp. tauto.
Qed.

Lemma flags_match_store (i : nat) (s : F32.float) (d : BM3DData) :
  flags_match d -> flags_match (store_sigma i s d).
Proof.
  intros (Hls & Hlp & H). unfold flags_match, store_sigma. simpl.
  rewrite !length_insert. repeat split; [exact Hls | exact Hlp |].
  intros j s' Hj. destruct (decide (i = j)) as [<- | Hne].
  - pose proof (lookup_lt_Some _ _ _ Hj) as Hlt. rewrite length_insert in Hlt.
    rewrite list_lookup_insert_eq in Hj by exact Hlt. injection Hj as <-.
    rewrite list_lookup_insert_eq by lia. reflexivity.
  - rewrite list_lookup_insert_ne in Hj by exact Hne.
    rewrite list_lookup_insert_ne by exact Hne. apply H, Hj.
Qed.

Lemma flags_match_fresh (in_ : VSMap) : flags_match (fresh_data in_).
Proof.
  unfold flags_match, fresh_data. simpl. repeat split.
  intros [| [| [| i]]] s; simpl; intros [= <-]; reflexivity.
Qed.

(** What [BM3DCreate] registers is the data the validation left. *)
Lemma created_configure (in_ : VSMap) (numThreads : Z) (d : BM3DData) :
  In d (created (BM3DCreate in_ numThreads)) ->
  exists u, configure in_ numThreads = (inr u, d).
Proof.
  unfold BM3DCreate.
  destruct (configure in_ numThreads) as [[[e |] | u] d'] eqn:E; simpl; [tauto | tauto |].
  intros [<- | []]. exists u. reflexivity.
Qed.

Lemma within_weaken (I : BM3DData -> Prop) (S S' : list string) {A : Type}
    (m : Create A) :
  incl S S' -> within I S m -> within I S' m.
Proof.
  intros Hincl Hm d H. destruct (Hm d H) as [Hi He].
  split; [exact Hi |]. intros e E. apply Hincl, He, E.
Qed.

Lemma within_check_input (I : BM3DData -> Prop) : within I all_messages check_input.
Proof.
  unfold check_input. apply within_bind; [apply within_get | intros d].
  apply within_if; [apply within_error; simpl; tauto | apply within_ret].
Qed.

Lemma within_read_ref (I : BM3DData -> Prop) (in_ : VSMap) :
  (forall r d, I d -> I (with_ref_node r d)) -> within I all_messages (read_ref in_).
Proof.
  intros Hr. unfold read_ref. destruct (propGet (in_ref in_) 0) as [r |].
  - apply within_bind; [apply within_modify, Hr | intros _].
    apply within_bind; [apply within_get | intros d].
    destruct (format (getVideoInfo r)) as [ref_format |]; [| apply within_null].
    repeat (apply within_if;
            [apply within_error; simpl; repeat (first [left; reflexivity | right]) |]).
    apply within_ret.
  - apply within_modify, Hr.
Qed.

Lemma within_create_body (I : BM3DData -> Prop) (in_ : VSMap) (numThreads : Z) :
  closed_under_stores I -> (forall r d, I d -> I (with_ref_node r d)) ->
  (forall i s d, I d -> I (store_sigma i s d)) ->
  within I all_messages (create_body in_ numThreads).
Proof.
  intros Hs Hr Hsig. unfold create_body.
  apply within_bind; [apply within_check_input | intros _].
  apply within_bind; [apply within_read_ref, Hr | intros _].
  apply (within_weaken I param_messages).
  - intros e He. simpl in *. tauto.
  - apply within_read_params; assumption.
Qed.

Lemma flags_match_configure (in_ : VSMap) (numThreads : Z) :
  flags_match (configure in_ numThreads).2.
Proof.
  unfold configure. apply (within_create_body flags_match).
  - apply settled_closed, flags_match_settled.
  - intros r d. unfold flags_match. simpl. tauto.
  - intros i s d. apply flags_match_store.
  - apply flags_match_fresh.
Qed.

(** A successful construction registers data in which [vi] is the clip's
    video info, of constant format, the radius is not negative, and the
    scratch table is empty. *)
Lemma configure_valid (in_ : VSMap) (numThreads : Z) (d : BM3DData) :
  In d (created (BM3DCreate in_ numThreads)) ->
  valid_data d /\ node d = in_clip in_ /\ isConstantFormat (vi d) = true.
Proof.
  intros Hd. destruct (created_configure _ _ _ Hd) as [u E].
  assert (Hv : valid_data (configure in_ numThreads).2
               /\ node (configure in_ numThreads).2 = in_clip in_
               /\ vi (configure in_ numThreads).2 = getVideoInfo (in_clip in_)).
  { unfold configure.
    apply (within_create_body
             (fun d => valid_data d /\ node d = in_clip in_
                       /\ vi d = getVideoInfo (in_clip in_))).
    - unfold valid_data. repeat split; simpl; intros; tauto.
    - unfold valid_data. simpl. tauto.
    - unfold valid_data. simpl. tauto.
    - unfold valid_data, fresh_data, Int.INT_MAX. simpl. repeat split; lia. }
  rewrite E in Hv. simpl in Hv. destruct Hv as (Hv & Hn & Hvi).
  split; [exact Hv |]. split; [exact Hn |].
  rewrite Hvi. unfold configure, create_body in E.
  change ((check_input;; read_ref in_;; read_params in_ numThreads) (fresh_data in_))
    with (match check_input (fresh_data in_) with
          | (inl e, d') => (inl e, d')
          | (inr _, d') => (read_ref in_;; read_params in_ numThreads) d'
          end) in E.
  unfold check_input, mbind at 1, Create_bind at 1, cget in E. simpl in E.
  destruct (isConstantFormat (getVideoInfo (in_clip in_))); [reflexivity |].
  simpl in E. discriminate E.
Qed.

(** C5, amended: for every constructed instance and every plane index,
    [process[i]] is the negation of "the scaled [sigma[i]] is less than
    machine epsilon"; a scaled value equal to epsilon, greater than it, or
    not a number gives [true]. *)
Theorem process_flag_not_below_epsilon (in_ : VSMap) (numThreads : Z) (d : BM3DData)
    (i : nat) :
  In d (created (BM3DCreate in_ numThreads)) -> (i < 3)%nat ->
  exists s, sigma d !! i = Some s
            /\ process d !! i = Some (negb (F32.ltb s F32.epsilon)).
Proof.
  intros Hd Hi. destruct (created_configure _ _ _ Hd) as [u E].
  pose proof (flags_match_configure in_ numThreads) as (Hls & Hlp & H).
  rewrite E in Hls, Hlp, H. simpl in Hls, Hlp, H.
  destruct (lookup_lt_is_Some_2 (sigma d) i) as [s Hs]; [lia |].
  exists s. split; [exact Hs | apply H, Hs].
Qed.

Lemma process_flag_not_below_epsilon_witness :
  exists s, sigma (Sample.data Sample.one_sigma) !! 1%nat = Some s
            /\ process (Sample.data Sample.one_sigma) !! 1%nat
               = Some (negb (F32.ltb s F32.epsilon)).
Proof.
  apply (process_flag_not_below_epsilon Sample.one_sigma 4 (Sample.data Sample.one_sigma) 1).
  - vm_compute. left. reflexivity.
  - lia.
Defined.

(** C5 as stated fails: a scaled [sigma[0]] exactly equal to machine
    epsilon does not strictly exceed it, and yet [process[0]] is [true]. *)
Lemma process_flag_at_epsilon :
  In (Sample.data Sample.at_epsilon) (created (BM3DCreate Sample.at_epsilon 4))
  /\ sigma (Sample.data Sample.at_epsilon) !! 0%nat = Some F32.epsilon
  /\ F32.ltb F32.epsilon F32.epsilon = false
  /\ ~ (process (Sample.data Sample.at_epsilon) !! 0%nat = Some true
        <-> exists s, sigma (Sample.data Sample.at_epsilon) !! 0%nat = Some s
                      /\ F32.ltb F32.epsilon s = true).
Proof.
  split; [vm_compute; left; reflexivity |].
  split; [vm_compute; reflexivity |].
  split; [vm_compute; reflexivity |].
  intros [H _].
  destruct H as (s & Hs & Hlt); [vm_compute; reflexivity |].
  vm_compute in Hs. injection Hs as <-. vm_compute in Hlt. discriminate Hlt.
Qed.

(** C4 at the failing input ([sigma] = [3.0], no reference clip): the
    first entry is 3 scaled once; the second, read as missing, is the
    stored first entry scaled again, and the third once more.  The two
    replicated entries differ from the first. *)
Theorem replicated_sigma_scaled_again :
  sigma (Sample.data Sample.one_sigma)
  = [ F32.mul (F32.of_Z 3) (sigma_scale None);
      F32.mul (F32.mul (F32.of_Z 3) (sigma_scale None)) (sigma_scale None);
      F32.mul (F32.mul (F32.mul (F32.of_Z 3) (sigma_scale None)) (sigma_scale None))
        (sigma_scale None) ]
  /\ sigma (Sample.data Sample.one_sigma) !! 1%nat
     <> sigma (Sample.data Sample.one_sigma) !! 0%nat
  /\ In (Sample.data Sample.one_sigma) (created (BM3DCreate Sample.one_sigma 4)).
Proof.
  split; [vm_compute; reflexivity |].
  split; [vm_compute; discriminate |].
  vm_compute. left. reflexivity.
Qed.

(** *** Reference clip checks *)


Lemma check_input_fails (d : BM3DData) (e : string) :
  (check_input d).1 = inl (by_set_error e) -> e = msg_format.
Proof.
  unfold check_input, mbind, Create_bind, cget. simpl.
  case_match; simpl; [intros [= <-]; reflexivity | discriminate].
Qed.







(** A reference clip of no fixed format: the construction reads through its
    null format, having reported, released and registered nothing. *)
Lemma variable_reference_read_through_null :
  propGet (in_ref Sample.variable_ref) 0 = Some Sample.variable_guide
  /\ format (getVideoInfo Sample.variable_guide) = None
  /\ BM3DCreate Sample.variable_ref 4 = [undefined_behaviour].
Proof. repeat split. Qed.

(** ** Frame production: running the computation *)

Lemma io_bind_run {A B : Type} (m : IO A) (k : A -> IO B) (w : World) :
  (m ≫= k) w
  = (result (k (result (m w)) (world (m w))),
     world (k (result (m w)) (world (m w))),
     trace (m w) ++ trace (k (result (m w)) (world (m w)))).
Proof.
  unfold mbind, IO_bind, result, world, trace.
  destruct (m w) as [[a w1] t1]. simpl.
  destruct (k a w1) as [[b w2] t2]. reflexivity.
Qed.

Lemma io_for_run {A : Type} (l : list A) (f : A -> Event) (w : World) :
  io_for l (fun x => call (f x)) w = (tt, w, map f l).
Proof.
  induction l as [| x rest IH]; simpl; [reflexivity |].
  rewrite io_bind_run.
  change (world (call (f x) w)) with w. rewrite IH. reflexivity.
Qed.

Lemma io_collect_run {A B : Type} (l : list A) (e : A -> Event) (g : A -> B) (w : World) :
  io_collect l (fun x => call (e x);; mret (g x)) w = (map g l, w, map e l).
Proof.
  induction l as [| x rest IH]; simpl; [reflexivity |].
  rewrite io_bind_run.
  change (world ((call (e x);; mret (g x)) w)) with w.
  change (result ((call (e x);; mret (g x)) w)) with (g x).
  change (trace ((call (e x);; mret (g x)) w)) with [e x].
  rewrite io_bind_run, IH.
  unfold result, world, trace, mret, IO_ret. simpl. rewrite app_nil_r. reflexivity.
Qed.

Lemma announce_run (n : Z) (d : BM3DData) (w : World) :
  announce n d w
  = (tt, w,
     map (fun i => requestFrameFilter i (node d))
       (for_range (Z.max (Int.sub n (radius d)) 0)
          (Z.min (Int.add n (radius d)) (Int.sub (numFrames (vi d)) 1)))
     ++ match ref_node d with
        | Some r =>
            map (fun i => requestFrameFilter i r)
              (for_range (Z.max (Int.sub n (radius d)) 0)
                 (Z.min (Int.add n (radius d)) (Int.sub (numFrames (vi d)) 1)))
        | None => []
        end).
Proof.
  unfold announce. rewrite io_bind_run, io_for_run. unfold result, world, trace. simpl.
  destruct (ref_node d) as [r |].
  - rewrite io_for_run. reflexivity.
  - reflexivity.
Qed.

Lemma fetch_run (n : Z) (d : BM3DData) (nd : VSNodeRef) (w : World) :
  fetch n d nd w
  = (window n d nd, w, map (fun f => getFrameFilter (frame_n f) nd) (window n d nd)).
Proof.
  unfold fetch, window. rewrite io_collect_run, map_map. reflexivity.
Qed.

Lemma fetch_ref_run (n : Z) (d : BM3DData) (w : World) :
  fetch_ref n d w
  = (ref_window n d, w,
     map (fun f => getFrameFilter (frame_n f) (frame_node f)) (ref_window n d)).
Proof.
  unfold fetch_ref, ref_window. destruct (ref_node d) as [r |]; [| reflexivity].
  rewrite fetch_run. f_equal. unfold window. rewrite !map_map. reflexivity.
Qed.

Lemma make_dst_world (d : BM3DData) (f : VSFrameRef) (w : World) :
  world (make_dst d f w) = w.
Proof. unfold make_dst. destruct (radius d =? 0); reflexivity. Qed.

Lemma tag_run (d : BM3DData) (w : World) : tag d w = (tt, w, tag_events d).
Proof. unfold tag, tag_events. destruct (radius d =? 0); reflexivity. Qed.

(** The calls of a frame production, in order: the fetches, the
    allocation of the output, the branch on [chroma], the releases, the
    properties. *)
Lemma produce_run (n : Z) (d : BM3DData) (this_thread : thread_id) (w : World) :
  produce n d this_thread w
  = (result (make_dst d (center_frame n d) w),
     world (filter_body n d this_thread w),
     map (fun f => getFrameFilter (frame_n f) (frame_node f)) (window n d (node d))
     ++ map (fun f => getFrameFilter (frame_n f) (frame_node f)) (ref_window n d)
     ++ trace (make_dst d (center_frame n d) w)
     ++ trace (filter_body n d this_thread w)
     ++ map freeFrame (window n d (node d))
     ++ map freeFrame (ref_window n d)
     ++ tag_events d).
Proof.
  unfold produce.
  rewrite io_bind_run, fetch_run. cbn [result world trace fst snd].
  rewrite io_bind_run, fetch_ref_run. cbn [result world trace fst snd].
  fold (center_frame n d).
  rewrite io_bind_run.
  rewrite (make_dst_world d (center_frame n d) w).
  rewrite io_bind_run. fold (filter_body n d this_thread).
  rewrite io_bind_run, io_for_run. cbn [result world trace fst snd].
  rewrite io_bind_run, io_for_run. cbn [result world trace fst snd].
  rewrite io_bind_run, tag_run. cbn [result world trace fst snd].
  unfold mret, IO_ret. cbn [result world trace fst snd].
  rewrite app_nil_r.
  f_equal. f_equal.
  unfold window. rewrite !map_map. reflexivity.
Qed.

Lemma get_frame_initial (n : Z) (t : thread_id) (w : World) :
  BM3DGetFrame n arInitial t w = (None, w, trace (announce n (inst w) w)).
Proof.
  unfold BM3DGetFrame. rewrite io_bind_run.
  cbn [get_data result world trace fst snd app].
  rewrite io_bind_run, announce_run. cbn [mret IO_ret result world trace fst snd].
  rewrite app_nil_r. reflexivity.
Qed.

Lemma get_frame_ready (n : Z) (t : thread_id) (w : World) :
  BM3DGetFrame n arAllFramesReady t w
  = (Some (result (produce n (inst w) t w)), world (produce n (inst w) t w),
     trace (produce n (inst w) t w)).
Proof.
  unfold BM3DGetFrame. rewrite io_bind_run.
  cbn [get_data result world trace fst snd app].
  rewrite io_bind_run. cbn [mret IO_ret result world trace fst snd].
  rewrite app_nil_r. reflexivity.
Qed.

(** *** Readings of a trace, part by part *)

Lemma flat_map_map_nil {A X : Type} (g : Event -> list X) (f : A -> Event) (l : list A) :
  (forall x, g (f x) = []) -> flat_map g (map f l) = [].
Proof.
  intros H. induction l as [| x rest IH]; simpl; [reflexivity |].
  rewrite H, IH. reflexivity.
Qed.

Section Silent.

Context {X : Type} (g : Event -> list X).

Lemma silent_ret {A : Type} (a : A) : silent g (mret a).
Proof. intros w. reflexivity. Qed.

Lemma silent_call (e : Event) : g e = [] -> silent g (call e).
Proof. intros H w. simpl. rewrite H. reflexivity. Qed.

Lemma silent_bind {A B : Type} (m : IO A) (k : A -> IO B) :
  silent g m -> (forall a, silent g (k a)) -> silent g (m ≫= k).
Proof.
  intros Hm Hk w. rewrite io_bind_run. cbn [trace snd].
  rewrite flat_map_app. fold (trace (m w)). rewrite Hm.
  fold (trace (k (result (m w)) (world (m w)))). rewrite Hk. reflexivity.
Qed.

Lemma silent_for {A : Type} (l : list A) (body : A -> IO unit) :
  (forall x, silent g (body x)) -> silent g (io_for l body).
Proof.
  intros H. induction l as [| x rest IH]; simpl.
  - apply silent_ret.
  - apply silent_bind; [apply H | intros _; exact IH].
Qed.

Lemma silent_if {A : Type} (b : bool) (m1 m2 : IO A) :
  silent g m1 -> silent g m2 -> silent g (if b then m1 else m2).
Proof. destruct b; auto. Qed.

Lemma silent_get_data : silent g get_data.
Proof. intros w. reflexivity. Qed.

Lemma silent_set_buffer (m : gmap thread_id ptr) : silent g (set_buffer m).
Proof. intros w. reflexivity. Qed.

Hypothesis Hmem : ignores_memory g.

Lemma silent_get_buffer (c : bool) (d : BM3DData) (t : thread_id) (stride height : Z) :
  silent g (get_buffer c d t stride height).
Proof.
  destruct Hmem as (Hmalloc & _ & _).
  unfold get_buffer. apply silent_if; [| apply silent_ret].
  apply silent_bind; [apply silent_get_data | intros cur].
  apply silent_bind.
  - apply silent_if; [| apply silent_ret].
    apply silent_bind.
    + intros w. simpl. rewrite Hmalloc. reflexivity.
    + intros p. apply silent_set_buffer.
  - intros _. apply silent_bind; [apply silent_get_data | intros cur'; apply silent_ret].
Qed.

Lemma silent_clear (c : bool) (d : BM3DData) (buf : ptr) (dst : list ptr)
    (stride height : Z) :
  silent g (clear c d buf dst stride height).
Proof.
  destruct Hmem as (_ & Hmemset & _).
  unfold clear. apply silent_if.
  - apply silent_call, Hmemset.
  - apply silent_for. intros p. apply silent_call, Hmemset.
Qed.

Lemma silent_dispatch (c : bool) (d : BM3DData) (dst : list ptr) (stride : Z)
    (src refs : list ptr) (width height : Z) (sg : list F32.float)
    (bs bm pn pr : Z) (buf : ptr) :
  silent g (dispatch c d dst stride src refs width height sg bs bm pn pr buf).
Proof.
  destruct Hmem as (_ & _ & Hk).
  unfold dispatch. destruct (ref_node d), (radius d =? 0); apply silent_call, Hk.
Qed.

Lemma silent_filter_joint (d : BM3DData) (t : thread_id) (src refs : list VSFrameRef)
    (f : VSFrameRef) :
  silent g (filter_joint d t src refs f).
Proof.
  unfold filter_joint.
  apply silent_bind; [apply silent_get_buffer | intros buf].
  apply silent_bind; [apply silent_clear | intros _; apply silent_dispatch].
Qed.

Lemma silent_filter_plane (d : BM3DData) (t : thread_id) (src refs : list VSFrameRef)
    (f : VSFrameRef) (plane : Z) :
  silent g (filter_plane d t src refs f plane).
Proof.
  unfold filter_plane. apply silent_if; [| apply silent_ret].
  apply silent_bind; [apply silent_get_buffer | intros buf].
  apply silent_bind; [apply silent_clear | intros _; apply silent_dispatch].
Qed.

Lemma silent_filter_body (n : Z) (d : BM3DData) (t : thread_id) :
  silent g (filter_body n d t).
Proof.
  unfold filter_body. apply silent_if.
  - apply silent_filter_joint.
  - unfold filter_planes. apply silent_for. intros plane.
    apply silent_filter_plane.
Qed.

End Silent.

(** ** The loop ranges *)

Lemma for_range_length (lo hi : Z) : length (for_range lo hi) = Z.to_nat (hi - lo + 1).
Proof. unfold for_range. rewrite length_map, length_seq. reflexivity. Qed.

Lemma for_range_In (lo hi i : Z) : In i (for_range lo hi) <-> lo <= i <= hi.
Proof.
  unfold for_range. rewrite in_map_iff. split.
  - intros (k & <- & Hk%in_seq). lia.
  - intros H. exists (Z.to_nat (i - lo)). split; [lia |]. apply in_seq. lia.
Qed.

Lemma for_range_NoDup (lo hi : Z) : List.NoDup (for_range lo hi).
Proof.
  unfold for_range. apply Finite.Injective_map_NoDup.
  - intros a b H. lia.
  - apply List.seq_NoDup.
Qed.

Lemma lookup_map {A B : Type} (f : A -> B) (l : list A) (k : nat) :
  map f l !! k = f <$> l !! k.
Proof.
  revert k. induction l as [| x rest IH]; intros [| k]; simpl; try reflexivity.
  apply IH.
Qed.

Lemma for_range_nth (lo hi : Z) (k : nat) :
  (k < Z.to_nat (hi - lo + 1))%nat -> for_range lo hi !! k = Some (lo + Z.of_nat k).
Proof.
  intros H. unfold for_range.
  rewrite lookup_map, lookup_seq_lt by exact H. reflexivity.
Qed.

Lemma clamp_bounds (v lo hi : Z) : lo <= hi -> lo <= clamp v lo hi <= hi.
Proof. unfold clamp. intros H. repeat case_match; lia. Qed.

Lemma clamp_inside (v lo hi : Z) : lo <= v <= hi -> clamp v lo hi = v.
Proof. unfold clamp. intros H. repeat case_match; lia. Qed.

(** Within the stated ranges the window is the clamped sequence, with no
    wrap-around. *)
Lemma window_exact (n : Z) (d : BM3DData) (nd : VSNodeRef) :
  0 <= radius d -> 0 <= n < numFrames (vi d) -> numFrames (vi d) <= Int.INT_MAX ->
  n + radius d <= Int.INT_MAX ->
  window n d nd
  = map (fun i => {| frame_node := nd; frame_n := clamp (n + i) 0 (numFrames (vi d) - 1) |})
      (for_range (- radius d) (radius d)).
Proof.
  intros HR Hn HN Hsum. unfold window.
  rewrite Int_neg_small, Int_sub_small
    by (unfold Int.in_range, Int.INT_MIN, Int.INT_MAX in *; lia).
  apply map_ext_in. intros i Hi%for_range_In.
  rewrite Int_add_small by (unfold Int.in_range, Int.INT_MIN, Int.INT_MAX in *; lia).
  reflexivity.
Qed.

(** A reading that ignores memory sees of a frame production the fetches,
    the allocation of the output, the releases and the properties. *)
Lemma produce_reading {X : Type} (g : Event -> list X) (n : Z) (d : BM3DData)
    (t : thread_id) (w : World) :
  ignores_memory g ->
  flat_map g (trace (produce n d t w))
  = flat_map g (map (fun f => getFrameFilter (frame_n f) (frame_node f))
                  (window n d (node d)))
    ++ flat_map g (map (fun f => getFrameFilter (frame_n f) (frame_node f))
                     (ref_window n d))
    ++ flat_map g (trace (make_dst d (center_frame n d) w))
    ++ flat_map g (map freeFrame (window n d (node d)))
    ++ flat_map g (map freeFrame (ref_window n d))
    ++ flat_map g (tag_events d).
Proof.
  intros Hg. rewrite produce_run. cbn [trace snd].
  rewrite !flat_map_app.
  fold (trace (filter_body n d t w)).
  rewrite (silent_filter_body g Hg n d t w).
  reflexivity.
Qed.

Lemma fetches_window (l : list VSFrameRef) :
  fetches (map (fun f => getFrameFilter (frame_n f) (frame_node f)) l)
  = map (fun f => (frame_n f, frame_node f)) l.
Proof.
  induction l as [| f rest IH]; [reflexivity |]. unfold fetches in *.
  cbn [map flat_map app]. rewrite IH. reflexivity.
Qed.

(** Within the stated ranges the center entry of the window is frame [n]. *)
Lemma center_frame_exact (n : Z) (d : BM3DData) :
  0 <= radius d -> 0 <= n < numFrames (vi d) -> numFrames (vi d) <= Int.INT_MAX ->
  n + radius d <= Int.INT_MAX ->
  center_frame n d = {| frame_node := node d; frame_n := n |}.
Proof.
  intros HR Hn HN Hsum. unfold center_frame.
  rewrite window_exact by assumption.
  rewrite nth_lookup, lookup_map.
  replace (Z.to_nat (radius d)) with (Z.to_nat (0 + radius d)) by (f_equal; lia).
  rewrite for_range_nth by lia. cbn [fmap option_fmap option_map default].
  unfold Datatypes.id. f_equal. rewrite clamp_inside; lia.
Qed.

(** C1: in the announce phase the filter requests from the clip each index
    of [max(n-R,0) .. min(n+R,N-1)] once, in order, and then the same indices
    from the reference node when there is one, and does nothing else; in the
    fetch phase it fetches from the clip, for the offsets [-R .. R] in order,
    the frames [clamp(n+i, 0, N-1)], 2R+1 of them, the one at position R being
    frame [n], and then the same indices from the reference node when there
    is one.  The sequence [src_frames] it builds holds the handles of these
    frames in this order, 2R+1 of them, which is [temporal_width], with frame
    [n] at position R, which is the frame the output is made from;
    [ref_frames] holds the handles of the same indices on the reference
    node, and is empty without one.  All this for the indices and radii
    whose sums and whose [temporal_width] are within [int]. *)
Theorem frame_window (w : World) (n : Z) (t : thread_id) :
  0 <= radius (inst w) ->
  0 <= n < numFrames (vi (inst w)) ->
  numFrames (vi (inst w)) <= Int.INT_MAX ->
  n + radius (inst w) <= Int.INT_MAX ->
  2 * radius (inst w) + 1 <= Int.INT_MAX ->
  trace (BM3DGetFrame n arInitial t w)
  = map (fun i => requestFrameFilter i (node (inst w)))
      (for_range (Z.max (n - radius (inst w)) 0)
         (Z.min (n + radius (inst w)) (numFrames (vi (inst w)) - 1)))
    ++ match ref_node (inst w) with
       | Some r =>
           map (fun i => requestFrameFilter i r)
             (for_range (Z.max (n - radius (inst w)) 0)
                (Z.min (n + radius (inst w)) (numFrames (vi (inst w)) - 1)))
       | None => []
       end
  /\ List.NoDup (for_range (Z.max (n - radius (inst w)) 0)
                   (Z.min (n + radius (inst w)) (numFrames (vi (inst w)) - 1)))
  /\ (forall i, In i (for_range (Z.max (n - radius (inst w)) 0)
                        (Z.min (n + radius (inst w)) (numFrames (vi (inst w)) - 1)))
                <-> Z.max (n - radius (inst w)) 0 <= i
                    <= Z.min (n + radius (inst w)) (numFrames (vi (inst w)) - 1))
  /\ fetches (trace (BM3DGetFrame n arAllFramesReady t w))
     = map (fun i => (clamp (n + i) 0 (numFrames (vi (inst w)) - 1), node (inst w)))
         (for_range (- radius (inst w)) (radius (inst w)))
       ++ match ref_node (inst w) with
          | Some r =>
              map (fun i => (clamp (n + i) 0 (numFrames (vi (inst w)) - 1), r))
                (for_range (- radius (inst w)) (radius (inst w)))
          | None => []
          end
  /\ length (for_range (- radius (inst w)) (radius (inst w)))
     = Z.to_nat (2 * radius (inst w) + 1)
  /\ (forall i, - radius (inst w) <= i <= radius (inst w) ->
                for_range (- radius (inst w)) (radius (inst w))
                  !! Z.to_nat (i + radius (inst w)) = Some i)
  /\ clamp (n + 0) 0 (numFrames (vi (inst w)) - 1) = n
  /\ (forall i, 0 <= clamp (n + i) 0 (numFrames (vi (inst w)) - 1)
                < numFrames (vi (inst w)))
  /\ result (fetch n (inst w) (node (inst w)) w)
     = map (fun i => {| frame_node := node (inst w);
                        frame_n := clamp (n + i) 0 (numFrames (vi (inst w)) - 1) |})
         (for_range (- radius (inst w)) (radius (inst w)))
  /\ length (result (fetch n (inst w) (node (inst w)) w))
     = Z.to_nat (2 * radius (inst w) + 1)
  /\ temporal_width (inst w) = 2 * radius (inst w) + 1
  /\ result (fetch n (inst w) (node (inst w)) w) !! Z.to_nat (radius (inst w))
     = Some {| frame_node := node (inst w); frame_n := n |}
  /\ result (fetch_ref n (inst w) w)
     = match ref_node (inst w) with
       | Some r =>
           map (fun i => {| frame_node := r;
                            frame_n := clamp (n + i) 0 (numFrames (vi (inst w)) - 1) |})
             (for_range (- radius (inst w)) (radius (inst w)))
       | None => []
       end
  /\ exists dst,
       result (BM3DGetFrame n arAllFramesReady t w) = Some dst
       /\ fr_propSrc dst = {| frame_node := node (inst w); frame_n := n |}.
Proof.
  intros HR Hn HN Hsum Hwidth.
  assert (Hr : forall a, Int.INT_MIN <= a <= Int.INT_MAX -> Int.in_range a)
    by (intros a Ha; exact Ha).
  split.
  { rewrite get_frame_initial, announce_run. cbn [trace snd].
    rewrite Int_sub_small, Int_add_small, Int_sub_small
      by (apply Hr; unfold Int.INT_MIN, Int.INT_MAX in *; lia).
    reflexivity. }
  split; [apply for_range_NoDup |].
  split; [intros i; apply for_range_In |].
  split.
  { rewrite get_frame_ready. cbn [trace snd].
    unfold fetches. rewrite produce_reading by (repeat split).
    fold (fetches (map (fun f => getFrameFilter (frame_n f) (frame_node f))
                     (window n (inst w) (node (inst w))))).
    fold (fetches (map (fun f => getFrameFilter (frame_n f) (frame_node f))
                     (ref_window n (inst w)))).
    rewrite !fetches_window.
    rewrite !flat_map_map_nil by reflexivity.
    assert (Hdst : flat_map
                     (fun e => match e with getFrameFilter n0 nd => [(n0, nd)] | _ => [] end)
                     (trace (make_dst (inst w) (center_frame n (inst w)) w)) = []).
    { unfold make_dst. destruct (radius (inst w) =? 0); reflexivity. }
    rewrite Hdst.
    assert (Htag : flat_map
                     (fun e => match e with getFrameFilter n0 nd => [(n0, nd)] | _ => [] end)
                     (tag_events (inst w)) = []).
    { unfold tag_events. destruct (radius (inst w) =? 0); reflexivity. }
    rewrite Htag. simpl. rewrite app_nil_r.
    unfold ref_window. rewrite window_exact by assumption.
    rewrite map_map. f_equal.
    destruct (ref_node (inst w)) as [r |]; [| reflexivity].
    rewrite window_exact by assumption. rewrite map_map. reflexivity. }
  split; [rewrite for_range_length; f_equal; lia |].
  split.
  { intros i Hi. rewrite for_range_nth by lia. f_equal. lia. }
  split; [rewrite clamp_inside; lia |].
  split.
  { intros i. pose proof (clamp_bounds (n + i) 0 (numFrames (vi (inst w)) - 1)). lia. }
  rewrite fetch_run, fetch_ref_run. cbn [result fst].
  split; [apply window_exact; assumption |].
  split.
  { rewrite window_exact by assumption.
    rewrite length_map, for_range_length. f_equal. lia. }
  split.
  { unfold temporal_width.
    rewrite (Int_mul_small 2 (radius (inst w)))
      by (apply Hr; unfold Int.INT_MIN, Int.INT_MAX in *; lia).
    apply Int_add_small, Hr. unfold Int.INT_MIN, Int.INT_MAX in *. lia. }
  split.
  { rewrite window_exact by assumption. rewrite lookup_map.
    replace (Z.to_nat (radius (inst w))) with (Z.to_nat (0 + radius (inst w)))
      by (f_equal; lia).
    rewrite for_range_nth by lia. cbn [fmap option_fmap option_map].
    f_equal. f_equal. rewrite clamp_inside; lia. }
  split.
  { unfold ref_window. destruct (ref_node (inst w)) as [r |]; [| reflexivity].
    apply window_exact; assumption. }
  rewrite get_frame_ready, produce_run. cbn [result fst].
  eexists. split; [reflexivity |].
  rewrite <- (center_frame_exact n (inst w)) by assumption.
  unfold make_dst. destruct (radius (inst w) =? 0); reflexivity.
Qed.

(** ** Output geometry *)

Lemma window_nodes (n : Z) (d : BM3DData) (nd : VSNodeRef) (f : VSFrameRef) :
  In f (window n d nd) -> frame_node f = nd.
Proof. unfold window. rewrite in_map_iff. intros (i & <- & _). reflexivity. Qed.

Lemma center_frame_node (n : Z) (d : BM3DData) : frame_node (center_frame n d) = node d.
Proof.
  unfold center_frame.
  destruct (nth_in_or_default (Z.to_nat (radius d)) (window n d (node d))
              {| frame_node := node d; frame_n := n |}) as [H | ->].
  - apply (window_nodes n d), H.
  - reflexivity.
Qed.

(** C2: the frame produced has the clip's format and width, hence the row
    stride of the input frame in every plane; with [radius = 0] it has the
    input frame's height, and with [radius = R > 0] its height, like the
    height [BM3DInit] advertises, is [2 * (2 * R + 1)] times the input
    height, the advertised format, width and length being the clip's. *)
Theorem output_geometry (w : World) (n : Z) (t : thread_id) :
  vi (inst w) = getVideoInfo (node (inst w)) ->
  0 <= radius (inst w) ->
  0 < height (vi (inst w)) ->
  2 * (2 * radius (inst w) + 1) * height (vi (inst w)) <= Int.INT_MAX ->
  exists dst,
    result (BM3DGetFrame n arAllFramesReady t w) = Some dst
    /\ fr_format dst = deref (format (getVideoInfo (frame_node (center_frame n (inst w)))))
    /\ fr_width dst = getFrameWidth (center_frame n (inst w)) 0
    /\ (forall plane, frame_stride dst plane = getStride (center_frame n (inst w)) plane)
    /\ (radius (inst w) = 0 ->
        fr_height dst = getFrameHeight (center_frame n (inst w)) 0
        /\ BM3DInit (inst w) = [setVideoInfo (vi (inst w))])
    /\ (0 < radius (inst w) ->
        fr_height dst
        = 2 * (2 * radius (inst w) + 1) * getFrameHeight (center_frame n (inst w)) 0
        /\ BM3DInit (inst w)
           = [setVideoInfo
                {| format := format (vi (inst w)); width := width (vi (inst w));
                   height := 2 * (2 * radius (inst w) + 1) * height (vi (inst w));
                   numFrames := numFrames (vi (inst w)) |}]).
Proof.
  intros Hvi HR Hh Hmax.
  rewrite get_frame_ready, produce_run. cbn [result fst].
  exists (make_dst (inst w) (center_frame n (inst w)) w).1.1.
  split; [reflexivity |].
  unfold getStride, frame_stride, getFrameWidth, getFrameHeight.
  rewrite center_frame_node, <- Hvi. cbn [Z.eqb]. rewrite !Z.shiftr_0_r.
  unfold make_dst, BM3DInit, temporal_width.
  destruct (Z.eqb_spec (radius (inst w)) 0) as [E | E]; cbn.
  - repeat split; try reflexivity; lia.
  - assert (Hr : forall a, 0 <= a <= Int.INT_MAX -> Int.in_range a)
      by (intros a Ha; unfold Int.in_range, Int.INT_MIN; lia).
    assert (H1 : Int.mul 2 (radius (inst w)) = 2 * radius (inst w))
      by (apply Int_mul_small, Hr; nia).
    rewrite H1.
    assert (H2 : Int.add (2 * radius (inst w)) 1 = 2 * radius (inst w) + 1)
      by (apply Int_add_small, Hr; nia).
    rewrite H2.
    assert (H3 : Int.mul (height (vi (inst w))) 2 = height (vi (inst w)) * 2)
      by (apply Int_mul_small, Hr; nia).
    rewrite H3.
    assert (H4 : Int.mul (height (vi (inst w)) * 2) (2 * radius (inst w) + 1)
                 = 2 * (2 * radius (inst w) + 1) * height (vi (inst w)))
      by (rewrite Int_mul_small; [lia | apply Hr; nia]).
    rewrite H4.
    assert (H5 : Int.mul 2 (2 * radius (inst w) + 1) = 2 * (2 * radius (inst w) + 1))
      by (apply Int_mul_small, Hr; nia).
    rewrite H5.
    assert (H6 : Int.mul (height (vi (inst w))) (2 * (2 * radius (inst w) + 1))
                 = 2 * (2 * radius (inst w) + 1) * height (vi (inst w)))
      by (rewrite Int_mul_small; [lia | apply Hr; nia]).
    rewrite H6.
    repeat split; try reflexivity; lia.
Qed.

(** ** Metadata *)

Lemma property_events_produce (n : Z) (t : thread_id) (w : World) :
  property_events (trace (BM3DGetFrame n arAllFramesReady t w)) = tag_events (inst w).
Proof.
  rewrite get_frame_ready. cbn [trace snd].
  unfold property_events. rewrite produce_reading by (repeat split).
  rewrite !flat_map_map_nil by reflexivity.
  assert (Hdst : forall g : Event -> list Event,
             (forall f a b c d e, g (newVideoFrame2 f a b c d e) = []) ->
             (forall f a b c, g (newVideoFrame f a b c) = []) ->
             flat_map g (trace (make_dst (inst w) (center_frame n (inst w)) w)) = []).
  { intros g H2 H1. unfold make_dst, io_newVideoFrame2, io_newVideoFrame.
    destruct (radius (inst w) =? 0); simpl.
    - rewrite H2. reflexivity.
    - rewrite H1. reflexivity. }
  rewrite Hdst by reflexivity. simpl.
  unfold tag_events. destruct (radius (inst w) =? 0); reflexivity.
Qed.

(** C8: a frame produced with a radius other than 0 has two properties set
    on it, in this order: the integer [BM3D_V_radius], equal to the
    configured radius, and the integer array [BM3D_V_process], equal to
    [process[0], process[1], process[2]] as 0/1; a frame produced with radius
    0 has no property set on it.  Either way the frame takes its other
    properties from the center source frame. *)
Theorem output_metadata (w : World) (n : Z) (t : thread_id) :
  (radius (inst w) <> 0 ->
   property_events (trace (BM3DGetFrame n arAllFramesReady t w))
   = [ propSetInt "BM3D_V_radius" (radius (inst w)) paReplace;
       propSetIntArray "BM3D_V_process"
         [ Z.b2z (nth 0 (process (inst w)) false);
           Z.b2z (nth 1 (process (inst w)) false);
           Z.b2z (nth 2 (process (inst w)) false) ] ])
  /\ (radius (inst w) = 0 ->
      property_events (trace (BM3DGetFrame n arAllFramesReady t w)) = [])
  /\ exists dst, result (BM3DGetFrame n arAllFramesReady t w) = Some dst
                 /\ fr_propSrc dst = center_frame n (inst w).
Proof.
  rewrite property_events_produce. unfold tag_events.
  split; [| split].
  - intros H. destruct (Z.eqb_spec (radius (inst w)) 0); [contradiction | reflexivity].
  - intros ->. reflexivity.
  - rewrite get_frame_ready, produce_run. cbn [result fst].
    eexists. split; [reflexivity |].
    unfold make_dst. destruct (radius (inst w) =? 0); reflexivity.
Qed.

(** ** The scratch table *)

Lemma scratch_of_registered (w : World) (t : thread_id) :
  scratch_of (registered w t) t = scratch_of w t.
Proof.
  unfold scratch_of, registered.
  destruct (buffer (inst w) !! t) as [p |] eqn:E.
  - rewrite E. reflexivity.
  - simpl. rewrite lookup_insert_eq. reflexivity.
Qed.

Lemma registered_lookup (w : World) (t : thread_id) :
  buffer (inst (registered w t)) !! t = Some (scratch_of w t).
Proof.
  unfold scratch_of, registered.
  destruct (buffer (inst w) !! t) as [p |] eqn:E.
  - exact E.
  - simpl. apply lookup_insert_eq.
Qed.

Lemma registered_idem (w : World) (t : thread_id) :
  registered (registered w t) t = registered w t.
Proof.
  unfold registered at 1. rewrite registered_lookup. reflexivity.
Qed.


Lemma registered_config (w : World) (t : thread_id) :
  with_buffer ∅ (inst (registered w t)) = with_buffer ∅ (inst w).
Proof.
  unfold registered. destruct (buffer (inst w) !! t); reflexivity.
Qed.

Lemma get_buffer_run (c : bool) (d : BM3DData) (t : thread_id) (stride height : Z)
    (w : World) :
  get_buffer c d t stride height w
  = if radius d =? 0
    then (scratch_of w t, registered w t, registration c w t stride height)
    else (nullptr, w, []).
Proof.
  unfold get_buffer. destruct (radius d =? 0); [| reflexivity].
  unfold count, scratch_of, registered, registration, at_key, emplace,
    mbind, IO_bind, get_data, set_buffer, aligned_malloc, mret, IO_ret.
  destruct (buffer (inst w) !! t) as [p |] eqn:E; cbn.
  - rewrite E. reflexivity.
  - rewrite lookup_insert_eq. reflexivity.
Qed.

Lemma clear_run (c : bool) (d : BM3DData) (buf : ptr) (dst : list ptr) (stride height : Z)
    (w : World) :
  clear c d buf dst stride height w
  = (tt, w,
     if radius d =? 0 then [memset buf 0 (scratch_bytes c stride height)]
     else map (fun dstp => memset dstp 0 (stacked_bytes d stride height)) dst).
Proof.
  unfold clear. destruct (radius d =? 0); [reflexivity |].
  apply io_for_run.
Qed.

Lemma dispatch_run (c : bool) (d : BM3DData) (dst : list ptr) (stride : Z)
    (src refs : list ptr) (width height : Z) (sg : list F32.float)
    (bs bm pn pr : Z) (buf : ptr) (w : World) :
  dispatch c d dst stride src refs width height sg bs bm pn pr buf w
  = (tt, w, [bm3d (kernel_of c d dst stride src refs width height sg bs bm pn pr buf)]).
Proof.
  unfold dispatch, kernel_of. destruct (ref_node d), (radius d =? 0); reflexivity.
Qed.

(** Joint mode: the registration if it is due, the [memset] calls, the one
    kernel call. *)
Lemma filter_joint_run (d : BM3DData) (t : thread_id) (src refs : list VSFrameRef)
    (f : VSFrameRef) (w : World) :
  filter_joint d t src refs f w
  = (tt, (if radius d =? 0 then registered w t else w),
     (if radius d =? 0
      then registration true w t (stride_of f 0) (getFrameHeight f 0) else [])
     ++ zeroing d (joint_call d src refs f (scratch_of w t))
     ++ [bm3d (joint_call d src refs f (scratch_of w t))]).
Proof.
  unfold filter_joint.
  rewrite io_bind_run, get_buffer_run.
  unfold zeroing, joint_call, kernel_of.
  destruct (radius d =? 0) eqn:E; cbn [result world trace fst snd];
    rewrite io_bind_run, clear_run, dispatch_run; cbn [result world trace fst snd];
    unfold kernel_of; rewrite E; reflexivity.
Qed.

(** One plane: nothing when its flag is off; otherwise as in joint mode,
    with the plane's own arguments. *)
Lemma filter_plane_run (d : BM3DData) (t : thread_id) (src refs : list VSFrameRef)
    (f : VSFrameRef) (plane : Z) (w : World) :
  filter_plane d t src refs f plane w
  = if nth (Z.to_nat plane) (process d) false
    then (tt, (if radius d =? 0 then registered w t else w),
          (if radius d =? 0
           then registration false w t (stride_of f plane) (getFrameHeight f plane)
           else [])
          ++ zeroing d (plane_call d src refs f (scratch_of w t) plane)
          ++ [bm3d (plane_call d src refs f (scratch_of w t) plane)])
    else (tt, w, []).
Proof.
  unfold filter_plane.
  destruct (nth (Z.to_nat plane) (process d) false); [| reflexivity].
  rewrite io_bind_run, get_buffer_run.
  unfold zeroing, plane_call, kernel_of.
  destruct (radius d =? 0) eqn:E; cbn [result world trace fst snd];
    rewrite io_bind_run, clear_run, dispatch_run; cbn [result world trace fst snd];
    unfold kernel_of; rewrite E; reflexivity.
Qed.

Lemma flat_map_map_self {A : Type} (g : Event -> list Event) (f : A -> Event) (l : list A) :
  (forall x, g (f x) = [f x]) -> flat_map g (map f l) = map f l.
Proof.
  intros H. induction l as [| x rest IH]; simpl; [reflexivity |].
  rewrite H, IH. reflexivity.
Qed.

Lemma zeroing_readings (d : BM3DData) (k : KernelCall) :
  kernel_calls (zeroing d k) = [] /\ memory_events (zeroing d k) = zeroing d k
  /\ mallocs (zeroing d k) = [].
Proof.
  unfold zeroing, kernel_calls, memory_events, mallocs.
  destruct (radius d =? 0); [repeat split |].
  split; [apply flat_map_map_nil; reflexivity |].
  split; [apply flat_map_map_self; reflexivity | apply flat_map_map_nil; reflexivity].
Qed.

Lemma registration_readings (c : bool) (w : World) (t : thread_id) (stride height : Z) :
  kernel_calls (registration c w t stride height) = []
  /\ memory_events (registration c w t stride height) = []
  /\ mallocs (registration c w t stride height) = registration c w t stride height.
Proof.
  unfold registration. destruct (buffer (inst w) !! t); repeat split.
Qed.

Lemma registration_registered (c : bool) (w : World) (t : thread_id) (stride height : Z) :
  registration c (registered w t) t stride height = [].
Proof.
  unfold registration. rewrite registered_lookup. reflexivity.
Qed.

(** The loop over the planes, from any world: where it leaves the table,
    its kernel calls, its memory writes and its allocations. *)
Lemma planes_loop (d : BM3DData) (t : thread_id) (src refs : list VSFrameRef)
    (f : VSFrameRef) (l : list Z) (w : World) :
  world (io_for l (filter_plane d t src refs f) w)
  = (if (radius d =? 0) && existsb (processed d) l then registered w t else w)
  /\ kernel_calls (trace (io_for l (filter_plane d t src refs f) w))
     = map (plane_call d src refs f (scratch_of w t)) (List.filter (processed d) l)
  /\ cleared_calls d (trace (io_for l (filter_plane d t src refs f) w))
  /\ mallocs (trace (io_for l (filter_plane d t src refs f) w))
     = match List.filter (processed d) l with
       | p :: _ =>
           if radius d =? 0
           then registration false w t (stride_of f p) (getFrameHeight f p)
           else []
       | [] => []
       end.
Proof.
  revert w. induction l as [| x rest IH]; intros w.
  - cbn. rewrite andb_false_r. repeat split.
  - cbn [io_for]. rewrite io_bind_run, filter_plane_run.
    unfold cleared_calls in *.
    cbn [existsb List.filter]. fold (processed d x).
    destruct (processed d x) eqn:Ex; cbn [result world trace fst snd orb].
    + specialize (IH (if radius d =? 0 then registered w t else w)).
      destruct IH as (IHw & IHk & IHm & IHa).
      destruct (zeroing_readings d (plane_call d src refs f (scratch_of w t) x))
        as (Zk & Zm & Za).
      destruct (registration_readings false w t (stride_of f x) (getFrameHeight f x))
        as (Rk & Rm & Ra).
      assert (Hs : scratch_of (if radius d =? 0 then registered w t else w) t
                   = scratch_of w t)
        by (destruct (radius d =? 0); [apply scratch_of_registered | reflexivity]).
      rewrite Hs in IHk.
      split; [| split; [| split]].
      * rewrite IHw. destruct (radius d =? 0); cbn [andb]; [| reflexivity].
        rewrite registered_idem. destruct (existsb (processed d) rest); reflexivity.
      * unfold kernel_calls in *. rewrite !flat_map_app, IHk.
        destruct (radius d =? 0); [rewrite Rk |]; rewrite Zk; reflexivity.
      * unfold kernel_calls, memory_events in *. rewrite !flat_map_app, IHm.
        assert (Hreg : forall X (g : Event -> list X),
                   flat_map g (if radius d =? 0
                               then registration false w t (stride_of f x)
                                      (getFrameHeight f x)
                               else [])
                   = if radius d =? 0
                     then flat_map g (registration false w t (stride_of f x)
                                        (getFrameHeight f x))
                     else [])
          by (intros X g; destruct (radius d =? 0); reflexivity).
        rewrite !Hreg, Rk, Rm, Zk, Zm. cbn [flat_map app].
        destruct (radius d =? 0); cbn [flat_map app]; rewrite <- ?app_assoc;
          reflexivity.
      * unfold mallocs in *. rewrite !flat_map_app, IHa, Za. cbn [flat_map app].
        rewrite app_nil_r.
        destruct (radius d =? 0).
        -- rewrite Ra.
           destruct (List.filter (processed d) rest);
             [| rewrite registration_registered]; apply app_nil_r.
        -- destruct (List.filter (processed d) rest); reflexivity.
    + specialize (IH w). destruct IH as (IHw & IHk & IHm & IHa).
      cbn [app]. repeat split; assumption.
Qed.

(** ** One frame production as a whole *)

Lemma filter_nonempty_existsb {A : Type} (p : A -> bool) (l : list A) :
  List.filter p l <> [] -> existsb p l = true.
Proof.
  induction l as [| x rest IH]; simpl; [congruence |].
  destruct (p x); [reflexivity | exact IH].
Qed.

(** A reading of memory sees of a frame production only the branch on
    [chroma]. *)
Lemma produce_memory {X : Type} (g : Event -> list X) (n : Z) (t : thread_id) (w : World) :
  only_memory g ->
  flat_map g (trace (BM3DGetFrame n arAllFramesReady t w))
  = flat_map g (trace (filter_body n (inst w) t w)).
Proof.
  intros (_ & Hget & Hn2 & Hn1 & Hfree & Hpi & Hpa).
  rewrite get_frame_ready, produce_run. cbn [trace snd].
  rewrite !flat_map_app.
  rewrite !flat_map_map_nil by (intros; first [apply Hget | apply Hfree]).
  assert (Hdst : flat_map g (trace (make_dst (inst w) (center_frame n (inst w)) w)) = []).
  { unfold make_dst, io_newVideoFrame2, io_newVideoFrame.
    destruct (radius (inst w) =? 0); simpl; rewrite ?Hn2, ?Hn1; reflexivity. }
  assert (Htag : flat_map g (tag_events (inst w)) = []).
  { unfold tag_events. destruct (radius (inst w) =? 0); simpl; rewrite ?Hpi, ?Hpa;
      reflexivity. }
  rewrite Hdst, Htag. cbn [app]. rewrite app_nil_r. reflexivity.
Qed.

Lemma world_ready (n : Z) (t : thread_id) (w : World) :
  world (BM3DGetFrame n arAllFramesReady t w) = world (filter_body n (inst w) t w).
Proof. rewrite get_frame_ready, produce_run. reflexivity. Qed.

(** The branch on [chroma]: where it leaves the table, its kernel calls, its
    memory writes and its allocations. *)
Lemma body_facts (n : Z) (t : thread_id) (w : World) :
  world (filter_body n (inst w) t w)
  = (if (radius (inst w) =? 0)
        && (chroma (inst w) || existsb (processed (inst w)) (planes_of (inst w)))
     then registered w t else w)
  /\ kernel_calls (trace (filter_body n (inst w) t w)) = expected_calls n w t
  /\ cleared_calls (inst w) (trace (filter_body n (inst w) t w))
  /\ (buffer (inst w) !! t <> None -> mallocs (trace (filter_body n (inst w) t w)) = [])
  /\ (length (mallocs (trace (filter_body n (inst w) t w))) <= 1)%nat
  /\ (mallocs (trace (filter_body n (inst w) t w)) <> [] ->
      world (filter_body n (inst w) t w) = registered w t).
Proof.
  unfold filter_body, expected_calls.
  destruct (chroma (inst w)); cbn [orb].
  - rewrite filter_joint_run. cbn [world trace fst snd]. rewrite andb_true_r.
    destruct (zeroing_readings (inst w)
                (joint_call (inst w) (window n (inst w) (node (inst w)))
                   (ref_window n (inst w)) (center_frame n (inst w)) (scratch_of w t)))
      as (Zk & Zm & Za).
    destruct (registration_readings true w t
                (stride_of (center_frame n (inst w)) 0)
                (getFrameHeight (center_frame n (inst w)) 0)) as (Rk & Rm & Ra).
    unfold cleared_calls, kernel_calls, memory_events, mallocs in *.
    rewrite !flat_map_app, Zk, Zm, Za.
    destruct (radius (inst w) =? 0); rewrite ?Rk, ?Rm, ?Ra; cbn [flat_map app];
      rewrite ?app_nil_r.
    + split; [reflexivity |]. split; [reflexivity |]. split; [reflexivity |].
      unfold registration.
      destruct (buffer (inst w) !! t); repeat split; try reflexivity; try congruence;
        simpl; lia.
    + repeat split; [simpl; lia | congruence].
  - unfold filter_planes.
    destruct (planes_loop (inst w) t
                (window n (inst w) (node (inst w))) (ref_window n (inst w))
                (center_frame n (inst w)) (planes_of (inst w)) w)
      as (Hw & Hk & Hm & Ha).
    split; [exact Hw |]. split; [exact Hk |]. split; [exact Hm |].
    rewrite Ha, Hw.
    destruct (List.filter (processed (inst w)) (planes_of (inst w))) as [| p rest] eqn:Ef;
      [repeat split; [simpl; lia | congruence] |].
    assert (He : existsb (processed (inst w)) (planes_of (inst w)) = true)
      by (apply filter_nonempty_existsb; rewrite Ef; discriminate).
    rewrite He.
    destruct (radius (inst w) =? 0); cbn [andb];
      [| repeat split; [simpl; lia | congruence]].
    unfold registration.
    destruct (buffer (inst w) !! t); repeat split; try reflexivity; try congruence;
      simpl; lia.
Qed.

(** ** Variant dispatch *)

Lemma ready_calls (n : Z) (t : thread_id) (w : World) :
  kernel_calls (trace (BM3DGetFrame n arAllFramesReady t w)) = expected_calls n w t.
Proof.
  unfold kernel_calls. rewrite produce_memory by (repeat split).
  apply (body_facts n t w).
Qed.

Lemma ready_cleared (n : Z) (t : thread_id) (w : World) :
  cleared_calls (inst w) (trace (BM3DGetFrame n arAllFramesReady t w)).
Proof.
  unfold cleared_calls, memory_events, kernel_calls.
  rewrite !produce_memory by (repeat split).
  apply (body_facts n t w).
Qed.

Lemma ready_mallocs (n : Z) (t : thread_id) (w : World) :
  (buffer (inst w) !! t <> None ->
   mallocs (trace (BM3DGetFrame n arAllFramesReady t w)) = [])
  /\ (length (mallocs (trace (BM3DGetFrame n arAllFramesReady t w))) <= 1)%nat
  /\ (mallocs (trace (BM3DGetFrame n arAllFramesReady t w)) <> [] ->
      world (BM3DGetFrame n arAllFramesReady t w) = registered w t).
Proof.
  rewrite world_ready. unfold mallocs. rewrite !produce_memory by (repeat split).
  apply (body_facts n t w).
Qed.

Lemma ready_world (n : Z) (t : thread_id) (w : World) :
  world (BM3DGetFrame n arAllFramesReady t w)
  = (if (radius (inst w) =? 0)
        && (chroma (inst w) || existsb (processed (inst w)) (planes_of (inst w)))
     then registered w t else w).
Proof. rewrite world_ready. apply (body_facts n t w). Qed.

(** The calls expected of a production carry the variant flags of the
    configuration and, in spatial mode, the worker's buffer. *)
Lemma expected_variant (n : Z) (t : thread_id) (w : World) (k : KernelCall) :
  In k (expected_calls n w t) ->
  temporal k = negb (radius (inst w) =? 0)
  /\ k_chroma k = chroma (inst w)
  /\ final_ k = match ref_node (inst w) with Some _ => true | None => false end
  /\ (refps k = None <-> ref_node (inst w) = None)
  /\ k_radius k = radius (inst w)
  /\ k_buffer k = (if radius (inst w) =? 0 then scratch_of w t else nullptr).
Proof.
  unfold expected_calls.
  destruct (chroma (inst w)) eqn:Ec.
  - intros [<- | []]. unfold joint_call, kernel_of. cbn.
    repeat split; destruct (ref_node (inst w)); congruence.
  - rewrite in_map_iff. intros (plane & <- & _).
    unfold plane_call, kernel_of. cbn.
    repeat split; destruct (ref_node (inst w)); congruence.
Qed.

Lemma processed_planes (d : BM3DData) (plane : Z) :
  In plane (List.filter (processed d) (planes_of d))
  <-> 0 <= plane < numPlanes (deref (format (vi d))) /\ processed d plane = true.
Proof.
  rewrite filter_In. unfold planes_of. rewrite for_range_In. intuition lia.
Qed.

(** C6: the kernel calls of a frame production are, in joint-chroma mode,
    one call, and in per-plane mode one call per plane whose flag is on, in
    plane order, none for the others.  Every call is of the one variant
    fixed by the configuration (temporal iff the radius is not 0, the chroma
    flag, final iff a reference node is set, the reference pointers passed
    iff it is) and takes the worker's scratch buffer in spatial mode, the
    null pointer in temporal mode; the buffer passed is the one the table
    holds for the worker afterwards.  The joint call takes the three
    destination planes, the pointers of the three planes of every window
    frame, all of [sigma] and entry 0 of the other parameters; the call of a
    plane takes that plane's destination, pointers and parameter entries. *)
Theorem kernel_dispatch (w : World) (n : Z) (t : thread_id) :
  kernel_calls (trace (BM3DGetFrame n arAllFramesReady t w))
  = (if chroma (inst w)
     then [ joint_call (inst w) (window n (inst w) (node (inst w)))
              (ref_window n (inst w)) (center_frame n (inst w)) (scratch_of w t) ]
     else map (plane_call (inst w) (window n (inst w) (node (inst w)))
                 (ref_window n (inst w)) (center_frame n (inst w)) (scratch_of w t))
            (List.filter (processed (inst w)) (planes_of (inst w))))
  /\ (forall plane, In plane (List.filter (processed (inst w)) (planes_of (inst w)))
                    <-> 0 <= plane < numPlanes (deref (format (vi (inst w))))
                        /\ nth (Z.to_nat plane) (process (inst w)) false = true)
  /\ (forall k, In k (kernel_calls (trace (BM3DGetFrame n arAllFramesReady t w))) ->
        temporal k = negb (radius (inst w) =? 0)
        /\ k_chroma k = chroma (inst w)
        /\ final_ k = match ref_node (inst w) with Some _ => true | None => false end
        /\ (refps k = None <-> ref_node (inst w) = None)
        /\ k_radius k = radius (inst w)
        /\ k_buffer k = (if radius (inst w) =? 0 then scratch_of w t else nullptr)
        /\ (if radius (inst w) =? 0
            then buffer (inst (world (BM3DGetFrame n arAllFramesReady t w))) !! t
                 = Some (k_buffer k)
            else world (BM3DGetFrame n arAllFramesReady t w) = w))
  /\ (forall src refs f buf,
        dstps (joint_call (inst w) src refs f buf)
        = [getWritePtr 0; getWritePtr 1; getWritePtr 2]
        /\ srcps (joint_call (inst w) src refs f buf)
           = map (fun frame => getReadPtr frame 0) src
             ++ map (fun frame => getReadPtr frame 1) src
             ++ map (fun frame => getReadPtr frame 2) src
        /\ (ref_node (inst w) <> None ->
            refps (joint_call (inst w) src refs f buf)
            = Some (map (fun frame => getReadPtr frame 0) refs
                    ++ map (fun frame => getReadPtr frame 1) refs
                    ++ map (fun frame => getReadPtr frame 2) refs))
        /\ k_sigma (joint_call (inst w) src refs f buf) = sigma (inst w)
        /\ k_block_step (joint_call (inst w) src refs f buf) = nth 0 (block_step (inst w)) 0
        /\ k_bm_range (joint_call (inst w) src refs f buf) = nth 0 (bm_range (inst w)) 0
        /\ k_ps_num (joint_call (inst w) src refs f buf) = nth 0 (ps_num (inst w)) 0
        /\ k_ps_range (joint_call (inst w) src refs f buf) = nth 0 (ps_range (inst w)) 0
        /\ k_stride (joint_call (inst w) src refs f buf) = stride_of f 0
        /\ k_width (joint_call (inst w) src refs f buf) = getFrameWidth f 0
        /\ k_height (joint_call (inst w) src refs f buf) = getFrameHeight f 0)
  /\ (forall src refs f buf plane,
        dstps (plane_call (inst w) src refs f buf plane) = [getWritePtr plane]
        /\ srcps (plane_call (inst w) src refs f buf plane)
           = map (fun frame => getReadPtr frame plane) src
        /\ (ref_node (inst w) <> None ->
            refps (plane_call (inst w) src refs f buf plane)
            = Some (map (fun frame => getReadPtr frame plane) refs))
        /\ k_sigma (plane_call (inst w) src refs f buf plane)
           = [nth (Z.to_nat plane) (sigma (inst w)) F32.zero]
        /\ k_block_step (plane_call (inst w) src refs f buf plane)
           = nth (Z.to_nat plane) (block_step (inst w)) 0
        /\ k_bm_range (plane_call (inst w) src refs f buf plane)
           = nth (Z.to_nat plane) (bm_range (inst w)) 0
        /\ k_ps_num (plane_call (inst w) src refs f buf plane)
           = nth (Z.to_nat plane) (ps_num (inst w)) 0
        /\ k_ps_range (plane_call (inst w) src refs f buf plane)
           = nth (Z.to_nat plane) (ps_range (inst w)) 0
        /\ k_stride (plane_call (inst w) src refs f buf plane) = stride_of f plane
        /\ k_width (plane_call (inst w) src refs f buf plane) = getFrameWidth f plane
        /\ k_height (plane_call (inst w) src refs f buf plane) = getFrameHeight f plane).
Proof.
  split; [apply ready_calls |].
  split; [intros plane; apply processed_planes |].
  split.
  { intros k Hk. rewrite ready_calls in Hk.
    pose proof (expected_variant n t w k Hk) as (H1 & H2 & H3 & H4 & H5 & H6).
    repeat (split; [assumption |]).
    rewrite ready_world.
    destruct (radius (inst w) =? 0); cbn [andb]; [| reflexivity].
    rewrite H6.
    assert (Hany : chroma (inst w) || existsb (processed (inst w)) (planes_of (inst w))
                   = true).
    { unfold expected_calls in Hk. destruct (chroma (inst w)); [reflexivity |].
      cbn [orb]. apply filter_nonempty_existsb. intros E. rewrite E in Hk. destruct Hk. }
    rewrite Hany. apply registered_lookup. }
  split.
  { intros src refs f buf. unfold joint_call, kernel_of. cbn.
    rewrite !app_nil_r.
    repeat split. intros H. destruct (ref_node (inst w)); [reflexivity | congruence]. }
  intros src refs f buf plane. unfold plane_call, kernel_of. cbn.
  repeat split. intros H. destruct (ref_node (inst w)); [reflexivity | congruence].
Qed.

Lemma scratch_of_heap (w : World) (t : thread_id) :
  heap_table w -> exists a, scratch_of w t = heap_block a.
Proof.
  intros H. unfold scratch_of.
  destruct (buffer (inst w) !! t) as [p |] eqn:E; [apply (H t p E) | eexists; reflexivity].
Qed.

(** C10: with [chroma] set, a frame production makes exactly one kernel
    call, on the three destination planes and the three planes of every
    window frame, whatever the [process] flags are: the calls are the same
    under any other flags, all of them off included. *)
Theorem joint_mode_ignores_flags (w : World) (n : Z) (t : thread_id) :
  chroma (inst w) = true ->
  kernel_calls (trace (BM3DGetFrame n arAllFramesReady t w))
  = [ joint_call (inst w) (window n (inst w) (node (inst w)))
        (ref_window n (inst w)) (center_frame n (inst w)) (scratch_of w t) ]
  /\ (forall src refs f buf,
        dstps (joint_call (inst w) src refs f buf)
        = [getWritePtr 0; getWritePtr 1; getWritePtr 2]
        /\ srcps (joint_call (inst w) src refs f buf)
           = map (fun frame => getReadPtr frame 0) src
             ++ map (fun frame => getReadPtr frame 1) src
             ++ map (fun frame => getReadPtr frame 2) src)
  /\ (forall flags,
        kernel_calls (trace (BM3DGetFrame n arAllFramesReady t (with_flags flags w)))
        = kernel_calls (trace (BM3DGetFrame n arAllFramesReady t w))).
Proof.
  intros Hc. split; [| split].
  - rewrite ready_calls. unfold expected_calls. rewrite Hc. reflexivity.
  - intros src refs f buf. unfold joint_call, kernel_of. cbn.
    rewrite !app_nil_r. split; reflexivity.
  - intros flags. rewrite !ready_calls. unfold expected_calls.
    cbn [with_flags inst with_process chroma]. rewrite Hc. reflexivity.
Qed.

(** C7: in spatial per-plane mode a plane whose flag is off refers, in the
    frame produced, to the same plane of the requested source frame; no
    kernel call has it as a destination and no [memset] touches it. *)
Theorem unprocessed_plane_passthrough (w : World) (n : Z) (t : thread_id) (i : nat) :
  radius (inst w) = 0 ->
  chroma (inst w) = false ->
  (i < 3)%nat ->
  nth i (process (inst w)) false = false ->
  0 <= n < numFrames (vi (inst w)) ->
  numFrames (vi (inst w)) <= Int.INT_MAX ->
  heap_table w ->
  exists dst,
    result (BM3DGetFrame n arAllFramesReady t w) = Some dst
    /\ plane_source dst i
       = Some ({| frame_node := node (inst w); frame_n := n |}, Z.of_nat i)
    /\ (forall k, In k (kernel_calls (trace (BM3DGetFrame n arAllFramesReady t w))) ->
                  ~ In (getWritePtr (Z.of_nat i)) (dstps k))
    /\ (forall p c b, In (memset p c b) (trace (BM3DGetFrame n arAllFramesReady t w)) ->
                      p <> getWritePtr (Z.of_nat i)).
Proof.
  intros HR Hc Hi Hp Hn HN Hheap.
  assert (Hcenter : center_frame n (inst w) = {| frame_node := node (inst w); frame_n := n |}).
  { apply center_frame_exact; try assumption; rewrite HR; unfold Int.INT_MAX in *; lia. }
  assert (Hcalls : forall k,
             In k (kernel_calls (trace (BM3DGetFrame n arAllFramesReady t w))) ->
             k_buffer k = scratch_of w t
             /\ exists plane, dstps k = [getWritePtr plane]
                              /\ processed (inst w) plane = true).
  { intros k Hk. rewrite ready_calls in Hk.
    pose proof (expected_variant n t w k Hk) as (_ & _ & _ & _ & _ & Hb).
    rewrite HR in Hb. split; [exact Hb |].
    unfold expected_calls in Hk. rewrite Hc in Hk.
    apply in_map_iff in Hk. destruct Hk as (plane & <- & Hpl).
    exists plane. split; [reflexivity |]. apply filter_In in Hpl. apply Hpl. }
  eexists. split; [rewrite get_frame_ready, produce_run; reflexivity |].
  cbn [fst]. split; [| split].
  - rewrite Hcenter. unfold make_dst. rewrite HR. cbn.
    destruct i as [| [| [| i]]]; [| | | lia]; cbn in Hp |- *; rewrite Hp; reflexivity.
  - intros k Hk Hin. destruct (Hcalls k Hk) as (_ & plane & Hd & Hproc).
    rewrite Hd in Hin. destruct Hin as [[= ->] | []].
    unfold processed in Hproc. rewrite Nat2Z.id in Hproc. congruence.
  - intros p c b Hin ->.
    assert (Hmem : In (memset (getWritePtr (Z.of_nat i)) c b)
                     (memory_events (trace (BM3DGetFrame n arAllFramesReady t w)))).
    { unfold memory_events. apply in_flat_map. eexists. split; [exact Hin |].
      simpl. left. reflexivity. }
    rewrite (ready_cleared n t w) in Hmem.
    apply in_flat_map in Hmem. destruct Hmem as (k & Hk & Hz).
    destruct (Hcalls k Hk) as (Hb & _).
    unfold zeroing in Hz. rewrite HR, Hb in Hz. cbn in Hz.
    destruct (scratch_of_heap w t Hheap) as [a Ha]. rewrite Ha in Hz.
    destruct Hz as [Hz | [Hz | []]]; discriminate Hz.
Qed.

(** ** What one activation does to the table *)

(** An activation other than [arAllFramesReady] touches neither memory nor
    the table. *)
Lemma get_frame_idle (n : Z) (reason : VSActivationReason) (t : thread_id) (w : World) :
  reason <> arAllFramesReady ->
  world (BM3DGetFrame n reason t w) = w
  /\ kernel_calls (trace (BM3DGetFrame n reason t w)) = []
  /\ memory_events (trace (BM3DGetFrame n reason t w)) = []
  /\ mallocs (trace (BM3DGetFrame n reason t w)) = [].
Proof.
  intros Hr. destruct reason; try congruence; try (repeat split; reflexivity).
  rewrite get_frame_initial, announce_run. cbn [world trace fst snd].
  unfold kernel_calls, memory_events, mallocs. rewrite !flat_map_app.
  rewrite !flat_map_map_nil by reflexivity.
  destruct (ref_node (inst w)); [rewrite !flat_map_map_nil by reflexivity |];
    repeat split.
Qed.

(** What one activation does to the table and to memory. *)
Lemma step_facts (n : Z) (reason : VSActivationReason) (t : thread_id) (w : World) :
  (world (BM3DGetFrame n reason t w) = w
   \/ world (BM3DGetFrame n reason t w) = registered w t)
  /\ cleared_calls (inst w) (trace (BM3DGetFrame n reason t w))
  /\ (forall k, In k (kernel_calls (trace (BM3DGetFrame n reason t w))) ->
        In k (expected_calls n w t)
        /\ (radius (inst w) = 0 ->
            k_buffer k = scratch_of w t
            /\ world (BM3DGetFrame n reason t w) = registered w t))
  /\ (buffer (inst w) !! t <> None -> mallocs (trace (BM3DGetFrame n reason t w)) = [])
  /\ (length (mallocs (trace (BM3DGetFrame n reason t w))) <= 1)%nat
  /\ (mallocs (trace (BM3DGetFrame n reason t w)) <> [] ->
      world (BM3DGetFrame n reason t w) = registered w t).
Proof.
  assert (Hcase : reason = arAllFramesReady \/ reason <> arAllFramesReady)
    by (destruct reason; first [left; reflexivity | right; discriminate]).
  destruct Hcase as [-> | Hne].
  - split.
    { rewrite ready_world. case_match; [right | left]; reflexivity. }
    split; [apply ready_cleared |].
    split; [| apply ready_mallocs].
    intros k Hk. rewrite ready_calls in Hk. split; [exact Hk |]. intros HR.
    pose proof (expected_variant n t w k Hk) as (_ & _ & _ & _ & _ & Hb).
    rewrite HR in Hb. split; [exact Hb |].
    rewrite ready_world, HR. cbn [Z.eqb andb].
    assert (Hany : chroma (inst w) || existsb (processed (inst w)) (planes_of (inst w))
                   = true).
    { unfold expected_calls in Hk. destruct (chroma (inst w)); [reflexivity |].
      cbn [orb]. apply filter_nonempty_existsb. intros E. rewrite E in Hk. destruct Hk. }
    rewrite Hany. reflexivity.
  - destruct (get_frame_idle n reason t w Hne) as (Hw & Hk & Hm & Ha).
    split; [left; exact Hw |].
    unfold cleared_calls. rewrite Hk, Hm, Ha.
    split; [reflexivity |]. split; [intros k [] |].
    split; [reflexivity |]. split; [simpl; lia | congruence].
Qed.

Lemma serve_cons (n : Z) (reason : VSActivationReason) (t : thread_id)
    (rest : list Invocation) (w : World) :
  serve ((n, reason, t) :: rest) w
  = ((serve rest (world (BM3DGetFrame n reason t w))).1,
     (t, trace (BM3DGetFrame n reason t w))
       :: (serve rest (world (BM3DGetFrame n reason t w))).2).
Proof.
  cbn [serve].
  destruct (serve rest (world (BM3DGetFrame n reason t w))) as [w' log]. reflexivity.
Qed.

Lemma step_config (n : Z) (reason : VSActivationReason) (t : thread_id) (w : World) :
  with_buffer ∅ (inst (world (BM3DGetFrame n reason t w))) = with_buffer ∅ (inst w).
Proof.
  destruct (step_facts n reason t w) as ([-> | ->] & _); [reflexivity |].
  apply registered_config.
Qed.

(** The destination planes of an expected call: the three planes in joint
    mode, one plane whose flag is on otherwise. *)
Lemma expected_shape (n : Z) (t : thread_id) (w : World) (k : KernelCall) :
  In k (expected_calls n w t) ->
  if chroma (inst w)
  then dstps k = [getWritePtr 0; getWritePtr 1; getWritePtr 2]
  else exists plane, dstps k = [getWritePtr plane]
                     /\ nth (Z.to_nat plane) (process (inst w)) false = true.
Proof.
  unfold expected_calls. destruct (chroma (inst w)).
  - intros [<- | []]. reflexivity.
  - rewrite in_map_iff. intros (plane & <- & Hp%filter_In).
    exists plane. split; [reflexivity | apply Hp].
Qed.

Lemma serve_config (calls : list Invocation) (w : World) :
  with_buffer ∅ (inst (serve calls w).1) = with_buffer ∅ (inst w).
Proof.
  revert w. induction calls as [| [[n reason] t] rest IH]; intros w; [reflexivity |].
  rewrite serve_cons. cbn [fst]. rewrite IH. apply step_config.
Qed.










(** The table of a new instance, which is empty, holds blocks of the
    allocator only. *)
Lemma heap_table_empty (w : World) : buffer (inst w) = ∅ -> heap_table w.
Proof. intros E t p H. rewrite E, lookup_empty in H. discriminate H. Qed.

(** * Further properties *)

(** ** Frames fetched and released *)

Lemma frees_free (l : list VSFrameRef) : frees (map freeFrame l) = l.
Proof.
  induction l as [| f rest IH]; [reflexivity |]. unfold frees in *.
  cbn [map flat_map app]. rewrite IH. reflexivity.
Qed.

Lemma make_dst_reading {X : Type} (g : Event -> list X) (d : BM3DData) (f : VSFrameRef)
    (w : World) :
  (forall a b c e h i, g (newVideoFrame2 a b c e h i) = []) ->
  (forall a b c e, g (newVideoFrame a b c e) = []) ->
  flat_map g (trace (make_dst d f w)) = [].
Proof.
  intros H2 H1. unfold make_dst, io_newVideoFrame2, io_newVideoFrame.
  destruct (radius d =? 0); simpl; rewrite ?H2, ?H1; reflexivity.
Qed.

Lemma tag_reading {X : Type} (g : Event -> list X) (d : BM3DData) :
  (forall k v a, g (propSetInt k v a) = []) ->
  (forall k v, g (propSetIntArray k v) = []) ->
  flat_map g (tag_events d) = [].
Proof.
  intros Hi Ha. unfold tag_events. destruct (radius d =? 0); simpl; rewrite ?Hi, ?Ha;
    reflexivity.
Qed.

Lemma fetches_ready (n : Z) (t : thread_id) (w : World) :
  fetches (trace (BM3DGetFrame n arAllFramesReady t w))
  = map (fun f => (frame_n f, frame_node f))
      (window n (inst w) (node (inst w)) ++ ref_window n (inst w)).
Proof.
  rewrite get_frame_ready. cbn [trace snd].
  unfold fetches. rewrite produce_reading by (repeat split).
  fold (fetches (map (fun f => getFrameFilter (frame_n f) (frame_node f))
                   (window n (inst w) (node (inst w))))).
  fold (fetches (map (fun f => getFrameFilter (frame_n f) (frame_node f))
                   (ref_window n (inst w)))).
  rewrite !fetches_window, !flat_map_map_nil by reflexivity.
  rewrite make_dst_reading, tag_reading by reflexivity.
  cbn [app]. rewrite app_nil_r, map_app. reflexivity.
Qed.

Lemma frees_ready (n : Z) (t : thread_id) (w : World) :
  frees (trace (BM3DGetFrame n arAllFramesReady t w))
  = window n (inst w) (node (inst w)) ++ ref_window n (inst w).
Proof.
  rewrite get_frame_ready. cbn [trace snd].
  unfold frees. rewrite produce_reading by (repeat split).
  rewrite !(flat_map_map_nil _ (fun f => getFrameFilter (frame_n f) (frame_node f)))
    by reflexivity.
  fold (frees (map freeFrame (window n (inst w) (node (inst w))))).
  fold (frees (map freeFrame (ref_window n (inst w)))).
  rewrite !frees_free.
  rewrite make_dst_reading, tag_reading by reflexivity.
  cbn [app]. rewrite app_nil_r. reflexivity.
Qed.

(** X1: a frame production releases every frame it fetched, once and in
    the order of the fetches, and only after its last fetch and its last
    kernel call: the trace is a part without releases, then the releases,
    then a part with neither fetch nor kernel call nor memory write. *)
Theorem fetched_frames_released (w : World) (n : Z) (t : thread_id) :
  map (fun f => (frame_n f, frame_node f))
    (frees (trace (BM3DGetFrame n arAllFramesReady t w)))
  = fetches (trace (BM3DGetFrame n arAllFramesReady t w))
  /\ exists before after,
       trace (BM3DGetFrame n arAllFramesReady t w)
       = before
         ++ map freeFrame (frees (trace (BM3DGetFrame n arAllFramesReady t w)))
         ++ after
       /\ frees before = [] /\ frees after = []
       /\ fetches after = [] /\ kernel_calls after = [] /\ memory_events after = [].
Proof.
  split; [rewrite frees_ready, fetches_ready; reflexivity |].
  rewrite frees_ready, get_frame_ready, produce_run. cbn [trace snd].
  exists (map (fun f => getFrameFilter (frame_n f) (frame_node f))
            (window n (inst w) (node (inst w)))
          ++ map (fun f => getFrameFilter (frame_n f) (frame_node f))
               (ref_window n (inst w))
          ++ trace (make_dst (inst w) (center_frame n (inst w)) w)
          ++ trace (filter_body n (inst w) t w)),
         (tag_events (inst w)).
  split; [rewrite map_app, <- !app_assoc; reflexivity |].
  split.
  { unfold frees. rewrite !flat_map_app.
    rewrite !flat_map_map_nil by reflexivity.
    rewrite make_dst_reading by reflexivity.
    assert (Hg : ignores_memory
                   (fun e => match e with freeFrame f => [f] | _ => [] end))
      by (repeat split).
    rewrite (silent_filter_body _ Hg n (inst w) t w). reflexivity. }
  unfold frees, fetches, kernel_calls, memory_events.
  repeat split; apply tag_reading; reflexivity.
Qed.

(** ** The frames announced and the frames fetched *)

Lemma requests_range (l : list Z) (nd : VSNodeRef) :
  requests (map (fun i => requestFrameFilter i nd) l) = map (fun i => (i, nd)) l.
Proof.
  induction l as [| i rest IH]; [reflexivity |]. unfold requests in *.
  cbn [map flat_map app]. rewrite IH. reflexivity.
Qed.

Lemma In_tagged (l : list Z) (nd nd' : VSNodeRef) (x : Z) :
  In (x, nd') (map (fun i => (i, nd)) l) <-> nd' = nd /\ In x l.
Proof.
  rewrite in_map_iff. split.
  - intros (i & [= <- <-] & Hi). auto.
  - intros (-> & Hx). exists x. auto.
Qed.

Lemma clamped_window (n R N x : Z) :
  0 <= R -> 0 <= n < N ->
  (exists i, - R <= i <= R /\ x = clamp (n + i) 0 (N - 1))
  <-> Z.max (n - R) 0 <= x <= Z.min (n + R) (N - 1).
Proof.
  intros HR Hn. split.
  - intros (i & Hi & ->). unfold clamp. repeat case_match; lia.
  - intros Hx. exists (x - n). split; [lia |].
    rewrite clamp_inside; lia.
Qed.

(** X2: within the ranges the host guarantees, the frames a production
    fetches are, as a set of (index, node) pairs, the frames the request
    phase announced for the same output frame: nothing is fetched that was
    not requested, and nothing requested is left unfetched. *)
Theorem fetched_iff_requested (w : World) (n : Z) (t t' : thread_id) (i : Z)
    (nd : VSNodeRef) :
  0 <= radius (inst w) ->
  0 <= n < numFrames (vi (inst w)) ->
  numFrames (vi (inst w)) <= Int.INT_MAX ->
  n + radius (inst w) <= Int.INT_MAX ->
  In (i, nd) (fetches (trace (BM3DGetFrame n arAllFramesReady t w)))
  <-> In (i, nd) (requests (trace (BM3DGetFrame n arInitial t' w))).
Proof.
  intros HR Hn HN Hsum.
  assert (Hrange : forall nd0,
             In (i, nd) (map (fun f => (frame_n f, frame_node f)) (window n (inst w) nd0))
             <-> In (i, nd)
                   (map (fun j => (j, nd0))
                      (for_range (Z.max (Int.sub n (radius (inst w))) 0)
                         (Z.min (Int.add n (radius (inst w)))
                            (Int.sub (numFrames (vi (inst w))) 1))))).
  { intros nd0. rewrite window_exact by assumption.
    rewrite map_map. cbn [frame_n frame_node].
    rewrite In_tagged, for_range_In.
    rewrite (Int_sub_small n (radius (inst w))),
      (Int_sub_small (numFrames (vi (inst w))) 1),
      (Int_add_small n (radius (inst w)))
      by (unfold Int.in_range, Int.INT_MIN, Int.INT_MAX in *; lia).
    rewrite <- (clamped_window n (radius (inst w)) (numFrames (vi (inst w))) i)
      by assumption.
    rewrite in_map_iff. split.
    - intros (k & [= <- <-] & Hk%for_range_In). split; [reflexivity |]. eauto.
    - intros (-> & k & Hk & ->). exists k. split; [reflexivity |].
      apply for_range_In, Hk. }
  rewrite fetches_ready, get_frame_initial, announce_run. cbn [trace snd].
  unfold requests. rewrite flat_map_app. fold (requests).
  rewrite map_app, !in_app_iff.
  fold (requests (map (fun i0 => requestFrameFilter i0 (node (inst w)))
                    (for_range (Z.max (Int.sub n (radius (inst w))) 0)
                       (Z.min (Int.add n (radius (inst w)))
                          (Int.sub (numFrames (vi (inst w))) 1))))).
  rewrite requests_range, Hrange.
  unfold ref_window. destruct (ref_node (inst w)) as [r |].
  - fold (requests (map (fun i0 => requestFrameFilter i0 r)
                      (for_range (Z.max (Int.sub n (radius (inst w))) 0)
                         (Z.min (Int.add n (radius (inst w)))
                            (Int.sub (numFrames (vi (inst w))) 1))))).
    rewrite requests_range, Hrange. reflexivity.
  - reflexivity.
Qed.

(** ** What an activation does, by its reason *)

(** X3: an activation hands back a frame only when all frames are ready.
    On the two other reasons the host can give besides the request phase
    (a single frame ready, an error) it does nothing at all: no call, no
    frame released, nothing changed.  In the request phase it makes only
    frame requests and changes nothing. *)
Theorem activation_by_reason (w : World) (n : Z) (reason : VSActivationReason)
    (t : thread_id) :
  (result (BM3DGetFrame n reason t w) <> None <-> reason = arAllFramesReady)
  /\ (idle reason = true -> BM3DGetFrame n reason t w = (None, w, []))
  /\ (reason = arInitial ->
      world (BM3DGetFrame n reason t w) = w
      /\ trace (BM3DGetFrame n reason t w)
         = map (fun r => requestFrameFilter r.1 r.2)
             (requests (trace (BM3DGetFrame n reason t w)))).
Proof.
  split; [| split].
  - destruct reason;
      first [rewrite get_frame_initial | rewrite get_frame_ready | idtac];
      unfold result; simpl; split; congruence.
  - destruct reason; try discriminate; reflexivity.
  - intros ->. rewrite get_frame_initial, announce_run. cbn [world trace fst snd].
    split; [reflexivity |].
    unfold requests. rewrite flat_map_app. fold requests.
    rewrite !map_app.
    assert (Hr : forall nd l,
               map (fun r => requestFrameFilter r.1 r.2)
                 (requests (map (fun i => requestFrameFilter i nd) l))
               = map (fun i => requestFrameFilter i nd) l).
    { intros nd l. rewrite requests_range, map_map. reflexivity. }
    fold (requests (map (fun i => requestFrameFilter i (node (inst w)))
                      (for_range (Z.max (Int.sub n (radius (inst w))) 0)
                         (Z.min (Int.add n (radius (inst w)))
                            (Int.sub (numFrames (vi (inst w))) 1))))).
    rewrite Hr. f_equal.
    destruct (ref_node (inst w)) as [r |]; [| reflexivity].
    symmetry. apply Hr.
Qed.

(** ** The process tag and the kernel calls *)

(** X4: in temporal per-plane mode the array [BM3D_V_process] set on the
    output tells, for every plane of the clip, whether the kernel ran on it:
    its entry is 1 exactly when a kernel call had the plane as its
    destination. *)
Theorem process_tag_matches_calls (w : World) (n : Z) (t : thread_id) (plane : Z) :
  radius (inst w) <> 0 ->
  chroma (inst w) = false ->
  numPlanes (deref (format (vi (inst w)))) <= 3 ->
  0 <= plane < numPlanes (deref (format (vi (inst w)))) ->
  exists flags,
    property_events (trace (BM3DGetFrame n arAllFramesReady t w))
    = [ propSetInt "BM3D_V_radius" (radius (inst w)) paReplace;
        propSetIntArray "BM3D_V_process" flags ]
    /\ (nth (Z.to_nat plane) flags 0 = 1
        <-> exists k, In k (kernel_calls (trace (BM3DGetFrame n arAllFramesReady t w)))
                      /\ dstps k = [getWritePtr plane]).
Proof.
  intros HR Hc H3 Hp.
  rewrite property_events_produce, ready_calls. unfold tag_events, expected_calls.
  rewrite Hc. destruct (Z.eqb_spec (radius (inst w)) 0) as [E | _]; [contradiction |].
  cbn [negb]. eexists. split; [reflexivity |].
  assert (Hflag : nth (Z.to_nat plane)
                    [ Z.b2z (nth 0 (process (inst w)) false);
                      Z.b2z (nth 1 (process (inst w)) false);
                      Z.b2z (nth 2 (process (inst w)) false) ] 0
                  = Z.b2z (processed (inst w) plane)).
  { unfold processed.
    assert (Hcase : Z.to_nat plane = 0%nat \/ Z.to_nat plane = 1%nat \/ Z.to_nat plane = 2%nat)
      by lia.
    destruct Hcase as [-> | [-> | ->]]; reflexivity. }
  rewrite Hflag. split.
  - intros H1. assert (Hon : processed (inst w) plane = true)
      by (destruct (processed (inst w) plane); [reflexivity | discriminate H1]).
    eexists. split.
    + apply in_map, processed_planes. split; [exact Hp | exact Hon].
    + reflexivity.
  - intros (k & Hk & Hd). apply in_map_iff in Hk. destruct Hk as (q & <- & Hq).
    apply processed_planes in Hq. destruct Hq as [_ Hq].
    unfold plane_call, kernel_of in Hd. cbn [dstps] in Hd.
    injection Hd as ->. rewrite Hq. reflexivity.
Qed.

(** ** The allocation of a production *)

Lemma center_geometry (n : Z) (d : BM3DData) (p : Z) :
  stride_of (center_frame n d) p = stride_of (clip_frame d) p
  /\ getFrameHeight (center_frame n d) p = getFrameHeight (clip_frame d) p.
Proof.
  unfold stride_of, getStride, getFrameHeight. rewrite center_frame_node.
  split; reflexivity.
Qed.

Lemma filter_nil_existsb {A : Type} (p : A -> bool) (l : list A) :
  List.filter p l = [] -> existsb p l = false.
Proof.
  induction l as [| x rest IH]; simpl; [reflexivity |].
  destruct (p x); [discriminate | exact IH].
Qed.

Lemma body_mallocs (n : Z) (t : thread_id) (w : World) :
  mallocs (trace (filter_body n (inst w) t w)) = allocation w t.
Proof.
  unfold filter_body, allocation, first_group_bytes.
  destruct (chroma (inst w)).
  - rewrite filter_joint_run. cbn [trace snd].
    destruct (zeroing_readings (inst w)
                (joint_call (inst w) (window n (inst w) (node (inst w)))
                   (ref_window n (inst w)) (center_frame n (inst w)) (scratch_of w t)))
      as (_ & _ & Za).
    unfold mallocs in *. rewrite !flat_map_app, Za.
    destruct (center_geometry n (inst w) 0) as [-> ->].
    unfold registration.
    destruct (radius (inst w) =? 0), (buffer (inst w) !! t); reflexivity.
  - unfold filter_planes.
    destruct (planes_loop (inst w) t
                (window n (inst w) (node (inst w))) (ref_window n (inst w))
                (center_frame n (inst w)) (planes_of (inst w)) w)
      as (_ & _ & _ & Ha).
    rewrite Ha.
    destruct (List.filter (processed (inst w)) (planes_of (inst w))) as [| p rest];
      [destruct (buffer (inst w) !! t); reflexivity |].
    unfold plane_bytes. destruct (center_geometry n (inst w) p) as [-> ->].
    unfold registration.
    destruct (radius (inst w) =? 0), (buffer (inst w) !! t); reflexivity.
Qed.

Lemma ready_allocation (n : Z) (t : thread_id) (w : World) :
  mallocs (trace (BM3DGetFrame n arAllFramesReady t w)) = allocation w t.
Proof.
  unfold mallocs. rewrite produce_memory by (repeat split). apply body_mallocs.
Qed.

(** An activation either leaves the world as it is and allocates nothing,
    or, in spatial mode and for a worker without a buffer, allocates one
    block of the size of the first plane group and enters it for the
    worker. *)
Lemma step_alloc (n : Z) (reason : VSActivationReason) (t : thread_id) (w : World) :
  (world (BM3DGetFrame n reason t w) = w
   /\ mallocs (trace (BM3DGetFrame n reason t w)) = [])
  \/ (radius (inst w) = 0 /\ buffer (inst w) !! t = None
      /\ exists b, first_group_bytes (inst w) = Some b
           /\ mallocs (trace (BM3DGetFrame n reason t w))
              = [ vs_aligned_malloc b 32 (heap_block (allocations w)) ]
           /\ world (BM3DGetFrame n reason t w)
              = {| inst := with_buffer (<[t := heap_block (allocations w)]>
                                          (buffer (inst w))) (inst w);
                   allocations := S (allocations w) |}).
Proof.
  assert (Hcase : reason = arAllFramesReady \/ reason <> arAllFramesReady)
    by (destruct reason; auto; right; discriminate).
  destruct Hcase as [-> | Hidle].
  - rewrite ready_allocation, ready_world. unfold allocation, registered.
    destruct (Z.eqb_spec (radius (inst w)) 0) as [HR | HR]; cbn [andb];
      [| left; split; [reflexivity | repeat case_match; reflexivity]].
    assert (Hgroup : match first_group_bytes (inst w) with
                     | Some _ => chroma (inst w)
                                 || existsb (processed (inst w)) (planes_of (inst w)) = true
                     | None => chroma (inst w)
                               || existsb (processed (inst w)) (planes_of (inst w)) = false
                     end).
    { unfold first_group_bytes. destruct (chroma (inst w)); [reflexivity |].
      cbn [orb].
      destruct (List.filter (processed (inst w)) (planes_of (inst w))) as [| p rest] eqn:Ef.
      - apply filter_nil_existsb, Ef.
      - apply filter_nonempty_existsb. rewrite Ef. discriminate. }
    destruct (first_group_bytes (inst w)) as [b |]; rewrite Hgroup.
    + destruct (buffer (inst w) !! t) as [p |] eqn:Et.
      * left. split; reflexivity.
      * right. split; [exact HR |]. split; [reflexivity |].
        exists b. repeat split.
    + left. split; reflexivity.
  - left. destruct (get_frame_idle n reason t w Hidle) as (Hw & _ & _ & Hm).
    split; assumption.
Qed.

Lemma events_of_cons (t : thread_id) (tr : list Event) (log : list (thread_id * list Event)) :
  events_of ((t, tr) :: log) = tr ++ events_of log.
Proof. reflexivity. Qed.

(** ** Writes stay within the scratch blocks *)

Lemma heap_after_app (heap : list (ptr * Z)) (a b : list Event) :
  heap_after heap (a ++ b) = heap_after (heap_after heap a) b.
Proof.
  revert heap. induction a as [| e rest IH]; intros heap; [reflexivity |].
  destruct e; cbn [app heap_after]; apply IH.
Qed.

Lemma writes_within_app (heap : list (ptr * Z)) (a b : list Event) :
  writes_within heap (a ++ b)
  <-> writes_within heap a /\ writes_within (heap_after heap a) b.
Proof.
  revert heap. induction a as [| e rest IH]; intros heap; [cbn; tauto |].
  destruct e; cbn [app heap_after writes_within]; rewrite ?IH; tauto.
Qed.

(** Calls that neither allocate nor write leave the heap alone. *)
Lemma writes_within_quiet (heap : list (ptr * Z)) (tr : list Event) :
  mallocs tr = [] -> memory_events tr = [] ->
  writes_within heap tr /\ heap_after heap tr = heap.
Proof.
  unfold mallocs, memory_events.
  induction tr as [| e rest IH]; [split; reflexivity |].
  destruct e; cbn [flat_map app writes_within heap_after]; try discriminate; exact IH.
Qed.

Lemma quiet_map {A : Type} (heap : list (ptr * Z)) (f : A -> Event) (l : list A) :
  (forall x, mallocs [f x] = [] /\ memory_events [f x] = []) ->
  writes_within heap (map f l) /\ heap_after heap (map f l) = heap.
Proof.
  intros H. apply writes_within_quiet; unfold mallocs, memory_events in *.
  - apply flat_map_map_nil. intros x. destruct (H x) as [E _]. cbn in E.
    rewrite app_nil_r in E. exact E.
  - apply flat_map_map_nil. intros x. destruct (H x) as [_ E]. cbn in E.
    rewrite app_nil_r in E. exact E.
Qed.

(** The least plane of a range that passes a test heads the filtered
    range. *)
Lemma filter_head_least (P : Z -> bool) (lo hi p0 : Z) (rest : list Z) (q : Z) :
  List.filter P (for_range lo hi) = p0 :: rest ->
  lo <= q <= hi -> P q = true -> lo <= p0 <= q.
Proof.
  intros Hf Hq HP.
  assert (Hgen : forall len s,
             List.filter P (map (fun k => lo + Z.of_nat k) (seq s len)) = p0 :: rest ->
             lo + Z.of_nat s <= p0
             /\ (In q (map (fun k => lo + Z.of_nat k) (seq s len)) -> p0 <= q)).
  { induction len as [| len IH]; intros s E; [discriminate E |].
    cbn [seq map List.filter] in *.
    destruct (P (lo + Z.of_nat s)) eqn:Es.
    - injection E as <- _. split; [lia |].
      intros [<- | Hin]; [lia |].
      apply in_map_iff in Hin. destruct Hin as (k & <- & Hk%in_seq). lia.
    - destruct (IH (S s) E) as [Hlo Hin]. split; [lia |].
      intros [<- | Hq']; [congruence | apply Hin, Hq']. }
  destruct (Hgen _ _ Hf) as [Hlo Hin].
  split; [lia |]. apply Hin. apply for_range_In, Hq.
Qed.

(** One processed plane or the joint call, in spatial mode: the
    registration if due, the [memset] of the buffer, the kernel call. *)
Lemma group_within (c : bool) (d : BM3DData) (k : KernelCall) (t : thread_id)
    (s h B : Z) (w : World) (heap : list (ptr * Z)) :
  radius d = 0 ->
  k_buffer k = scratch_of w t -> k_chroma k = c -> k_stride k = s -> k_height k = h ->
  scratch_bytes c s h <= B ->
  (buffer (inst w) !! t = None -> scratch_bytes c s h = B) ->
  slot_allocated B w t heap ->
  writes_within heap (registration c w t s h ++ zeroing d k ++ [bm3d k])
  /\ slot_allocated B (registered w t) t
       (heap_after heap (registration c w t s h ++ zeroing d k ++ [bm3d k])).
Proof.
  intros HR Hb Hc Hs Hh Hle Hfirst Htab.
  unfold zeroing, registration, registered, scratch_of in *.
  rewrite HR. cbn [Z.eqb].
  destruct (buffer (inst w) !! t) as [p |] eqn:Et.
  - cbn [app writes_within heap_after]. rewrite Hb, Hc, Hs, Hh.
    pose proof (Htab p Et) as Hin.
    repeat split; try (exists B; split; assumption). exact Htab.
  - cbn [app writes_within heap_after]. rewrite Hb, Hc, Hs, Hh, (Hfirst eq_refl).
    repeat split; try (exists B; split; [left; reflexivity | lia]).
    intros p. cbn [inst with_buffer buffer].
    rewrite lookup_insert_eq. intros [= <-]. left. reflexivity.
Qed.

Lemma planes_within (d : BM3DData) (t : thread_id) (src refs : list VSFrameRef)
    (f : VSFrameRef) (B : Z) (l : list Z) (w : World) (heap : list (ptr * Z)) :
  radius d = 0 ->
  (forall q, In q l -> processed d q = true ->
             scratch_bytes false (stride_of f q) (getFrameHeight f q) <= B) ->
  (buffer (inst w) !! t = None ->
   match List.filter (processed d) l with
   | q :: _ => scratch_bytes false (stride_of f q) (getFrameHeight f q) = B
   | [] => True
   end) ->
  slot_allocated B w t heap ->
  writes_within heap (trace (io_for l (filter_plane d t src refs f) w))
  /\ slot_allocated B (world (io_for l (filter_plane d t src refs f) w)) t
       (heap_after heap (trace (io_for l (filter_plane d t src refs f) w))).
Proof.
  intros HR. revert w heap.
  induction l as [| x rest IH]; intros w heap Hle Hfirst Htab; [split; [exact I | exact Htab] |].
  cbn [io_for]. rewrite io_bind_run, filter_plane_run.
  cbn [List.filter] in Hfirst. fold (processed d x) in *.
  destruct (processed d x) eqn:Ex; cbn [result world trace fst snd].
  - rewrite HR. cbn [Z.eqb].
    destruct (group_within false d
                (plane_call d src refs f (scratch_of w t) x) t
                (stride_of f x) (getFrameHeight f x) B w heap HR)
      as [Hw Ht]; try reflexivity.
    { unfold plane_call, kernel_of. cbn [k_buffer]. rewrite HR. reflexivity. }
    { apply Hle; [left; reflexivity | exact Ex]. }
    { exact Hfirst. }
    { exact Htab. }
    rewrite heap_after_app, writes_within_app.
    destruct (IH (registered w t)
                (heap_after heap
                   (registration false w t (stride_of f x) (getFrameHeight f x)
                    ++ zeroing d (plane_call d src refs f (scratch_of w t) x)
                    ++ [bm3d (plane_call d src refs f (scratch_of w t) x)])))
      as [IHw IHt].
    + intros q Hq. apply Hle. right. exact Hq.
    + rewrite registered_lookup. discriminate.
    + exact Ht.
    + repeat split; assumption.
  - cbn [app]. apply IH; [| exact Hfirst | exact Htab].
    intros q Hq. apply Hle. right. exact Hq.
Qed.

(** Data that differ in the scratch table only. *)
Lemma config_table (d1 d : BM3DData) :
  with_buffer ∅ d1 = with_buffer ∅ d -> d1 = with_buffer (buffer d1) d.
Proof.
  intros H.
  transitivity (with_buffer (buffer d1) (with_buffer ∅ d1)); [destruct d1; reflexivity |].
  rewrite H. destruct d; reflexivity.
Qed.

Lemma ready_within (n : Z) (t : thread_id) (w : World) (heap : list (ptr * Z)) (B : Z) :
  radius (inst w) = 0 ->
  (forall b, first_group_bytes (inst w) = Some b -> b = B) ->
  (chroma (inst w) = false -> planes_shrink (inst w)) ->
  slot_allocated B w t heap ->
  writes_within heap (trace (BM3DGetFrame n arAllFramesReady t w))
  /\ slot_allocated B (world (BM3DGetFrame n arAllFramesReady t w)) t
       (heap_after heap (trace (BM3DGetFrame n arAllFramesReady t w))).
Proof.
  intros HR HB Hshrink Htab.
  rewrite get_frame_ready, produce_run. cbn [world trace fst snd].
  assert (Hfetch : forall l h,
             writes_within h (map (fun f => getFrameFilter (frame_n f) (frame_node f)) l)
             /\ heap_after h (map (fun f => getFrameFilter (frame_n f) (frame_node f)) l) = h)
    by (intros l h; apply quiet_map; intros x; split; reflexivity).
  assert (Hfree : forall l h,
             writes_within h (map freeFrame l) /\ heap_after h (map freeFrame l) = h)
    by (intros l h; apply quiet_map; intros x; split; reflexivity).
  assert (Hdst : forall h,
             writes_within h (trace (make_dst (inst w) (center_frame n (inst w)) w))
             /\ heap_after h (trace (make_dst (inst w) (center_frame n (inst w)) w)) = h).
  { intros h. apply writes_within_quiet; unfold mallocs, memory_events;
      apply make_dst_reading; reflexivity. }
  assert (Htag : forall h, writes_within h (tag_events (inst w))
                           /\ heap_after h (tag_events (inst w)) = h).
  { intros h. apply writes_within_quiet; unfold mallocs, memory_events;
      apply tag_reading; reflexivity. }
  assert (Hbody : writes_within heap (trace (filter_body n (inst w) t w))
                  /\ slot_allocated B (world (filter_body n (inst w) t w)) t
                       (heap_after heap (trace (filter_body n (inst w) t w)))).
  { unfold filter_body. unfold first_group_bytes in HB.
    destruct (chroma (inst w)) eqn:Hc.
    - rewrite filter_joint_run. cbn [world trace fst snd]. rewrite HR. cbn [Z.eqb].
      specialize (HB _ eq_refl).
      destruct (center_geometry n (inst w) 0) as [Es Eh].
      apply (group_within true (inst w) _ t
               (stride_of (center_frame n (inst w)) 0)
               (getFrameHeight (center_frame n (inst w)) 0) B w heap HR).
      + unfold joint_call, kernel_of. cbn [k_buffer]. rewrite HR. reflexivity.
      + unfold joint_call, kernel_of. cbn [k_chroma]. reflexivity.
      + unfold joint_call, kernel_of. cbn [k_stride]. reflexivity.
      + unfold joint_call, kernel_of. cbn [k_height]. reflexivity.
      + rewrite Es, Eh, HB. lia.
      + intros _. rewrite Es, Eh. exact HB.
      + exact Htab.
    - unfold filter_planes. apply planes_within; try assumption.
      + intros q Hq Hon.
        destruct (List.filter (processed (inst w)) (planes_of (inst w)))
          as [| p0 rest] eqn:Ef.
        { assert (Hin : In q (List.filter (processed (inst w)) (planes_of (inst w))))
            by (apply filter_In; split; assumption).
          rewrite Ef in Hin. destruct Hin. }
        specialize (HB _ eq_refl). subst B.
        unfold planes_of in Hq, Ef. apply for_range_In in Hq.
        pose proof (filter_head_least _ _ _ _ _ q Ef Hq Hon) as Hp0.
        destruct (center_geometry n (inst w) q) as [-> ->].
        apply (Hshrink eq_refl p0 q); lia.
      + intros _.
        destruct (List.filter (processed (inst w)) (planes_of (inst w)))
          as [| p0 rest]; [exact I |].
        destruct (center_geometry n (inst w) p0) as [-> ->].
        apply (HB _ eq_refl). }
  destruct Hbody as [Hbw Hbt].
  rewrite !heap_after_app, !writes_within_app.
  rewrite !(proj2 (Hfetch _ _)), (proj2 (Hdst _)), !(proj2 (Hfree _ _)), (proj2 (Htag _)).
  repeat split; try apply Hfetch; try apply Hdst; try apply Hfree; try apply Htag;
    assumption.
Qed.

(** X7: in spatial mode every [memset] of a frame production clears, and
    every kernel call of it is handed, a block that a [vs_aligned_malloc] of
    the instance returned, and the block has no fewer bytes than are
    cleared, or than the call needs for its stride and height.  The block is
    the one the production itself allocates, or the one the scratch table
    held for the worker when the production began, which is taken to be of
    the size this instance allocates: that of the first plane group.  In
    joint mode this holds outright; in per-plane mode the block has the size
    of the first plane filtered, so it holds when the size does not grow
    from a plane to a later one. *)
Theorem scratch_writes_in_bounds (w : World) (n : Z) (t : thread_id)
    (heap : list (ptr * Z)) :
  radius (inst w) = 0 ->
  (chroma (inst w) = false -> planes_shrink (inst w)) ->
  (forall p, buffer (inst w) !! t = Some p ->
             exists B, first_group_bytes (inst w) = Some B /\ In (p, B) heap) ->
  writes_within heap (trace (BM3DGetFrame n arAllFramesReady t w)).
Proof.
  intros HR Hshrink Hslot.
  apply (ready_within n t w heap (default 0 (first_group_bytes (inst w))) HR).
  - intros b ->. reflexivity.
  - exact Hshrink.
  - intros p Hp. destruct (Hslot p Hp) as (B & -> & Hin). exact Hin.
Qed.

(** ** What frame production leaves alone *)

Lemma temporal_step (n : Z) (reason : VSActivationReason) (t : thread_id) (w : World) :
  radius (inst w) <> 0 -> world (BM3DGetFrame n reason t w) = w.
Proof.
  intros HR. destruct (step_alloc n reason t w) as [[E _] | (H0 & _)];
    [exact E | contradiction].
Qed.

Lemma temporal_mallocs (calls : list Invocation) (w : World) :
  radius (inst w) <> 0 -> mallocs (events_of (serve calls w).2) = [].
Proof.
  revert w. induction calls as [| [[n reason] t] rest IH]; intros w HR; [reflexivity |].
  rewrite serve_cons. cbn [snd]. rewrite events_of_cons.
  unfold mallocs. rewrite flat_map_app. fold mallocs.
  fold (mallocs (trace (BM3DGetFrame n reason t w))).
  destruct (step_alloc n reason t w) as [[Ew ->] | (H0 & _)]; [| contradiction].
  rewrite Ew. apply IH, HR.
Qed.

(** X8: over any sequence of activations the instance data change in the
    scratch table only: the nodes, the video info and every parameter stay
    as constructed, no activation assigning to them; and a temporal
    instance changes neither the table nor the allocator, and allocates
    nothing, no activation of it reaching the table. *)
Theorem production_keeps_configuration (calls : list Invocation) (w : World) :
  inst (serve calls w).1 = with_buffer (buffer (inst (serve calls w).1)) (inst w)
  /\ (radius (inst w) <> 0 ->
      (serve calls w).1 = w /\ mallocs (events_of (serve calls w).2) = []).
Proof.
  split; [apply config_table, serve_config |].
  intros HR. split; [| apply temporal_mallocs, HR].
  revert w HR. induction calls as [| [[n reason] t] rest IH]; intros w HR; [reflexivity |].
  rewrite serve_cons. cbn [fst]. rewrite (temporal_step n reason t w HR).
  apply IH, HR.
Qed.

(** ** The statements of the validation, run *)

Lemma create_bind_run {A B : Type} (m : Create A) (k : A -> Create B) (d : BM3DData) :
  (m ≫= k) d = match m d with
               | (inl e, d') => (inl e, d')
               | (inr a, d') => k a d'
               end.
Proof. reflexivity. Qed.

Lemma check_input_run (d : BM3DData) :
  check_input d
  = if bad_input (vi d) then (inl (by_set_error msg_format), d) else (inr tt, d).
Proof.
  unfold check_input, bad_input. rewrite create_bind_run. cbn [cget].
  case_match; reflexivity.
Qed.

Lemma read_ref_run (in_ : VSMap) (d : BM3DData) :
  read_ref in_ d
  = let d1 := with_ref_node (propGet (in_ref in_) 0) d in
    match propGet (in_ref in_) 0 with
    | None => (inr tt, d1)
    | Some r =>
        let v := getVideoInfo r in
        match format v with
        | None => (inl by_null_read, d1)
        | Some ref_format =>
            if negb (id ref_format =? id (deref (format (vi d))))
            then (inl (by_set_error msg_ref_format), d1)
            else if negb (width v =? width (vi d)) || negb (height v =? height (vi d))
            then (inl (by_set_error msg_ref_dimensions), d1)
            else if negb (numFrames v =? numFrames (vi d))
            then (inl (by_set_error msg_ref_frames), d1)
            else (inr tt, d1)
        end
    end.
Proof.
  unfold read_ref. destruct (propGet (in_ref in_) 0) as [r |]; [| reflexivity].
  rewrite create_bind_run. cbn [cmodify]. rewrite create_bind_run. cbn [cget].
  cbn [with_ref_node vi].
  destruct (format (getVideoInfo r)); [| reflexivity].
  repeat match goal with |- context [if ?b then _ else _] => destruct b end;
    reflexivity.
Qed.

(** One turn of the [sigma] loop and of an integer loop. *)
Lemma read_sigma_turn (in_ : VSMap) (i : nat) (d : BM3DData) :
  read_sigma in_ i d
  = match propGet (in_sigma in_) i with
    | Some x =>
        if F32.ltb (F32.of_double x) F32.zero then (inl (by_set_error msg_sigma), d)
        else (inr tt, store_sigma i (F32.mul (F32.of_double x) (sigma_scale (ref_node d))) d)
    | None =>
        (inr tt,
         store_sigma i
           (F32.mul (if (i =? 0)%nat then F32.of_Z 3 else nth (i - 1) (sigma d) F32.zero)
              (sigma_scale (ref_node d))) d)
    end.
Proof.
  unfold read_sigma. rewrite create_bind_run. cbn [cget].
  destruct (propGet (in_sigma in_) i) as [x |]; [| reflexivity].
  rewrite create_bind_run.
  destruct (F32.ltb (F32.of_double x) F32.zero); reflexivity.
Qed.

Lemma read_int_turn (supplied : list Z) (dflt : Z) (bad : Z -> bool) (msg : string)
    (field : BM3DData -> list Z) (store : list Z -> BM3DData -> BM3DData)
    (i : nat) (d : BM3DData) :
  read_int supplied dflt bad msg field store i d
  = match propGet supplied i with
    | Some x =>
        if bad (int64ToIntS x) then (inl (by_set_error msg), d)
        else (inr tt, store (<[i := int64ToIntS x]> (field d)) d)
    | None =>
        (inr tt,
         store (<[i := if (i =? 0)%nat then dflt else nth (i - 1) (field d) 0]> (field d)) d)
    end.
Proof.
  unfold read_int. rewrite create_bind_run. cbn [cget].
  destruct (propGet supplied i) as [x |]; [| reflexivity].
  rewrite create_bind_run. destruct (bad (int64ToIntS x)); reflexivity.
Qed.

(** The loop over an integer parameter: it fails when a supplied entry
    fails the range test, and otherwise stores the filled entries. *)
Lemma int_loop_run (supplied : list Z) (dflt : Z) (bad : Z -> bool) (msg : string)
    (field : BM3DData -> list Z) (store : list Z -> BM3DData -> BM3DData)
    (d : BM3DData) :
  (forall x d, field (store x d) = x) ->
  (forall x y d, store x (store y d) = store x d) ->
  length (field d) = 3%nat ->
  if some_bad (fun x => bad (int64ToIntS x)) supplied
  then exists d', cfor (seq 0 3) (read_int supplied dflt bad msg field store) d
                  = (inl (by_set_error msg), d')
                  /\ (d' = d \/ exists x, d' = store x d)
  else cfor (seq 0 3) (read_int supplied dflt bad msg field store) d
       = (inr tt, store (filled_ints supplied dflt) d).
Proof.
  intros Hfs Hss Hlen.
  destruct (field d) as [| a [| b [| c [| ? ?]]]] eqn:Ef; try discriminate Hlen.
  unfold some_bad, filled_ints, propGet. cbn [seq existsb cfor].
  rewrite create_bind_run, read_int_turn, Ef. unfold propGet.
  destruct (supplied !! 0%nat) as [x0 |]; [destruct (bad (int64ToIntS x0)) |];
    cbv beta iota; cbn [orb];
    try (eexists; split; [reflexivity | left; reflexivity]);
    (rewrite create_bind_run, read_int_turn, Hfs; unfold propGet;
     destruct (supplied !! 1%nat) as [x1 |]; [destruct (bad (int64ToIntS x1)) |];
     cbv beta iota; cbn [orb];
     try (eexists; split; [reflexivity | right; eexists; reflexivity]);
     (rewrite create_bind_run, read_int_turn, Hfs, Hss; unfold propGet;
      destruct (supplied !! 2%nat) as [x2 |]; [destruct (bad (int64ToIntS x2)) |];
      cbv beta iota; cbn [orb];
      try (eexists; split; [reflexivity | right; eexists; reflexivity]);
      rewrite Hss; reflexivity)).
Qed.

(** The loop over [sigma]: it fails when a supplied entry is below zero,
    and otherwise stores the filled entries and their flags. *)
Lemma sigma_loop_run (in_ : VSMap) (d : BM3DData) :
  length (sigma d) = 3%nat -> length (process d) = 3%nat ->
  if some_bad (fun x => F32.ltb (F32.of_double x) F32.zero) (in_sigma in_)
  then exists d', cfor (seq 0 3) (read_sigma in_) d = (inl (by_set_error msg_sigma), d')
                  /\ node d' = node d /\ ref_node d' = ref_node d
  else cfor (seq 0 3) (read_sigma in_) d
       = (inr tt,
          with_sigma (filled_sigma (in_sigma in_) (ref_node d))
            (with_process
               (map (fun x => negb (F32.ltb x F32.epsilon))
                  (filled_sigma (in_sigma in_) (ref_node d))) d)).
Proof.
  destruct d as [nd rf v sg bs bm rd pn pr ch pc bf]. cbn [sigma process node ref_node].
  intros Hs Hp.
  destruct sg as [| a [| b [| c [| ? ?]]]]; try discriminate Hs.
  destruct pc as [| p [| q [| r [| ? ?]]]]; try discriminate Hp.
  unfold some_bad, filled_sigma, propGet. cbn [seq existsb cfor].
  rewrite create_bind_run, read_sigma_turn. unfold propGet.
  destruct (in_sigma in_ !! 0%nat) as [x0 |];
    [destruct (F32.ltb (F32.of_double x0) F32.zero) |];
    cbv beta iota; cbn [orb];
    try (eexists; split; [reflexivity | split; reflexivity]);
    (rewrite create_bind_run, read_sigma_turn; unfold propGet;
     destruct (in_sigma in_ !! 1%nat) as [x1 |];
       [destruct (F32.ltb (F32.of_double x1) F32.zero) |];
     cbv beta iota; cbn [orb];
     try (eexists; split; [reflexivity | split; reflexivity]);
     (rewrite create_bind_run, read_sigma_turn; unfold propGet;
      destruct (in_sigma in_ !! 2%nat) as [x2 |];
        [destruct (F32.ltb (F32.of_double x2) F32.zero) |];
      cbv beta iota; cbn [orb];
      try (eexists; split; [reflexivity | split; reflexivity]);
      reflexivity)).
Qed.

Lemma read_radius_run (in_ : VSMap) (d : BM3DData) :
  read_radius in_ d
  = if radius_arg in_ <? 0 then (inl (by_set_error msg_radius), d)
    else (inr tt, with_radius (radius_arg in_) d).
Proof.
  unfold read_radius, radius_arg. rewrite create_bind_run.
  destruct (propGet (in_radius in_) 0) as [x |]; [| reflexivity].
  destruct (int64ToIntS x <? 0); reflexivity.
Qed.

Lemma read_chroma_run (in_ : VSMap) (d : BM3DData) :
  read_chroma in_ d
  = if chroma_arg in_ && negb (id (deref (format (vi d))) =? pfYUV444PS)
    then (inl (by_set_error msg_chroma), d)
    else (inr tt, with_chroma (chroma_arg in_) d).
Proof.
  unfold read_chroma, chroma_arg. rewrite create_bind_run. cbn [cget].
  case_match; reflexivity.
Qed.

Lemma reserve_buffer_run (numThreads : Z) (d : BM3DData) :
  buffer d = ∅ -> reserve_buffer numThreads d = (inr tt, with_buffer ∅ d).
Proof.
  intros E. unfold reserve_buffer, reserve. rewrite create_bind_run. cbn [cget].
  destruct (radius d =? 0); unfold cmodify, mret, Create_ret; rewrite ?E;
    [reflexivity |].
  f_equal. destruct d. cbn in E. subst. reflexivity.
Qed.

(** A failed stage leaves through [set_error] with the handles held. *)
Ltac loop_failed H :=
  let d' := fresh "d'" in
  let E := fresh "E" in
  let Hd := fresh "Hd" in
  destruct H as (d' & E & Hd); rewrite E; cbv beta iota;
  cbn [fmap option_fmap option_map fst];
  exists d'; split; [reflexivity |];
  first [ destruct Hd as [-> ->]; split; reflexivity
        | destruct Hd as [-> | [? ->]]; split; reflexivity ].

Ltac int_loop supplied dflt bad msg field store :=
  rewrite create_bind_run;
  match goal with
  | |- context [cfor (seq 0 3) (read_int supplied dflt bad msg field store) ?d] =>
      let H := fresh "H" in
      pose proof (int_loop_run supplied dflt bad msg field store d
                    ltac:(reflexivity) ltac:(reflexivity) ltac:(reflexivity)) as H;
      cbv beta in H; revert H;
      destruct (some_bad _ supplied); intros H;
      [loop_failed H | rewrite H; cbv beta iota; clear H]
  end.

Lemma configure_run (in_ : VSMap) (numThreads : Z) :
  if null_ref_read in_
  then exists d', configure in_ numThreads = (inl by_null_read, d')
  else match first_failed in_ with
       | Some e =>
           exists d', configure in_ numThreads = (inl (by_set_error e), d')
                      /\ node d' = in_clip in_
                      /\ ref_node d'
                         = (if bad_input (getVideoInfo (in_clip in_)) then None
                            else propGet (in_ref in_) 0)
       | None => configure in_ numThreads = (inr tt, configured in_)
       end.
Proof.
  unfold null_ref_read, first_failed, checks, configure, create_body.
  cbn [List.find fst snd].
  rewrite create_bind_run, check_input_run. cbn [vi fresh_data].
  destruct (bad_input (getVideoInfo (in_clip in_))) eqn:Hbad; cbn [negb andb].
  { cbn [fmap option_fmap option_map fst]. eexists. repeat split. }
  rewrite create_bind_run, read_ref_run. cbv zeta. cbn [vi fresh_data with_ref_node].
  set (d1 := with_ref_node (propGet (in_ref in_) 0) (fresh_data in_)).
  assert (Hparams :
    match
      fst <$>
      List.find snd
        [ (msg_sigma,
           some_bad (fun x => F32.ltb (F32.of_double x) F32.zero) (in_sigma in_));
          (msg_block_step,
           some_bad (fun x => (int64ToIntS x <=? 0) || (8 <? int64ToIntS x))
             (in_block_step in_));
          (msg_bm_range, some_bad (fun x => int64ToIntS x <=? 0) (in_bm_range in_));
          (msg_radius, radius_arg in_ <? 0);
          (msg_ps_num, some_bad (fun x => int64ToIntS x <=? 0) (in_ps_num in_));
          (msg_ps_range, some_bad (fun x => int64ToIntS x <=? 0) (in_ps_range in_));
          (msg_chroma,
           chroma_arg in_
           && negb (id (deref (format (getVideoInfo (in_clip in_)))) =? pfYUV444PS)) ]
    with
    | Some e =>
        exists d', read_params in_ numThreads d1 = (inl (by_set_error e), d')
                   /\ node d' = in_clip in_ /\ ref_node d' = propGet (in_ref in_) 0
    | None => read_params in_ numThreads d1 = (inr tt, configured in_)
    end).
  { unfold read_params. cbn [List.find fst snd].
    rewrite create_bind_run.
    pose proof (sigma_loop_run in_ d1 eq_refl eq_refl) as Hs. revert Hs.
    destruct (some_bad _ (in_sigma in_)); intros Hs; [loop_failed Hs |].
    rewrite Hs. cbv beta iota. clear Hs.
    int_loop (in_block_step in_) 8 (fun v => (v <=? 0) || (8 <? v)) msg_block_step
      block_step with_block_step.
    int_loop (in_bm_range in_) 9 (fun v => v <=? 0) msg_bm_range bm_range with_bm_range.
    rewrite create_bind_run, read_radius_run.
    destruct (radius_arg in_ <? 0);
      [cbn [fmap option_fmap option_map fst]; eexists; repeat split |].
    cbv beta iota.
    int_loop (in_ps_num in_) 2 (fun v => v <=? 0) msg_ps_num ps_num with_ps_num.
    int_loop (in_ps_range in_) 4 (fun v => v <=? 0) msg_ps_range ps_range with_ps_range.
    rewrite create_bind_run, read_chroma_run.
    cbn [vi with_ps_range with_ps_num with_radius with_bm_range with_block_step
           with_sigma with_process with_ref_node d1 fresh_data].
    destruct (chroma_arg in_
              && negb (id (deref (format (getVideoInfo (in_clip in_)))) =? pfYUV444PS));
      [cbn [fmap option_fmap option_map fst]; eexists; repeat split |].
    cbv beta iota. rewrite reserve_buffer_run by reflexivity.
    cbn [fmap option_fmap option_map]. reflexivity. }
  cbn [List.find fst snd] in Hparams.
  assert (Hn1 : node d1 = in_clip in_) by reflexivity.
  assert (Hr1 : ref_node d1 = propGet (in_ref in_) 0) by reflexivity.
  clearbody d1. revert Hparams.
  destruct (propGet (in_ref in_) 0) as [r |] eqn:Er.
  - destruct (format (getVideoInfo r)) as [ref_format |];
      [| intros _; exists d1; reflexivity].
    cbn [deref].
    destruct (negb (id ref_format
                    =? id (deref (format (getVideoInfo (in_clip in_))))));
      [intros _; cbn [fmap option_fmap option_map fst]; exists d1; repeat split;
       assumption |].
    destruct (negb (width (getVideoInfo r) =? width (getVideoInfo (in_clip in_)))
              || negb (height (getVideoInfo r) =? height (getVideoInfo (in_clip in_))));
      [intros _; cbn [fmap option_fmap option_map fst]; exists d1; repeat split;
       assumption |].
    destruct (negb (numFrames (getVideoInfo r)
                    =? numFrames (getVideoInfo (in_clip in_))));
      [intros _; cbn [fmap option_fmap option_map fst]; exists d1; repeat split;
       assumption |].
    cbv beta iota.
    match goal with
    | |- match ?X with _ => _ end -> _ => destruct X as [e |]
    end; intros H; exact H.
  - cbv beta iota.
    match goal with
    | |- match ?X with _ => _ end -> _ => destruct X as [e |]
    end; intros H; exact H.
Qed.

(** X9: [BM3DCreate] is decided by the arguments, in the order of the
    source.  When the input check passes and a reference clip of no fixed
    format is supplied, the first check of the reference reads through its
    null format: the behaviour is undefined from there, nothing being
    reported, released or registered before.  Otherwise, when a check fails
    it reports the message of the first that does, releases the clip and, if
    the input check had passed, the reference, and registers nothing; when
    none fails it registers, as a parallel filter, the data given in closed
    form by the arguments: supplied entries, else the default or the entry
    before (for [sigma], the stored entry before, scaled once more).  The
    number of threads has no influence. *)
Theorem construction_outcome (in_ : VSMap) (numThreads : Z) :
  BM3DCreate in_ numThreads = outcome in_.
Proof.
  unfold BM3DCreate, outcome.
  pose proof (configure_run in_ numThreads) as H.
  destruct (null_ref_read in_).
  - destruct H as (d' & ->). reflexivity.
  - destruct (first_failed in_) as [e |].
    + destruct H as (d' & -> & Hn & Hr). unfold set_error, failed_with.
      rewrite Hn, Hr. reflexivity.
    + rewrite H. reflexivity.
Qed.

(** ** What an accepted argument map guarantees *)

Lemma created_configured (in_ : VSMap) (numThreads : Z) (d : BM3DData) :
  In d (created (BM3DCreate in_ numThreads)) ->
  d = configured in_ /\ first_failed in_ = None.
Proof.
  intros Hd. destruct (created_configure _ _ _ Hd) as [u E].
  pose proof (configure_run in_ numThreads) as H.
  destruct (null_ref_read in_);
    [destruct H as (d' & E'); rewrite E in E'; discriminate E' |].
  destruct (first_failed in_) as [e |].
  - destruct H as (d' & E' & _). rewrite E in E'. discriminate E'.
  - rewrite E in H. injection H as _ ->. split; reflexivity.
Qed.

Lemma find_none_all {A : Type} (p : A -> bool) (l : list A) :
  List.find p l = None -> forall x, In x l -> p x = false.
Proof.
  induction l as [| y rest IH]; intros H x; [intros [] |].
  cbn [List.find] in H. destruct (p y) eqn:Ey; [discriminate H |].
  intros [<- | Hin]; [exact Ey | apply IH; assumption].
Qed.

Lemma first_failed_none (in_ : VSMap) (c : string * bool) :
  first_failed in_ = None -> In c (checks in_) -> c.2 = false.
Proof.
  unfold first_failed. intros H.
  destruct (List.find snd (checks in_)) as [x |] eqn:E; [discriminate H |].
  apply (find_none_all snd _ E).
Qed.

Lemma some_bad_false {A : Type} (bad : A -> bool) (supplied : list A) (i : nat) (x : A) :
  some_bad bad supplied = false -> (i < 3)%nat -> propGet supplied i = Some x ->
  bad x = false.
Proof.
  unfold some_bad. cbn [seq existsb]. intros H Hi Hx.
  apply orb_false_elim in H. destruct H as [H0 H].
  apply orb_false_elim in H. destruct H as [H1 H].
  apply orb_false_elim in H. destruct H as [H2 _].
  destruct i as [| [| [| i]]]; [| | | lia]; rewrite Hx in *; assumption.
Qed.

Lemma filled_ints_Forall (good : Z -> Prop) (supplied : list Z) (dflt : Z) :
  good dflt ->
  (forall i x, (i < 3)%nat -> propGet supplied i = Some x -> good (int64ToIntS x)) ->
  Forall good (filled_ints supplied dflt).
Proof.
  intros Hd Hs. unfold filled_ints.
  assert (H0 : good match propGet supplied 0 with
                    | Some x => int64ToIntS x | None => dflt end)
    by (destruct (propGet supplied 0) eqn:E; [apply (Hs 0%nat); [lia | exact E] | exact Hd]).
  assert (H1 : good match propGet supplied 1 with
                    | Some x => int64ToIntS x
                    | None => match propGet supplied 0 with
                              | Some x => int64ToIntS x | None => dflt end
                    end)
    by (destruct (propGet supplied 1) eqn:E; [apply (Hs 1%nat); [lia | exact E] | exact H0]).
  repeat constructor; try assumption.
  destruct (propGet supplied 2) eqn:E; [apply (Hs 2%nat); [lia | exact E] | exact H1].
Qed.

(** A positive number rounds to nothing below zero, and likewise the
    product of a number not below zero and a positive one. *)
Lemma round_not_below_zero (m e : Z) (loc : location) :
  F32.ltb (binary_round_aux F32.prec F32.emax false m e loc) F32.zero = false.
Proof.
  unfold binary_round_aux.
  destruct (shr_fexp F32.prec F32.emax m e loc) as [mrs' e'].
  destruct (shr_fexp F32.prec F32.emax _ e' loc_Exact) as [mrs'' e''].
  destruct (shr_m mrs''); [reflexivity | | reflexivity].
  destruct (e'' <=? F32.emax - F32.prec); reflexivity.
Qed.

Lemma mul_not_below_zero (a : F32.float) (mk : positive) (ek : Z) :
  F32.ltb a F32.zero = false ->
  F32.ltb (F32.mul a (S754_finite false mk ek)) F32.zero = false.
Proof.
  destruct a as [s | s | | s m e]; intros H; try reflexivity.
  - destruct s; [discriminate H | reflexivity].
  - destruct s; [discriminate H |]. apply round_not_below_zero.
Qed.

Lemma sigma_scale_positive (r : option VSNodeRef) :
  exists mk ek, sigma_scale r = S754_finite false mk ek.
Proof. destruct r; vm_compute; eauto. Qed.

Lemma filled_sigma_not_below_zero (supplied : list spec_float) (r : option VSNodeRef) :
  some_bad (fun x => F32.ltb (F32.of_double x) F32.zero) supplied = false ->
  Forall (fun s => F32.ltb s F32.zero = false) (filled_sigma supplied r).
Proof.
  intros H. unfold filled_sigma.
  destruct (sigma_scale_positive r) as (mk & ek & ->).
  assert (Hs : forall i x, (i < 3)%nat -> propGet supplied i = Some x ->
                           F32.ltb (F32.of_double x) F32.zero = false)
    by (intros i x Hi Hx; apply (some_bad_false _ supplied i x H Hi Hx)).
  assert (H0 : F32.ltb
                 (F32.mul match propGet supplied 0 with
                          | Some x => F32.of_double x | None => F32.of_Z 3 end
                    (S754_finite false mk ek)) F32.zero = false).
  { apply mul_not_below_zero.
    destruct (propGet supplied 0) eqn:E; [apply (Hs 0%nat); [lia | exact E] | reflexivity]. }
  assert (H1 : F32.ltb
                 (F32.mul match propGet supplied 1 with
                          | Some x => F32.of_double x
                          | None =>
                              F32.mul match propGet supplied 0 with
                                      | Some x => F32.of_double x | None => F32.of_Z 3 end
                                (S754_finite false mk ek)
                          end
                    (S754_finite false mk ek)) F32.zero = false).
  { apply mul_not_below_zero.
    destruct (propGet supplied 1) eqn:E; [apply (Hs 1%nat); [lia | exact E] | exact H0]. }
  repeat constructor; try assumption.
  apply mul_not_below_zero.
  destruct (propGet supplied 2) eqn:E; [apply (Hs 2%nat); [lia | exact E] | exact H1].
Qed.

Lemma checks_pass (in_ : VSMap) :
  first_failed in_ = None ->
  bad_input (getVideoInfo (in_clip in_)) = false
  /\ (forall r, propGet (in_ref in_) 0 = Some r ->
        id (deref (format (getVideoInfo r)))
        = id (deref (format (getVideoInfo (in_clip in_))))
        /\ width (getVideoInfo r) = width (getVideoInfo (in_clip in_))
        /\ height (getVideoInfo r) = height (getVideoInfo (in_clip in_))
        /\ numFrames (getVideoInfo r) = numFrames (getVideoInfo (in_clip in_)))
  /\ some_bad (fun x => F32.ltb (F32.of_double x) F32.zero) (in_sigma in_) = false
  /\ some_bad (fun x => (int64ToIntS x <=? 0) || (8 <? int64ToIntS x))
       (in_block_step in_) = false
  /\ some_bad (fun x => int64ToIntS x <=? 0) (in_bm_range in_) = false
  /\ (radius_arg in_ <? 0) = false
  /\ some_bad (fun x => int64ToIntS x <=? 0) (in_ps_num in_) = false
  /\ some_bad (fun x => int64ToIntS x <=? 0) (in_ps_range in_) = false
  /\ chroma_arg in_
     && negb (id (deref (format (getVideoInfo (in_clip in_)))) =? pfYUV444PS) = false.
Proof.
  intros H.
  pose proof (fun c => first_failed_none in_ c H) as Hc.
  unfold checks in Hc. cbv zeta in Hc.
  split; [apply (Hc (msg_format, _)); cbn [In]; auto 12 |].
  split.
  { intros r Er.
    pose proof (Hc (msg_ref_format, _) ltac:(cbn [In]; auto 12)) as H1.
    pose proof (Hc (msg_ref_dimensions, _) ltac:(cbn [In]; auto 12)) as H2.
    pose proof (Hc (msg_ref_frames, _) ltac:(cbn [In]; auto 12)) as H3.
    cbn [snd] in H1, H2, H3. rewrite Er in H1, H2, H3.
    apply negb_false_iff, Z.eqb_eq in H1, H3.
    apply orb_false_elim in H2. destruct H2 as [H2 H2'].
    apply negb_false_iff, Z.eqb_eq in H2, H2'. repeat split; assumption. }
  split; [apply (Hc (msg_sigma, _)); cbn [In]; auto 12 |].
  split; [apply (Hc (msg_block_step, _)); cbn [In]; auto 12 |].
  split; [apply (Hc (msg_bm_range, _)); cbn [In]; auto 12 |].
  split; [apply (Hc (msg_radius, _)); cbn [In]; auto 12 |].
  split; [apply (Hc (msg_ps_num, _)); cbn [In]; auto 12 |].
  split; [apply (Hc (msg_ps_range, _)); cbn [In]; auto 12 |].
  apply (Hc (msg_chroma, _)); cbn [In]; auto 12.
Qed.

(** X10: the data of a registered instance are within the ranges the
    checks name, the replicated entries included: three entries per
    parameter; [block_step] in 1..8; [bm_range], [ps_num] and [ps_range]
    positive; [radius] not negative; all of them [int] values; no [sigma]
    entry below zero; [chroma] only on YUV444PS; the clip of constant format,
    32-bit float, with positive dimensions; a reference clip of the clip's
    format id, dimensions and length. *)
Theorem accepted_parameters (in_ : VSMap) (numThreads : Z) (d : BM3DData) :
  In d (created (BM3DCreate in_ numThreads)) ->
  (length (sigma d) = 3%nat /\ Forall (fun s => F32.ltb s F32.zero = false) (sigma d))
  /\ (length (block_step d) = 3%nat /\ Forall (fun v => 1 <= v <= 8) (block_step d))
  /\ (length (bm_range d) = 3%nat /\ Forall (fun v => 0 < v <= Int.INT_MAX) (bm_range d))
  /\ 0 <= radius d <= Int.INT_MAX
  /\ (length (ps_num d) = 3%nat /\ Forall (fun v => 0 < v <= Int.INT_MAX) (ps_num d))
  /\ (length (ps_range d) = 3%nat /\ Forall (fun v => 0 < v <= Int.INT_MAX) (ps_range d))
  /\ (chroma d = true -> id (deref (format (vi d))) = pfYUV444PS)
  /\ (exists f, format (vi d) = Some f /\ sampleType f = stFloat /\ bitsPerSample f = 32)
  /\ (0 < width (vi d) /\ 0 < height (vi d))
  /\ (forall r, ref_node d = Some r ->
        id (deref (format (getVideoInfo r))) = id (deref (format (vi d)))
        /\ width (getVideoInfo r) = width (vi d)
        /\ height (getVideoInfo r) = height (vi d)
        /\ numFrames (getVideoInfo r) = numFrames (vi d)).
Proof.
  intros Hd. destruct (created_configured _ _ _ Hd) as [-> Hnone].
  destruct (checks_pass in_ Hnone)
    as (Hin & Href & Hsg & Hbs & Hbm & Hrd & Hpn & Hpr & Hch).
  cbn [configured sigma block_step bm_range radius ps_num ps_range chroma vi ref_node].
  assert (Hpos : forall supplied dflt,
             0 < dflt <= Int.INT_MAX ->
             some_bad (fun x => int64ToIntS x <=? 0) supplied = false ->
             Forall (fun v => 0 < v <= Int.INT_MAX) (filled_ints supplied dflt)).
  { intros supplied dflt Hdf Hs. apply filled_ints_Forall; [exact Hdf |].
    intros i x Hi Hx.
    pose proof (some_bad_false _ supplied i x Hs Hi Hx) as Hx'. cbv beta in Hx'.
    pose proof (int64ToIntS_in_range x) as Hr. unfold Int.in_range in Hr. lia. }
  split; [split; [reflexivity | apply filled_sigma_not_below_zero, Hsg] |].
  split.
  { split; [reflexivity |]. apply filled_ints_Forall; [lia |].
    intros i x Hi Hx.
    pose proof (some_bad_false _ (in_block_step in_) i x Hbs Hi Hx) as Hx'.
    cbv beta in Hx'. lia. }
  split; [split; [reflexivity | apply Hpos; [unfold Int.INT_MAX; lia | exact Hbm]] |].
  split.
  { unfold radius_arg in *. destruct (propGet (in_radius in_) 0) as [x |].
    - pose proof (int64ToIntS_in_range x) as Hr. unfold Int.in_range in Hr. lia.
    - unfold Int.INT_MAX. lia. }
  split; [split; [reflexivity | apply Hpos; [unfold Int.INT_MAX; lia | exact Hpn]] |].
  split; [split; [reflexivity | apply Hpos; [unfold Int.INT_MAX; lia | exact Hpr]] |].
  split.
  { intros Hc. rewrite Hc in Hch. cbn [andb] in Hch.
    apply negb_false_iff, Z.eqb_eq in Hch. exact Hch. }
  unfold bad_input, isConstantFormat in Hin.
  apply orb_false_elim in Hin. destruct Hin as [Hin Hbits].
  apply orb_false_elim in Hin. destruct Hin as [Hconst Hint].
  apply negb_false_iff in Hconst.
  apply andb_true_iff in Hconst. destruct Hconst as [Hdim Hfmt].
  apply andb_true_iff in Hdim. destruct Hdim as [Hh Hw].
  apply Z.ltb_lt in Hh, Hw.
  split.
  { destruct (format (getVideoInfo (in_clip in_))) as [f |]; [| discriminate Hfmt].
    exists f. cbn [deref] in *. split; [reflexivity |].
    destruct (sampleType f); [discriminate Hint |]. split; [reflexivity |].
    cbn [sample_eqb andb] in Hbits. apply negb_false_iff, Z.eqb_eq in Hbits. exact Hbits. }
  split; [split; assumption |].
  exact Href.
Qed.

(** X11: the sign check of [sigma] lets a value that is not a number
    through: in a registered instance the entry of a supplied NaN is NaN,
    and the plane is switched on. *)
Theorem nan_sigma_accepted (in_ : VSMap) (numThreads : Z) (d : BM3DData) (i : nat) :
  (i < 3)%nat ->
  propGet (in_sigma in_) i = Some S754_nan ->
  In d (created (BM3DCreate in_ numThreads)) ->
  sigma d !! i = Some S754_nan /\ process d !! i = Some true.
Proof.
  intros Hi Hx Hd. destruct (created_configured _ _ _ Hd) as [-> _].
  cbn [configured sigma process]. unfold filled_sigma.
  destruct i as [| [| [| i]]]; [| | | lia]; rewrite Hx; split; reflexivity.
Qed.

(** ** The frames a kernel call reads *)

Lemma split_after_prefix {A : Type} (a rest pre : list A) (e : A) (post : list A) :
  a ++ rest = pre ++ e :: post -> ~ In e a ->
  exists pre', pre = a ++ pre' /\ rest = pre' ++ e :: post.
Proof.
  revert pre. induction a as [| x a' IH]; intros pre E Hn.
  - exists pre. split; [reflexivity | exact E].
  - destruct pre as [| y pre0]; cbn [app] in E.
    + injection E as -> _. exfalso. apply Hn. left. reflexivity.
    + injection E as <- E. destruct (IH pre0 E) as (pre' & -> & Hr).
      * intros H. apply Hn. right. exact H.
      * exists pre'. split; [reflexivity | exact Hr].
Qed.

Lemma split_before_suffix {A : Type} (body z pre : list A) (e : A) (post : list A) :
  body ++ z = pre ++ e :: post -> ~ In e z ->
  exists post', body = pre ++ e :: post'.
Proof.
  revert body. induction pre as [| y pre0 IH]; intros body E Hn.
  - destruct body as [| b body']; cbn [app] in E.
    + exfalso. apply Hn. rewrite E. left. reflexivity.
    + injection E as -> _. exists body'. reflexivity.
  - destruct body as [| b body']; cbn [app] in E.
    + exfalso. apply Hn. rewrite E. right. apply in_or_app. right. left. reflexivity.
    + injection E as -> E. destruct (IH body' E Hn) as (post' & ->).
      exists post'. reflexivity.
Qed.

Lemma kernel_calls_In (tr : list Event) (k : KernelCall) :
  In (bm3d k) tr <-> In k (kernel_calls tr).
Proof.
  unfold kernel_calls. rewrite in_flat_map. split.
  - intros H. exists (bm3d k). split; [exact H | left; reflexivity].
  - intros (e & He & Hk). destruct e; simpl in Hk; try contradiction.
    destruct Hk as [<- | []]. exact He.
Qed.

Lemma expected_reads (n : Z) (w : World) (t : thread_id) (k : KernelCall) (p : ptr) :
  In k (expected_calls n w t) ->
  In p (srcps k ++ default [] (refps k)) ->
  exists f plane,
    p = getReadPtr f plane
    /\ In f (window n (inst w) (node (inst w)) ++ ref_window n (inst w)).
Proof.
  assert (Hjoint : forall l,
             In p (flat_map (fun plane => map (fun frame => getReadPtr frame plane) l)
                     [0; 1; 2]) ->
             exists f plane, p = getReadPtr f plane /\ In f l).
  { intros l H. apply in_flat_map in H. destruct H as (plane & _ & H).
    apply in_map_iff in H. destruct H as (f & <- & Hf). eauto. }
  assert (Hplane : forall l plane,
             In p (map (fun frame => getReadPtr frame plane) l) ->
             exists f plane, p = getReadPtr f plane /\ In f l).
  { intros l plane H. apply in_map_iff in H. destruct H as (f & <- & Hf). eauto. }
  unfold expected_calls. intros Hk Hp. apply in_app_or in Hp.
  destruct (chroma (inst w)).
  - destruct Hk as [<- | []]. unfold joint_call, kernel_of in Hp. cbn [srcps refps] in Hp.
    destruct Hp as [Hp | Hp].
    + destruct (Hjoint _ Hp) as (f & plane & E & Hf).
      exists f, plane. split; [exact E | apply in_or_app; left; exact Hf].
    + destruct (ref_node (inst w)); [| destruct Hp]. cbn [default] in Hp.
      destruct (Hjoint _ Hp) as (f & plane & E & Hf).
      exists f, plane. split; [exact E | apply in_or_app; right; exact Hf].
  - apply in_map_iff in Hk. destruct Hk as (q & <- & _).
    unfold plane_call, kernel_of in Hp. cbn [srcps refps] in Hp.
    destruct Hp as [Hp | Hp].
    + destruct (Hplane _ _ Hp) as (f & plane & E & Hf).
      exists f, plane. split; [exact E | apply in_or_app; left; exact Hf].
    + destruct (ref_node (inst w)); [| destruct Hp]. cbn [default] in Hp.
      destruct (Hplane _ _ Hp) as (f & plane & E & Hf).
      exists f, plane. split; [exact E | apply in_or_app; right; exact Hf].
Qed.

(** X12: at every kernel call of a frame production, each source and
    reference pointer the call is handed is a plane of a frame that the
    production has fetched before the call, and no frame has been released
    by then: the kernel never reads a frame that was not obtained or that
    was given back. *)
Theorem kernel_reads_held_frames (w : World) (n : Z) (t : thread_id)
    (pre post : list Event) (k : KernelCall) (p : ptr) :
  trace (BM3DGetFrame n arAllFramesReady t w) = pre ++ bm3d k :: post ->
  In p (srcps k ++ default [] (refps k)) ->
  frees pre = []
  /\ exists f plane, p = getReadPtr f plane
                     /\ In (frame_n f, frame_node f) (fetches pre).
Proof.
  intros E Hp.
  rewrite get_frame_ready, produce_run in E. cbn [trace snd] in E.
  rewrite !app_assoc in E. rewrite <- !app_assoc in E.
  set (F := map (fun f => getFrameFilter (frame_n f) (frame_node f))
              (window n (inst w) (node (inst w)))) in *.
  set (R := map (fun f => getFrameFilter (frame_n f) (frame_node f))
              (ref_window n (inst w))) in *.
  set (D := trace (make_dst (inst w) (center_frame n (inst w)) w)) in *.
  set (Z := map freeFrame (window n (inst w) (node (inst w)))
            ++ map freeFrame (ref_window n (inst w)) ++ tag_events (inst w)) in *.
  assert (E' : (F ++ R ++ D) ++ trace (filter_body n (inst w) t w) ++ Z
               = pre ++ bm3d k :: post)
    by (rewrite <- E, <- !app_assoc; reflexivity).
  assert (HkA : kernel_calls (F ++ R ++ D) = []).
  { unfold kernel_calls, F, R, D. rewrite !flat_map_app.
    rewrite !flat_map_map_nil by reflexivity.
    rewrite make_dst_reading by reflexivity. reflexivity. }
  assert (HkZ : kernel_calls Z = []).
  { unfold kernel_calls, Z. rewrite !flat_map_app.
    rewrite !flat_map_map_nil by reflexivity.
    rewrite tag_reading by reflexivity. reflexivity. }
  destruct (split_after_prefix _ _ _ _ _ E') as (pre' & -> & Eb).
  { rewrite kernel_calls_In, HkA. intros []. }
  destruct (split_before_suffix _ _ _ _ _ Eb) as (post' & Ebody).
  { rewrite kernel_calls_In, HkZ. intros []. }
  assert (Hfree : frees (trace (filter_body n (inst w) t w)) = []).
  { assert (Hg : ignores_memory
                   (fun e => match e with freeFrame f => [f] | _ => [] end))
      by (repeat split).
    apply (silent_filter_body _ Hg n (inst w) t w). }
  split.
  - rewrite Ebody in Hfree. unfold frees in *. rewrite !flat_map_app in *.
    apply app_eq_nil in Hfree. destruct Hfree as [-> _].
    unfold F, R, D. rewrite !flat_map_map_nil by reflexivity.
    rewrite make_dst_reading by reflexivity. reflexivity.
  - assert (Hk : In k (expected_calls n w t)).
    { destruct (body_facts n t w) as (_ & <- & _).
      apply kernel_calls_In. rewrite Ebody. apply in_or_app. right. left. reflexivity. }
    destruct (expected_reads n w t k p Hk Hp) as (f & plane & Ep & Hf).
    exists f, plane. split; [exact Ep |].
    unfold fetches. rewrite !flat_map_app. apply in_or_app. left.
    fold (fetches F). fold (fetches R). unfold F, R. rewrite !fetches_window.
    apply in_app_or in Hf. destruct Hf as [Hf | Hf].
    + apply in_or_app. left. apply in_map_iff. exists f. split; [reflexivity | exact Hf].
    + apply in_or_app. right. apply in_or_app. left.
      apply in_map_iff. exists f. split; [reflexivity | exact Hf].
Qed.

(** ** The node handles of an instance *)

(** X13: an instance that was registered releases at teardown, whatever
    activations it served, the two handles its construction took and no
    other: the clip, and the reference clip if one was given (the null
    handle otherwise), each once and in this order. *)
Theorem instance_releases_nodes (in_ : VSMap) (numThreads : Z) (d : BM3DData)
    (calls : list Invocation) (a : nat) :
  In d (created (BM3DCreate in_ numThreads)) ->
  host_calls (BM3DFree (inst (serve calls {| inst := d; allocations := a |}).1))
  = [ freeNode (Some (in_clip in_)); freeNode (propGet (in_ref in_) 0) ].
Proof.
  intros Hd. destruct (created_configured _ _ _ Hd) as [-> _].
  rewrite (config_table _ _ (serve_config calls {| inst := configured in_; allocations := a |})).
  unfold BM3DFree, host_calls. rewrite flat_map_app.
  assert (Hnone : forall l : list (thread_id * ptr),
             flat_map (fun c => match c with host e => [e] | _ => [] end)
               (map (fun p => vs_aligned_free p.2) l) = [])
    by (induction l as [| x rest IH]; [reflexivity | exact IH]).
  rewrite Hnone. reflexivity.
Qed.

(** ** The planes of a spatial output *)

(** X14: in spatial per-plane mode no plane of the output is left as
    allocated: a plane of the frame produced is new memory exactly when its
    flag is on, and then a kernel call has it as a destination; a plane
    whose flag is off is the plane of the center source frame, and no kernel
    call has it as a destination.  (In joint mode the one kernel call is
    handed all three planes, whatever the flags.) *)
Theorem spatial_output_complete (w : World) (n : Z) (t : thread_id) (i : nat) :
  radius (inst w) = 0 ->
  chroma (inst w) = false ->
  (i < 3)%nat ->
  Z.of_nat i < numPlanes (deref (format (vi (inst w)))) ->
  exists dst,
    result (BM3DGetFrame n arAllFramesReady t w) = Some dst
    /\ plane_source dst i
       = (if nth i (process (inst w)) false then None
          else Some (center_frame n (inst w), Z.of_nat i))
    /\ (plane_source dst i = None ->
        exists k, In k (kernel_calls (trace (BM3DGetFrame n arAllFramesReady t w)))
                  /\ In (getWritePtr (Z.of_nat i)) (dstps k))
    /\ (plane_source dst i <> None ->
        forall k, In k (kernel_calls (trace (BM3DGetFrame n arAllFramesReady t w))) ->
                  ~ In (getWritePtr (Z.of_nat i)) (dstps k)).
Proof.
  intros HR Hc Hi Hplanes.
  rewrite ready_calls, get_frame_ready, produce_run. cbn [result fst].
  eexists. split; [reflexivity |].
  assert (Hsrc : plane_source (result (make_dst (inst w) (center_frame n (inst w)) w)) i
                 = (if nth i (process (inst w)) false then None
                    else Some (center_frame n (inst w), Z.of_nat i))).
  { unfold make_dst. rewrite HR. cbn [Z.eqb].
    unfold io_newVideoFrame2, plane_source.
    rewrite io_bind_run. cbn [result mret IO_ret fst fr_planeSrc].
    destruct i as [| [| [| i]]]; [| | | lia]; cbn;
      match goal with |- context [if ?b then _ else _] => destruct b end; reflexivity. }
  split; [exact Hsrc |].
  rewrite Hsrc. split.
  - intros Hnone.
    assert (Hon : nth i (process (inst w)) false = true)
      by (destruct (nth i (process (inst w)) false); [reflexivity | discriminate Hnone]).
    unfold expected_calls. rewrite Hc.
    exists (plane_call (inst w) (window n (inst w) (node (inst w)))
              (ref_window n (inst w)) (center_frame n (inst w)) (scratch_of w t)
              (Z.of_nat i)).
    split.
    + apply in_map, processed_planes. split; [| unfold processed].
      * split; [lia | exact Hplanes].
      * rewrite Nat2Z.id. exact Hon.
    + unfold plane_call, kernel_of. cbn [dstps]. left. reflexivity.
  - intros Hsome k Hk Hin.
    pose proof (expected_shape n t w k Hk) as Hs. rewrite Hc in Hs.
    destruct Hs as (plane & Hd & Hon).
    rewrite Hd in Hin. destruct Hin as [[= ->] | []].
    rewrite Nat2Z.id in Hon. rewrite Hon in Hsome. apply Hsome. reflexivity.
Qed.

(** ** The registered signature *)

Lemma filled_ints_single (supplied : list Z) (dflt : Z) :
  (length supplied <= 1)%nat -> exists v, filled_ints supplied dflt = [v; v; v].
Proof.
  intros H. destruct supplied as [| x [| y rest]]; [| | simpl in H; lia];
    eexists; reflexivity.
Qed.

(** X15: the entry point registers one function, [BM3D], constructed by
    [BM3DCreate], and its argument string declares every key [BM3DCreate]
    reads, with the type of the getter that reads it.  The string declares
    [ps_num] and [ps_range] as single integers, not arrays: in an instance
    made from a map the signature admits, the three entries of [ps_num] are
    equal, and so are the three of [ps_range], although the loops read one
    entry per plane. *)
Theorem registered_signature (version : Z) (name args : string)
    (f : VSMap -> Z -> list Event) :
  In (name, args, f) (registrations (VapourSynthPluginInit version)) ->
  name = "BM3D" /\ f = BM3DCreate
  /\ (forall key ty, In (key, ty) keys_read ->
        exists a, In a (parse_args args) /\ arg_name a = key /\ arg_type a = ty)
  /\ (forall in_ numThreads d,
        callable (parse_args args) in_ = true ->
        In d (created (f in_ numThreads)) ->
        (exists v, ps_num d = [v; v; v]) /\ (exists v, ps_range d = [v; v; v])).
Proof.
  intros [[= <- <- <-] | []].
  split; [reflexivity |]. split; [reflexivity |].
  assert (Hsig : parse_args
                   ("clip:clip;" +:+ "ref:clip:opt;" +:+ "sigma:float[]:opt;"
                    +:+ "block_step:int[]:opt;" +:+ "bm_range:int[]:opt;"
                    +:+ "radius:int:opt;" +:+ "ps_num:int:opt;" +:+ "ps_range:int:opt;"
                    +:+ "chroma:int:opt;")
                 = [ {| arg_name := "clip"; arg_type := "clip"; arg_array := false;
                        arg_opt := false |};
                     {| arg_name := "ref"; arg_type := "clip"; arg_array := false;
                        arg_opt := true |};
                     {| arg_name := "sigma"; arg_type := "float"; arg_array := true;
                        arg_opt := true |};
                     {| arg_name := "block_step"; arg_type := "int"; arg_array := true;
                        arg_opt := true |};
                     {| arg_name := "bm_range"; arg_type := "int"; arg_array := true;
                        arg_opt := true |};
                     {| arg_name := "radius"; arg_type := "int"; arg_array := false;
                        arg_opt := true |};
                     {| arg_name := "ps_num"; arg_type := "int"; arg_array := false;
                        arg_opt := true |};
                     {| arg_name := "ps_range"; arg_type := "int"; arg_array := false;
                        arg_opt := true |};
                     {| arg_name := "chroma"; arg_type := "int"; arg_array := false;
                        arg_opt := true |} ])
    by (vm_compute; reflexivity).
  rewrite Hsig. split.
  - intros key ty Hin. rewrite <- Hsig.
    assert (Hall : forallb
                     (fun kt =>
                        existsb (fun a => String.eqb (arg_name a) kt.1
                                          && String.eqb (arg_type a) kt.2)
                          (parse_args
                             ("clip:clip;" +:+ "ref:clip:opt;" +:+ "sigma:float[]:opt;"
                              +:+ "block_step:int[]:opt;" +:+ "bm_range:int[]:opt;"
                              +:+ "radius:int:opt;" +:+ "ps_num:int:opt;"
                              +:+ "ps_range:int:opt;" +:+ "chroma:int:opt;")))
                     keys_read = true)
      by (vm_compute; reflexivity).
    rewrite forallb_forall in Hall. specialize (Hall _ Hin). cbn [fst snd] in Hall.
    apply existsb_exists in Hall. destruct Hall as (a & Ha & Hb).
    apply andb_true_iff in Hb. destruct Hb as [Hn Ht].
    apply String.eqb_eq in Hn, Ht. exists a. repeat split; assumption.
  - intros in_ numThreads d Hcall Hd.
    destruct (created_configured _ _ _ Hd) as [-> _].
    cbn [configured ps_num ps_range].
    unfold callable, supplied_counts in Hcall. cbn [forallb] in Hcall.
    repeat (apply andb_true_iff in Hcall; destruct Hcall as [? Hcall]).
    split; apply filled_ints_single.
    + match goal with
      | H : context [length (in_ps_num in_)] |- _ =>
          destruct (length (in_ps_num in_)) as [| [| ?]] eqn:E;
          [lia | lia | vm_compute in H; discriminate H]
      end.
    + match goal with
      | H : context [length (in_ps_range in_)] |- _ =>
          destruct (length (in_ps_range in_)) as [| [| ?]] eqn:E;
          [lia | lia | vm_compute in H; discriminate H]
      end.
Qed.

(** ** The planes of a temporal output *)

End Filter.

(** ** The properties on the sample clip *)

Lemma frame_window_witness :
  fetches (trace (BM3DGetFrame Sample.row_stride Sample.num_planes 0 arAllFramesReady 7%nat
                    (Sample.start Sample.temporal_guided)))
  = [ (0, Sample.clip); (0, Sample.clip); (0, Sample.clip); (1, Sample.clip);
      (2, Sample.clip);
      (0, Sample.guide); (0, Sample.guide); (0, Sample.guide); (1, Sample.guide);
      (2, Sample.guide) ].
Proof.
  exact (proj1 (proj2 (proj2 (proj2
           (frame_window Sample.row_stride Sample.num_planes
              (Sample.start Sample.temporal_guided) 0 7%nat
              ltac:(vm_compute; discriminate)
              ltac:(vm_compute; split; [discriminate | reflexivity])
              ltac:(vm_compute; discriminate)
              ltac:(vm_compute; discriminate)
              ltac:(vm_compute; discriminate)))))).
Defined.

Lemma output_geometry_witness :
  exists dst,
    result (BM3DGetFrame Sample.row_stride Sample.num_planes 0 arAllFramesReady 7%nat
              (Sample.start Sample.temporal_guided)) = Some dst
    /\ fr_width dst = 64 /\ fr_height dst = 640.
Proof.
  destruct (output_geometry Sample.row_stride Sample.num_planes
              (Sample.start Sample.temporal_guided) 0 7%nat
              ltac:(vm_compute; reflexivity)
              ltac:(vm_compute; discriminate)
              ltac:(vm_compute; reflexivity)
              ltac:(vm_compute; discriminate))
    as (dst & Hres & _ & Hw & _ & _ & HR).
  exists dst. split; [exact Hres |]. split; [exact Hw |].
  exact (proj1 (HR ltac:(vm_compute; reflexivity))).
Defined.

Lemma unprocessed_plane_passthrough_witness :
  exists dst,
    result (BM3DGetFrame Sample.row_stride Sample.num_planes 3 arAllFramesReady 7%nat
              (Sample.start Sample.spatial_luma_only)) = Some dst
    /\ plane_source dst 1%nat = Some ({| frame_node := Sample.clip; frame_n := 3 |}, 1).
Proof.
  destruct (unprocessed_plane_passthrough Sample.row_stride Sample.num_planes
              (Sample.start Sample.spatial_luma_only) 3 7%nat 1%nat
              ltac:(vm_compute; reflexivity)
              ltac:(vm_compute; reflexivity)
              ltac:(lia)
              ltac:(vm_compute; reflexivity)
              ltac:(vm_compute; split; [discriminate | reflexivity])
              ltac:(vm_compute; discriminate)
              (heap_table_empty (Sample.start Sample.spatial_luma_only)
                 ltac:(vm_compute; reflexivity)))
    as (dst & Hres & Hsrc & _).
  exists dst. split; [exact Hres | exact Hsrc].
Defined.

Lemma joint_mode_ignores_flags_witness :
  process (inst (Sample.start Sample.joint_all_off)) = [false; false; false]
  /\ length (kernel_calls
               (trace (BM3DGetFrame Sample.row_stride Sample.num_planes 0 arAllFramesReady 7%nat
                         (Sample.start Sample.joint_all_off)))) = 1%nat.
Proof.
  split; [vm_compute; reflexivity |].
  rewrite (proj1 (joint_mode_ignores_flags Sample.row_stride Sample.num_planes
                    (Sample.start Sample.joint_all_off) 0 7%nat
                    ltac:(vm_compute; reflexivity))).
  reflexivity.
Defined.



(** ** The further properties on the sample clip *)

Lemma fetched_iff_requested_witness :
  In (1, Sample.guide)
    (fetches (trace (BM3DGetFrame Sample.row_stride Sample.num_planes 0 arAllFramesReady
                       7%nat (Sample.start Sample.temporal_guided))))
  <-> In (1, Sample.guide)
        (requests (trace (BM3DGetFrame Sample.row_stride Sample.num_planes 0 arInitial
                            8%nat (Sample.start Sample.temporal_guided)))).
Proof.
  apply (fetched_iff_requested Sample.row_stride Sample.num_planes
           (Sample.start Sample.temporal_guided) 0 7%nat 8%nat 1 Sample.guide).
  - vm_compute. discriminate.
  - vm_compute. split; [discriminate | reflexivity].
  - vm_compute. discriminate.
  - vm_compute. discriminate.
Defined.

Lemma process_tag_matches_calls_witness :
  exists flags,
    property_events
      (trace (BM3DGetFrame Sample.row_stride Sample.num_planes 0 arAllFramesReady 7%nat
                (Sample.start Sample.temporal_luma_only)))
    = [ propSetInt "BM3D_V_radius" 1 paReplace; propSetIntArray "BM3D_V_process" flags ]
    /\ (nth 1 flags 0 = 1
        <-> exists k,
              In k (kernel_calls
                      (trace (BM3DGetFrame Sample.row_stride Sample.num_planes 0
                                arAllFramesReady 7%nat
                                (Sample.start Sample.temporal_luma_only))))
              /\ dstps k = [getWritePtr 1]).
Proof.
  apply (process_tag_matches_calls Sample.row_stride Sample.num_planes
           (Sample.start Sample.temporal_luma_only) 0 7%nat 1).
  - vm_compute. discriminate.
  - vm_compute. reflexivity.
  - vm_compute. discriminate.
  - vm_compute. split; [discriminate | reflexivity].
Defined.

Lemma scratch_writes_in_bounds_witness :
  writes_within Sample.num_planes
    (heap_after []
       (trace (BM3DGetFrame Sample.row_stride Sample.num_planes 0 arAllFramesReady 7%nat
                 (Sample.start Sample.spatial_luma_only))))
    (trace (BM3DGetFrame Sample.row_stride Sample.num_planes 1 arAllFramesReady 7%nat
              (world (BM3DGetFrame Sample.row_stride Sample.num_planes 0 arAllFramesReady
                        7%nat (Sample.start Sample.spatial_luma_only))))).
Proof.
  apply (scratch_writes_in_bounds Sample.row_stride Sample.num_planes).
  - vm_compute. reflexivity.
  - intros _ p q _ _.
    unfold plane_bytes, stride_of, getStride, getFrameHeight, Sample.row_stride.
    destruct (p =? 0), (q =? 0); vm_compute; discriminate.
  - intros p Hp. vm_compute in Hp. injection Hp as <-.
    exists 32768. split; [vm_compute; reflexivity | vm_compute; left; reflexivity].
Defined.

Lemma accepted_parameters_witness :
  Forall (fun v => 1 <= v <= 8) (block_step (Sample.data Sample.temporal_guided))
  /\ 0 <= radius (Sample.data Sample.temporal_guided) <= Int.INT_MAX.
Proof.
  pose proof (accepted_parameters Sample.temporal_guided 4
                (Sample.data Sample.temporal_guided)
                ltac:(vm_compute; left; reflexivity)) as H.
  split; [apply H | apply H].
Defined.

Lemma nan_sigma_accepted_witness :
  sigma (Sample.data nan_sigma) !! 0%nat = Some S754_nan
  /\ process (Sample.data nan_sigma) !! 0%nat = Some true.
Proof.
  apply (nan_sigma_accepted nan_sigma 4 (Sample.data nan_sigma) 0).
  - lia.
  - reflexivity.
  - vm_compute. left. reflexivity.
Defined.

Lemma kernel_reads_held_frames_witness :
  frees
    (firstn 4
       (trace (BM3DGetFrame Sample.row_stride Sample.num_planes 3 arAllFramesReady 7%nat
                 (Sample.start Sample.spatial_luma_only)))) = []
  /\ exists f plane,
       getReadPtr {| frame_node := Sample.clip; frame_n := 3 |} 0 = getReadPtr f plane
       /\ In (frame_n f, frame_node f)
            (fetches
               (firstn 4
                  (trace (BM3DGetFrame Sample.row_stride Sample.num_planes 3
                            arAllFramesReady 7%nat
                            (Sample.start Sample.spatial_luma_only))))).
Proof.
  apply (kernel_reads_held_frames Sample.row_stride Sample.num_planes
           (Sample.start Sample.spatial_luma_only) 3 7%nat _
           (skipn 5
              (trace (BM3DGetFrame Sample.row_stride Sample.num_planes 3
                        arAllFramesReady 7%nat (Sample.start Sample.spatial_luma_only))))
           (plane_call Sample.row_stride (inst (Sample.start Sample.spatial_luma_only))
              (window 3 (inst (Sample.start Sample.spatial_luma_only)) Sample.clip) []
              {| frame_node := Sample.clip; frame_n := 3 |} (heap_block 0) 0)).
  - vm_compute. reflexivity.
  - vm_compute. left. reflexivity.
Defined.

Lemma instance_releases_nodes_witness :
  host_calls
    (BM3DFree
       (inst (serve Sample.row_stride Sample.num_planes [ (0, arAllFramesReady, 7%nat) ]
                {| inst := Sample.data Sample.temporal_guided; allocations := 0 |}).1))
  = [ freeNode (Some Sample.clip); freeNode (Some Sample.guide) ].
Proof.
  apply (instance_releases_nodes Sample.row_stride Sample.num_planes
           Sample.temporal_guided 4 (Sample.data Sample.temporal_guided)
           [ (0, arAllFramesReady, 7%nat) ] 0%nat).
  vm_compute. left. reflexivity.
Defined.

Lemma spatial_output_complete_witness :
  exists dst,
    result (BM3DGetFrame Sample.row_stride Sample.num_planes 3 arAllFramesReady 7%nat
              (Sample.start Sample.spatial_luma_only)) = Some dst
    /\ plane_source dst 0 = None
    /\ exists k,
         In k (kernel_calls
                 (trace (BM3DGetFrame Sample.row_stride Sample.num_planes 3
                           arAllFramesReady 7%nat
                           (Sample.start Sample.spatial_luma_only))))
         /\ In (getWritePtr 0) (dstps k).
Proof.
  destruct (spatial_output_complete Sample.row_stride Sample.num_planes
              (Sample.start Sample.spatial_luma_only) 3 7%nat 0%nat
              ltac:(vm_compute; reflexivity) ltac:(vm_compute; reflexivity) ltac:(lia)
              ltac:(vm_compute; reflexivity))
    as (dst & Hres & Hsrc & Hcall & _).
  exists dst. split; [exact Hres |]. split; [exact Hsrc |].
  apply Hcall. exact Hsrc.
Defined.

Lemma registered_signature_witness :
  (exists v, ps_num (Sample.data Sample.temporal_guided) = [v; v; v])
  /\ (exists v, ps_range (Sample.data Sample.temporal_guided) = [v; v; v]).
Proof.
  destruct (registered_signature 196614 "BM3D"
              ("clip:clip;" +:+ "ref:clip:opt;" +:+ "sigma:float[]:opt;"
               +:+ "block_step:int[]:opt;" +:+ "bm_range:int[]:opt;"
               +:+ "radius:int:opt;" +:+ "ps_num:int:opt;" +:+ "ps_range:int:opt;"
               +:+ "chroma:int:opt;")
              BM3DCreate ltac:(left; reflexivity))
    as (_ & _ & _ & H).
  apply (H Sample.temporal_guided 4 (Sample.data Sample.temporal_guided)).
  - vm_compute. reflexivity.
  - vm_compute. left. reflexivity.
Defined.

